(** * Browser-fingerprint detection: scoring, persistence and noise classifiers

    A shallow embedding of the Go backend ([internal/services/fingerprint.go],
    [internal/utils/database.go], [internal/models]) and of the JavaScript
    collectors ([static/js/utils/*.js], [static/js/modern-fingerprint.js],
    [static/js/fingerprint.js]).

    Conventions.
    - Go [float64] and JavaScript numbers are embedded as rationals [Q]; the
      literals [0.7], [0.15], ... are the exact decimal fractions.  Every
      comparison and sum below is written exactly as in the source.  Sums of
      such literals can differ from the source's binary64 sums in the last
      place ([0.3 + 0.1 + 0.2 + 0.1] is [0.7000000000000001] there).
    - The audio confidence [Math.min(0.95, 0.6 + noiseIndicators * 0.15)] is
      computed in binary64 itself, on the primitive floats, and recorded as
      the rational that the resulting double denotes ([Double.toQ]).
    - Strings are byte strings ([string]); [len] is [String.length].
    - [time.Now()] / [Date.now()] are explicit arguments.
    - Rendering, read-back and digest primitives of the browser are inputs. *)

From Stdlib Require Import ZArith QArith Qabs Qminmax Bool List Ascii String.
From Stdlib.Strings Require Import Byte.
From Stdlib Require Import Lia Lqa Permutation Sorted Mergesort Orders RelationClasses.
From Stdlib Require PrimFloat SpecFloat FloatOps.
Import ListNotations.

Open Scope string_scope.

(* Decimal literals of doubles stand for the nearest binary64 value. *)
Set Warnings "-inexact-float".

(** * Part I: the embedding *)

(** ** Rational comparisons as booleans *)

Definition Qltb (x y : Q) : bool := negb (Qle_bool y x).
Definition Qgtb (x y : Q) : bool := Qltb y x.

(** ** Byte strings: the fragments of Go's [strings] package that are used *)

Definition lower_ascii (c : ascii) : ascii :=
  let n := nat_of_ascii c in
  if andb (65 <=? n)%nat (n <=? 90)%nat then ascii_of_nat (n + 32) else c.

(** [strings.ToLower] on ASCII text: bytes outside ['A'..'Z'] are kept.  (Go
    also lowers the letters beyond ASCII; user agents are ASCII.) *)
Fixpoint ToLower (s : string) : string :=
  match s with
  | EmptyString => EmptyString
  | String c s' => String (lower_ascii c) (ToLower s')
  end.

(** [strings.Contains s sub]. *)
Fixpoint Contains (s sub : string) : bool :=
  orb (String.prefix sub s)
      match s with
      | EmptyString => false
      | String _ s' => Contains s' sub
      end.

(** Go's [len] on strings and slices. *)
Definition len (s : string) : Z := Z.of_nat (String.length s).
Definition llen {A} (l : list A) : Z := Z.of_nat (List.length l).

(** [strings.Join parts sep], also [Array.prototype.join]. *)
Definition Join (parts : list string) (sep : string) : string :=
  String.concat sep parts.

(** ** Hex encoding of digests: [hex.EncodeToString] and [CryptoUtils.buf2hex] *)

Definition hexdigit (n : nat) : ascii :=
  nth n ["0"; "1"; "2"; "3"; "4"; "5"; "6"; "7"; "8"; "9";
         "a"; "b"; "c"; "d"; "e"; "f"]%char "f"%char.

Definition byte2hex (b : byte) : string :=
  let n := Byte.to_nat b in
  String (hexdigit (n / 16)%nat) (String (hexdigit (n mod 16)%nat) EmptyString).

Fixpoint buf2hex (buffer : list byte) : string :=
  match buffer with
  | [] => EmptyString
  | b :: rest => byte2hex b ++ buf2hex rest
  end.

Definition is_lower_hex (c : ascii) : bool :=
  let n := nat_of_ascii c in
  orb (andb (48 <=? n)%nat (n <=? 57)%nat) (andb (97 <=? n)%nat (n <=? 102)%nat).

Fixpoint all_chars (p : ascii -> bool) (s : string) : bool :=
  match s with
  | EmptyString => true
  | String c s' => andb (p c) (all_chars p s')
  end.

(** ** The Go backend *)

Module Backend.

(** *** [internal/models] *)

(** A JSON text column holding a string array ([Fonts], [Plugins]).  It is
    either the encoding of a list ([StringSliceToJSON]) or text that
    [json.Unmarshal] rejects. *)
Inductive JSONText :=
| JSONArray (items : list string)
| JSONMalformed.

Definition StringSliceToJSON (slice : list string) : JSONText := JSONArray slice.

Definition JSONToStringSlice (jsonStr : JSONText) : list string :=
  match jsonStr with
  | JSONArray items => items
  | JSONMalformed => []
  end.

Record NoiseDetection := {
  HasNoise : bool;
  Type_ : string;
  Confidence : Q;
  Details : string
}.

Record FingerprintRequest := {
  req_FingerprintHash : string;
  req_UserAgent : string;
  req_ScreenResolution : string;
  req_Timezone : string;
  req_Language : string;
  req_Platform : string;
  req_Canvas : string;
  req_WebGL : string;
  req_Audio : string;
  req_Fonts : list string;
  req_Plugins : list string;
  req_TouchSupport : bool;
  req_CookieEnabled : bool;
  req_DoNotTrack : string;
  CanvasNoiseDetection : option NoiseDetection;
  WebGLNoiseDetection : option NoiseDetection;
  AudioNoiseDetection : option NoiseDetection
}.

Record Fingerprint := {
  FingerprintHash : string;
  UserAgent : string;
  ScreenResolution : string;
  Timezone : string;
  Language : string;
  Platform : string;
  Canvas : string;
  CanvasHash : string;
  WebGL : string;
  WebGLHash : string;
  Audio : string;
  AudioHash : string;
  Fonts : JSONText;
  Plugins : JSONText;
  TouchSupport : bool;
  CookieEnabled : bool;
  DoNotTrack : string;
  IPAddress : string;
  CreatedAt : Z;
  UpdatedAt : Z
}.

(** A row of the [analysis] table.  The [id] and [reasons] columns are left
    out: the service never reads them back. *)
Record Analysis := {
  a_FingerprintHash : string;
  UniquenessScore : Q;
  BotScore : Q;
  RiskLevel : string;
  IsBot : bool;
  VisitCount : Z;
  LastSeen : Z;
  a_CreatedAt : Z;
  a_UpdatedAt : Z
}.

(** *** [FingerprintService]: the scores *)

Definition botKeywords : list string :=
  ["bot"; "crawler"; "spider"; "scraper"; "headless"; "phantom"; "selenium"].

Definition calculateUniquenessScore (fp : Fingerprint) : Q :=
  let score := 0 in
  let score := if negb (UserAgent fp =? "")%string then score + (1#10) else score in
  let score := if negb (Canvas fp =? "")%string then score + (3#10) else score in
  let score := if negb (WebGL fp =? "")%string then score + (2#10) else score in
  let score := if negb (Audio fp =? "")%string then score + (15#100) else score in
  let fonts := JSONToStringSlice (Fonts fp) in
  let score := if (0 <? llen fonts)%Z then score + (15#100) else score in
  let plugins := JSONToStringSlice (Plugins fp) in
  let score := if (0 <? llen plugins)%Z then score + (1#10) else score in
  score.

(** The static penalties of [calculateBotScore] before the final clamp. *)
Definition staticPenalties (fp : Fingerprint) : Q :=
  let score := 0 in
  let ua := ToLower (UserAgent fp) in
  (* the keyword loop adds 0.3 once and breaks *)
  let score := if existsb (fun keyword => Contains ua keyword) botKeywords
               then score + (3#10) else score in
  let score := if andb (negb (TouchSupport fp)) (Contains ua "mobile")
               then score + (1#10) else score in
  let score := if orb (len (Canvas fp) <? 100)%Z (10000 <? len (Canvas fp))%Z
               then score + (2#10) else score in
  let score := if orb (WebGL fp =? "")%string (WebGL fp =? "undefined")%string
               then score + (15#100) else score in
  let fonts := JSONToStringSlice (Fonts fp) in
  let score := if orb (llen fonts <? 5)%Z (200 <? llen fonts)%Z
               then score + (1#10) else score in
  let plugins := JSONToStringSlice (Plugins fp) in
  let score := if orb (llen plugins =? 0)%Z (50 <? llen plugins)%Z
               then score + (1#10) else score in
  let score := if orb (ScreenResolution fp =? "0x0")%string (ScreenResolution fp =? "")%string
               then score + (15#100) else score in
  score.

(** [if score > 1.0 { score = 1.0 }] *)
Definition clampUpper (score : Q) : Q := if Qgtb score 1 then 1 else score.

Definition calculateBotScore (fp : Fingerprint) : Q :=
  clampUpper (staticPenalties fp).

(** The three [switch] blocks of [calculateBotScoreWithNoise]; a block whose
    guard or cases do not match leaves [score] untouched. *)
Definition addCanvasNoise (score : Q) (nd : option NoiseDetection) : Q :=
  match nd with
  | Some d =>
      if HasNoise d then
        if (Type_ d =? "random_noise")%string then score + (4#10) * Confidence d
        else if (Type_ d =? "pixel_noise")%string then score + (3#10) * Confidence d
        else if (Type_ d =? "high_entropy")%string then score + (2#10) * Confidence d
        else score
      else score
  | None => score
  end.

Definition addWebGLNoise (score : Q) (nd : option NoiseDetection) : Q :=
  match nd with
  | Some d =>
      if HasNoise d then
        if (Type_ d =? "webgl_random_noise")%string then score + (4#10) * Confidence d
        else if (Type_ d =? "webgl_parameter_anomaly")%string then score + (3#10) * Confidence d
        else score
      else score
  | None => score
  end.

Definition addAudioNoise (score : Q) (nd : option NoiseDetection) : Q :=
  match nd with
  | Some d =>
      if HasNoise d then
        if (Type_ d =? "audio_anomaly")%string then score + (2#10) * Confidence d
        else score
      else score
  | None => score
  end.

Definition calculateBotScoreWithNoise (fp : Fingerprint) (req : FingerprintRequest) : Q :=
  let score := calculateBotScore fp in
  let score := addCanvasNoise score (CanvasNoiseDetection req) in
  let score := addWebGLNoise score (WebGLNoiseDetection req) in
  let score := addAudioNoise score (AudioNoiseDetection req) in
  clampUpper score.

Definition calculateRiskLevel (uniquenessScore botScore : Q) : string :=
  if Qgtb botScore (7#10) then "HIGH"
  else if Qgtb botScore (4#10) then "MEDIUM"
  else "LOW".


(** *** The [analysis] table and [analyzeFingerprintWithNoise] *)

(** The table is the list of its rows, oldest first. *)
Definition AnalysisTable := list Analysis.

Definition hasHash (h : string) (row : Analysis) : bool :=
  (a_FingerprintHash row =? h)%string.

(** [SELECT visit_count, last_seen FROM analysis WHERE fingerprint_hash = ?]
    through [QueryRow]: the first matching row, or [sql.ErrNoRows]. *)
Definition queryRow (tbl : AnalysisTable) (h : string) : option Analysis :=
  find (hasHash h) tbl.

(** [INSERT OR REPLACE INTO analysis]: [fingerprint_hash] is [UNIQUE], so the
    rows in conflict with the new one are deleted before it is inserted. *)
Definition saveAnalysis (tbl : AnalysisTable) (analysis : Analysis) : AnalysisTable :=
  (filter (fun row => negb (hasHash (a_FingerprintHash analysis) row)) tbl
     ++ [analysis])%list.

(** Go's [int] is 64 bits wide on the supported targets. *)
Definition wrap64 (z : Z) : Z := ((z + 2 ^ 63) mod 2 ^ 64 - 2 ^ 63)%Z.
Definition maxInt64 : Z := (2 ^ 63 - 1)%Z.

(** What the database driver does during one call. *)
Inductive DbFault :=
| NoFault
| QueryFault   (* [Scan] returns an error other than [sql.ErrNoRows] *)
| ExecFault.   (* [saveAnalysis] returns an error *)

(** The clock is read once: the successive [time.Now()] calls of the source
    are taken to return the same instant [now]. *)
Definition analyzeFingerprintWithNoise
    (fault : DbFault) (now : Z) (tbl : AnalysisTable)
    (fp : Fingerprint) (req : FingerprintRequest)
  : AnalysisTable * option Analysis :=
  let uniquenessScore := calculateUniquenessScore fp in
  let botScore := calculateBotScoreWithNoise fp req in
  let riskLevel := calculateRiskLevel uniquenessScore botScore in
  let isBot := Qgtb botScore (7#10) in
  match fault with
  | QueryFault => (tbl, None)
  | _ =>
      let visitCount :=
        match queryRow tbl (FingerprintHash fp) with
        | None => 1%Z
        | Some row => wrap64 (VisitCount row + 1)
        end in
      let analysis :=
        {| a_FingerprintHash := FingerprintHash fp;
           UniquenessScore := uniquenessScore;
           BotScore := botScore;
           RiskLevel := riskLevel;
           IsBot := isBot;
           VisitCount := visitCount;
           LastSeen := now;
           a_CreatedAt := now;
           a_UpdatedAt := now |} in
      match fault with
      | ExecFault => (tbl, None)
      | _ => (saveAnalysis tbl analysis, Some analysis)
      end
  end.

(** A run of the service: the submissions in arrival order, each with the
    clock reading, the record built from it and the request. *)
Record Submission := {
  sub_now : Z;
  sub_fp : Fingerprint;
  sub_req : FingerprintRequest
}.

Definition submit (tbl : AnalysisTable) (s : Submission) : AnalysisTable :=
  fst (analyzeFingerprintWithNoise NoFault (sub_now s) tbl (sub_fp s) (sub_req s)).

Definition run (subs : list Submission) : AnalysisTable :=
  fold_left submit subs [].

(** *** [GenerateFingerprintHash] *)

(** The values stored in the [map[string]interface{}] by [ProcessFingerprint]. *)
Inductive GoValue :=
| VString (s : string)
| VStrings (l : list string)
| VBool (b : bool).

(** [fmt.Sprintf("%v", v)] *)
Definition Sprintf_v (v : option GoValue) : string :=
  match v with
  | Some (VString s) => s
  | Some (VStrings l) => "[" ++ Join l " " ++ "]"
  | Some (VBool true) => "true"
  | Some (VBool false) => "false"
  | None => "<nil>"
  end.

(** A Go map as the sequence of entries that [range] yields; the order is
    unspecified and the keys are pairwise distinct. *)
Definition GoMap := list (string * GoValue).

Fixpoint mapIndex (data : GoMap) (k : string) : option GoValue :=
  match data with
  | [] => None
  | (k', v) :: rest => if (k' =? k)%string then Some v else mapIndex rest k
  end.

Fixpoint insertSorted (k : string) (sorted : list string) : list string :=
  match sorted with
  | [] => [k]
  | x :: rest => if String.leb k x then k :: sorted else x :: insertSorted k rest
  end.

(** [sort.Strings]: ascending, bytewise lexicographic. *)
Definition sort_Strings (keys : list string) : list string :=
  fold_right insertSorted [] keys.

Section Digest.

(** [sha256.Sum256] *)
Variable sha256_Sum256 : string -> list byte.

Definition combinedParts (data : GoMap) : string :=
  let keys := map fst data in
  let keys := sort_Strings keys in
  let parts := map (fun k => k ++ ":" ++ Sprintf_v (mapIndex data k)) keys in
  Join parts "|".

Definition GenerateFingerprintHash (data : GoMap) : string :=
  let combined := combinedParts data in
  let hash := sha256_Sum256 combined in
  buf2hex hash.

End Digest.

End Backend.

(** ** The JavaScript collectors *)

(** *** Exceptions and JavaScript coercions *)

(** A computation either completes with a value or throws. *)
Inductive outcome (A : Type) :=
| Ok (value : A)
| Throw (message : string).
Arguments Ok {A} value.
Arguments Throw {A} message.

Definition bind {A B} (c : outcome A) (k : A -> outcome B) : outcome B :=
  match c with
  | Ok a => k a
  | Throw m => Throw m
  end.

Notation "x <- c ;; k" := (bind c (fun x => k))
  (at level 61, c at next level, right associativity).

(** [try { body } catch (e) { handler(e.message) }] *)
Definition tryCatch {A} (body : outcome A) (handler : string -> A) : A :=
  match body with
  | Ok a => a
  | Throw m => handler m
  end.

(** Reading a property of a value that may be [null] or [undefined]. *)
Definition deref {A} (v : option A) : outcome A :=
  match v with
  | Some a => Ok a
  | None => Throw "TypeError: cannot read properties of undefined"
  end.

(** [s || fallback] on a string-or-undefined value: [undefined] and the empty
    string are falsy. *)
Definition orString (s : option string) (fallback : string) : string :=
  match s with
  | Some v => if (v =? "")%string then fallback else v
  | None => fallback
  end.

(** [b || false] on a boolean-or-undefined value. *)
Definition orFalse (b : option bool) : bool :=
  match b with
  | Some v => v
  | None => false
  end.

(** [x || fallback] on a number-or-undefined value: [undefined] and [0] are
    falsy. *)
Definition orNumber (x : option Q) (fallback : Q) : Q :=
  match x with
  | Some v => if Qeq_bool v 0 then fallback else v
  | None => fallback
  end.

(** Truthiness of a number. *)
Definition truthy (x : Q) : bool := negb (Qeq_bool x 0).

(** [a !== b] on string-or-undefined values. *)
Definition strictNe (a b : option string) : bool :=
  match a, b with
  | Some x, Some y => negb (x =? y)%string
  | None, None => false
  | _, _ => true
  end.

(** [num / den > bound] for [num >= 0]: a zero divisor yields [Infinity] when
    [num > 0] and [NaN] when [num = 0]. *)
Definition quotientExceeds (num den bound : Q) : bool :=
  if Qeq_bool den 0 then Qgtb num 0 else Qgtb (num / den) bound.

(** *** Numbers as binary64 values *)

Module Double.
Import PrimFloat.

(** The rational a finite double denotes: sign, mantissa and exponent as
    [Prim2SF] gives them.  (Zeros read as 0; infinities and NaN are not
    reached where this is used.) *)
Definition toQ (x : float) : Q :=
  match FloatOps.Prim2SF x with
  | SpecFloat.S754_finite sign mantissa exponent =>
      let magnitude :=
        match exponent with
        | Z0 => inject_Z (Zpos mantissa)
        | Zpos p => inject_Z (Zpos mantissa * 2 ^ Zpos p)
        | Zneg p => Zpos mantissa # (2 ^ p)
        end in
      if sign then Qopp magnitude else magnitude
  | _ => 0%Q
  end.

(** A counter that was incremented [n] times from 0, as a Number. *)
Fixpoint ofNat (n : nat) : float :=
  match n with
  | O => 0%float
  | S n' => (ofNat n' + 1)%float
  end.

(** [Math.min(x, y)] on two numbers that are not NaN. *)
Definition Math_min (x y : float) : float := if (y <? x)%float then y else x.

End Double.

(** *** [CryptoUtils] *)

Section Crypto.

(** [crypto.subtle.digest('SHA-256', TextEncoder.encode(str))]; the promise
    may reject. *)
Variable subtle_digest : string -> outcome (list byte).

Definition hashString (str : string) : outcome string :=
  hashBuffer <- subtle_digest str ;;
  Ok (buf2hex hashBuffer).

End Crypto.

(** *** [AudioUtils] *)

Module AudioUtils.
Import PrimFloat.

(** What [runCompressorTest] resolves to.  [detailedFingerprint] is the object
    keyed by segment name, in insertion order, or [null]. *)
Record TestResult := {
  testIndex : nat;
  fingerprint : string;
  detailedFingerprint : option (list (string * string));
  renderTime : Q
}.

(** The object returned by [analyzeCompressorResults]; the last three
    properties are absent from the early and error returns.  The two display
    strings [details] and [simpleDetails] are left out.  [confidence] is the
    rational that the returned double denotes. *)
Record Analysis := {
  hasDynamicNoise : bool;
  confidence : Q;
  mainFingerprintMatch : option bool;
  testCount : option nat;
  noiseIndicators : option nat
}.

Definition unknownResult : Analysis :=
  {| hasDynamicNoise := false; confidence := 0;
     mainFingerprintMatch := None; testCount := None; noiseIndicators := None |}.

(** [obj[key]] *)
Fixpoint getProp (obj : list (string * string)) (key : string) : option string :=
  match obj with
  | [] => None
  | (k, v) :: rest => if (k =? key)%string then Some v else getProp rest key
  end.

(** [Object.keys(obj)] *)
Definition keys (obj : list (string * string)) : list string := map fst obj.

(** The [forEach] that counts the segments whose values differ. *)
Definition mismatchedSegments (d1 d2 : list (string * string)) : nat :=
  List.length
    (filter (fun segment => strictNe (getProp d1 segment) (getProp d2 segment))
            (keys d1)).

(** The body of the [try] block.  [testResults] is [None] when the argument is
    [null] or [undefined]; an array slot is [None] when it holds one of them. *)
Definition analyzeBody (testResults : option (list (option TestResult)))
  : outcome Analysis :=
  results <- deref testResults ;;
  if (List.length results <? 2)%nat then Ok unknownResult
  else
    let test1 := nth 0 results None in
    let test2 := nth 1 results None in
    t1 <- deref test1 ;;
    if (fingerprint t1 =? "error")%string then Ok unknownResult
    else
      t2 <- deref test2 ;;
      if (fingerprint t2 =? "error")%string then Ok unknownResult
      else
        let hasDynamicNoise := false in
        let noiseIndicators := 0%nat in
        (* main fingerprint *)
        let mainFingerprintMatch := (fingerprint t1 =? fingerprint t2)%string in
        let '(hasDynamicNoise, noiseIndicators) :=
          if negb mainFingerprintMatch
          then (true, S noiseIndicators)
          else (hasDynamicNoise, noiseIndicators) in
        (* per-segment fingerprints *)
        let '(hasDynamicNoise, noiseIndicators) :=
          match detailedFingerprint t1, detailedFingerprint t2 with
          | Some d1, Some d2 =>
              if (0 <? mismatchedSegments d1 d2)%nat
              then (true, S noiseIndicators)
              else (hasDynamicNoise, noiseIndicators)
          | _, _ => (hasDynamicNoise, noiseIndicators)
          end in
        (* render time *)
        let noiseIndicators :=
          if andb (truthy (renderTime t1)) (truthy (renderTime t2)) then
            let timeDiff := Qabs (renderTime t1 - renderTime t2) in
            let avgTime := (renderTime t1 + renderTime t2) / 2 in
            if quotientExceeds timeDiff avgTime (5#10)
            then S noiseIndicators else noiseIndicators
          else noiseIndicators in
        (* confidence, in binary64 as the source computes it *)
        let confidence :=
          Double.toQ
            (if hasDynamicNoise
             then Double.Math_min 0.95 (0.6 + Double.ofNat noiseIndicators * 0.15)
             else 0.8)%float in
        Ok {| hasDynamicNoise := hasDynamicNoise;
              confidence := confidence;
              mainFingerprintMatch := Some mainFingerprintMatch;
              testCount := Some (List.length results);
              noiseIndicators := Some noiseIndicators |}.

Definition analyzeCompressorResults (testResults : option (list (option TestResult)))
  : Analysis :=
  tryCatch (analyzeBody testResults) (fun _ => unknownResult).

End AudioUtils.

(** *** [CanvasUtils] *)

Module CanvasUtils.

Record PixelAnalysis := {
  hasNoise : bool;
  type : string;
  confidence : Q;
  totalPixels : Q;
  suspiciousPixels : nat;
  entropy : Q
}.

(** The test applied to one RGBA quadruple inside the loop. *)
Definition suspicious (r g b a : Z) : bool :=
  if (0 <? a)%Z then
    let variance := (Z.abs (r - g) + Z.abs (g - b) + Z.abs (b - r))%Z in
    andb (30 <? variance)%Z (variance <? 200)%Z
  else false.

(** [for (let i = 0; i < pixelData.length; i += 4)] over the flat
    [Uint8ClampedArray].  A trailing group of fewer than four bytes reads
    [a = undefined], and [undefined > 0] is false. *)
Fixpoint suspiciousCount (pixelData : list Z) : nat :=
  match pixelData with
  | r :: g :: b :: a :: rest =>
      ((if suspicious r g b a then 1 else 0) + suspiciousCount rest)%nat
  | _ => 0%nat
  end.

Section Entropy.

(** [Math.log2] *)
Variable Math_log2 : Q -> Q.

(** The red-channel histogram, one counter per byte value. *)
Fixpoint redChannel (pixelData : list Z) : list Z :=
  match pixelData with
  | r :: rest =>
      r :: match rest with
           | _ :: _ :: _ :: rest' => redChannel rest'
           | _ => []
           end
  | [] => []
  end.

Definition histogram (pixelData : list Z) : list nat :=
  map (fun v => count_occ Z.eq_dec (redChannel pixelData) (Z.of_nat v)) (seq 0 256).

Definition calculateSimpleEntropy (pixelData : list Z) : Q :=
  let totalPixels := inject_Z (Z.of_nat (List.length pixelData)) / 4 in
  fold_left
    (fun entropy count =>
       if (0 <? count)%nat then
         let probability := inject_Z (Z.of_nat count) / totalPixels in
         entropy - probability * Math_log2 probability
       else entropy)
    (histogram pixelData) 0.

(** [analyzePixels] on a typed array: nothing in the [try] block can throw,
    so the [catch] branch is not reached. *)
Definition analyzePixels (pixelData : list Z) : PixelAnalysis :=
  let count := suspiciousCount pixelData in
  let totalPixels := inject_Z (Z.of_nat (List.length pixelData)) / 4 in
  let suspiciousRatio := inject_Z (Z.of_nat count) / totalPixels in
  let entropy := calculateSimpleEntropy pixelData in
  if Qgtb suspiciousRatio (1#10) then
    {| hasNoise := true;
       type := "pixel_noise";
       confidence := Qmin (suspiciousRatio * 2) (95#100);
       totalPixels := totalPixels;
       suspiciousPixels := count;
       entropy := entropy |}
  else
    {| hasNoise := false;
       type := "pixel_clean";
       confidence := 8#10;
       totalPixels := totalPixels;
       suspiciousPixels := count;
       entropy := entropy |}.

End Entropy.

(** The object built by [detectRenderingConsistency], and the fallback object
    built by its caller when it throws.  [spoofingDetected] and
    [ct_confidence] are the properties [generateNoiseDetectionData] reads;
    [None] is a property the object literal does not define. *)
Record ConsistencyTest := {
  isConsistent : bool;
  hasDynamicNoise : option bool;
  uniqueResults : option nat;
  spoofingDetected : option bool;
  ct_confidence : option Q
}.

Definition detectRenderingConsistency (results : list string) : ConsistencyTest :=
  let first := nth 0 results "" in
  let isConsistent := forallb (fun data => (data =? first)%string) results in
  {| isConsistent := isConsistent;
     hasDynamicNoise := Some (negb isConsistent);
     uniqueResults := Some (List.length (nodup string_dec results));
     spoofingDetected := None;
     ct_confidence := None |}.

Definition consistencyFallback : ConsistencyTest :=
  {| isConsistent := true;
     hasDynamicNoise := None;
     uniqueResults := None;
     spoofingDetected := Some false;
     ct_confidence := None |}.

End CanvasUtils.

(** The record reported to the backend for one modality by
    [generateNoiseDetectionData]; the display text [details] is left out. *)
Record NoiseDetectionData := {
  nd_hasNoise : bool;
  nd_type : string;
  nd_confidence : Q
}.

(** *** [ModernFingerprintCollector] ([modern-fingerprint.js]) *)

Module Modern.

(** **** Canvas *)

(** What the drawing surface hands back during [detectCanvasNoise]: the three
    [toDataURL()] read-outs, in call order. *)
Record CanvasReadouts := {
  originalDataURL : outcome string;
  secondDataURL : outcome string;
  thirdDataURL : outcome string
}.

Record CanvasNoise := {
  hasDynamicNoise : bool;
  hasStaticNoise : bool;
  pixelAnalysis : option CanvasUtils.PixelAnalysis;
  consistent : option bool
}.

Section Canvas.

Variable Math_log2 : Q -> Q.

Definition detectCanvasNoise (canvas : CanvasReadouts) (imageData : list Z) : CanvasNoise :=
  tryCatch
    (originalDataURL <- originalDataURL canvas ;;
     secondDataURL <- secondDataURL canvas ;;
     thirdDataURL <- thirdDataURL canvas ;;
     let hasDynamicNoise :=
       orb (negb (originalDataURL =? secondDataURL)%string)
           (negb (secondDataURL =? thirdDataURL)%string) in
     let pixelAnalysis := CanvasUtils.analyzePixels Math_log2 imageData in
     let hasStaticNoise := orb (CanvasUtils.hasNoise pixelAnalysis) false in
     Ok {| hasDynamicNoise := hasDynamicNoise;
           hasStaticNoise := hasStaticNoise;
           pixelAnalysis := Some pixelAnalysis;
           consistent := Some (negb hasDynamicNoise) |})
    (fun _ =>
       {| hasDynamicNoise := false;
          hasStaticNoise := false;
          pixelAnalysis := None;
          consistent := None |}).

End Canvas.

(** The object [collectCanvasFingerprint] resolves to. *)
Record CanvasInfo := {
  dataURL : option string;
  canvas_pixelAnalysis : option CanvasUtils.PixelAnalysis;
  canvas_noiseDetection : option CanvasNoise;
  consistencyTest : option CanvasUtils.ConsistencyTest;
  canvas_fingerprint : string
}.

(** What the browser yields while the canvas modality is collected: the first
    read-out of the drawn pattern, the pixel buffer of [getImageData], the
    read-outs seen by [detectCanvasNoise], and the three read-outs seen by
    [detectRenderingConsistency] ([Throw] when that call fails). *)
Record CanvasRun := {
  canvasData : outcome string;
  imageData : list Z;
  noiseReadouts : CanvasReadouts;
  consistencyReadouts : outcome (list string)
}.

Section CollectCanvas.

Variable Math_log2 : Q -> Q.
Variable subtle_digest : string -> outcome (list byte).

Definition collectCanvasFingerprint (run : CanvasRun) : CanvasInfo :=
  tryCatch
    (canvasData <- canvasData run ;;
     let pixelAnalysis := CanvasUtils.analyzePixels Math_log2 (imageData run) in
     let noiseDetection := detectCanvasNoise Math_log2 (noiseReadouts run) (imageData run) in
     let consistencyTest :=
       tryCatch
         (results <- consistencyReadouts run ;;
          Ok (CanvasUtils.detectRenderingConsistency results))
         (fun _ => CanvasUtils.consistencyFallback) in
     fingerprint <- hashString subtle_digest canvasData ;;
     Ok {| dataURL := Some canvasData;
           canvas_pixelAnalysis := Some pixelAnalysis;
           canvas_noiseDetection := Some noiseDetection;
           consistencyTest := Some consistencyTest;
           canvas_fingerprint := fingerprint |})
    (fun _ =>
       {| dataURL := None;
          canvas_pixelAnalysis := None;
          canvas_noiseDetection := None;
          consistencyTest := None;
          canvas_fingerprint := "error" |}).

End CollectCanvas.

(** **** WebGL *)

(** The course of the red-rectangle probe inside
    [detectWebGLPersistentNoise]. *)
Inductive RedRectangleProbe :=
| NoContext
| SetupThrows (message : string)
| ReadPixelsThrows (message : string)
| DigestRejects (message : string)
| Readback (fingerprint : string).

Record ProbeResult := {
  fingerprint : string;
  isSpoofed : bool
}.

Definition knownHashes : list string :=
  ["bf9da7959d914298f9ce9e41a480fd66f76fac5c6f5e0a9b5a99b18cfc6fd997"].

(** [Array.prototype.includes] *)
Definition includes (l : list string) (s : string) : bool :=
  existsb (fun x => (x =? s)%string) l.

Definition detectWebGLPersistentNoise (probe : RedRectangleProbe) : ProbeResult :=
  match probe with
  | NoContext => {| fingerprint := "no_webgl"; isSpoofed := false |}
  | SetupThrows _ => {| fingerprint := "error"; isSpoofed := false |}
  | ReadPixelsThrows _ => {| fingerprint := "read_error"; isSpoofed := false |}
  | DigestRejects _ => {| fingerprint := "hash_error"; isSpoofed := false |}
  | Readback fingerprint =>
      let isSpoofed := negb (includes knownHashes fingerprint) in
      {| fingerprint := fingerprint; isSpoofed := isSpoofed |}
  end.

Record RandomResult := {
  beforeDOMLoad : string;
  afterDOMLoad : string;
  rr_isSpoofed : bool
}.

(** The two cube renders of [detectWebGLRandomNoise]; [Throw] when either
    promise rejects. *)
Definition detectWebGLRandomNoise (renders : outcome (string * string)) : RandomResult :=
  match renders with
  | Ok (first, second) =>
      let isDifferent := negb (first =? second)%string in
      {| beforeDOMLoad := first; afterDOMLoad := second; rr_isSpoofed := isDifferent |}
  | Throw _ =>
      {| beforeDOMLoad := "error"; afterDOMLoad := "error"; rr_isSpoofed := false |}
  end.

Record WebGLNoise := {
  beforeDOMFingerprint : string;
  afterDOMFingerprint : string;
  redBoxFingerprint : string;
  hasPersistentNoise : bool;
  hasRandomNoise : bool
}.

Definition detectWebGLNoise (probe : RedRectangleProbe)
    (renders : outcome (string * string)) : WebGLNoise :=
  let persistentResult := detectWebGLPersistentNoise probe in
  let randomResult := detectWebGLRandomNoise renders in
  {| redBoxFingerprint := orString (Some (fingerprint persistentResult)) "error";
     beforeDOMFingerprint := orString (Some (beforeDOMLoad randomResult)) "error";
     afterDOMFingerprint := orString (Some (afterDOMLoad randomResult)) "error";
     hasPersistentNoise := orFalse (Some (isSpoofed persistentResult));
     hasRandomNoise := orFalse (Some (rr_isSpoofed randomResult)) |}.

Record SpoofingDetection := {
  sd_spoofingDetected : bool;
  sd_confidence : Q
}.

(** [detectWebGLSpoofing]: the cube fingerprints taken before and after the
    load event; [Throw] when the first [getWebGLFingerprint] rejects.  (A
    rejection of the second call is not passed to [resolve]: the promise then
    stays pending and the function returns nothing; that course is not an
    input here.) *)
Definition detectWebGLSpoofing (tests : outcome (string * string)) : SpoofingDetection :=
  match tests with
  | Ok (beforeDOMTest, afterDOMTest) =>
      let isConsistent := (beforeDOMTest =? afterDOMTest)%string in
      {| sd_spoofingDetected := negb isConsistent;
         sd_confidence := if isConsistent then 9#10 else 1#10 |}
  | Throw _ =>
      {| sd_spoofingDetected := false; sd_confidence := 0 |}
  end.

(** The object [collectWebGLFingerprint] resolves to.  The early returns and
    the [catch] branch define neither [spoofingDetection] nor
    [noiseDetection].  No branch defines a property named
    [webglNoiseDetection]. *)
Record WebGLInfo := {
  spoofingDetection : option SpoofingDetection;
  noiseDetection : option WebGLNoise;
  webgl_fingerprint : string
}.

(** What the browser yields while the WebGL modality is collected. *)
Record WebGLRun := {
  redRectangle : RedRectangleProbe;
  randomRenders : outcome (string * string);
  spoofingTests : outcome (string * string);
  coloredCubeFingerprint : option string
}.

(** The main path of [collectWebGLFingerprint] once a context exists. *)
Definition collectWebGLFingerprint (run : WebGLRun) : WebGLInfo :=
  {| spoofingDetection := Some (detectWebGLSpoofing (spoofingTests run));
     noiseDetection := Some (detectWebGLNoise (redRectangle run) (randomRenders run));
     webgl_fingerprint := orString (coloredCubeFingerprint run) "error" |}.

(** **** Audio *)

Record CompressorTest := {
  testResults : list AudioUtils.TestResult;
  analysis : AudioUtils.Analysis
}.

Record AudioInfo := {
  compressor : option CompressorTest;
  audio_fingerprint : string
}.

(** **** The collector state and the composite fingerprint *)

(** The six one-shot modalities: only [fingerprint] is read back. *)
Record Info := {
  info_fingerprint : option string;
  info_payload : string
}.

Record CollectorState := {
  basic : option Info;
  screen : option Info;
  timezone : option Info;
  hardware : option Info;
  canvas : option CanvasInfo;
  webgl : option WebGLInfo;
  audio : option AudioInfo;
  fonts : option Info;
  plugins : option Info;
  storage : option Info;
  timestamp : Z;
  version : string
}.

(** [obj?.fingerprint] for each of the nine components that are joined. *)
Definition subFingerprints (s : CollectorState) : list (option string) :=
  [ match basic s with Some i => info_fingerprint i | None => None end;
    match screen s with Some i => info_fingerprint i | None => None end;
    match timezone s with Some i => info_fingerprint i | None => None end;
    match hardware s with Some i => info_fingerprint i | None => None end;
    match canvas s with Some i => Some (canvas_fingerprint i) | None => None end;
    match webgl s with Some i => Some (webgl_fingerprint i) | None => None end;
    match audio s with Some i => Some (audio_fingerprint i) | None => None end;
    match fonts s with Some i => info_fingerprint i | None => None end;
    match storage s with Some i => info_fingerprint i | None => None end ].

Section MainFingerprint.

Variable subtle_digest : string -> outcome (list byte).

Definition generateMainFingerprint (s : CollectorState) : string :=
  tryCatch
    (let fingerprintComponents := map (fun f => orString f "") (subFingerprints s) in
     let combinedFingerprint := Join fingerprintComponents "|" in
     hashString subtle_digest combinedFingerprint)
    (fun _ => "error_generating_main_fingerprint").

End MainFingerprint.

(** **** [generateNoiseDetectionData] *)

Definition generateNoiseDetectionData_canvas (s : CollectorState) : option NoiseDetectionData :=
  match canvas s with
  | None => None
  | Some data =>
      let spoofingDetected :=
        match consistencyTest data with
        | Some t => CanvasUtils.spoofingDetected t | None => None end in
      let confidence :=
        match consistencyTest data with
        | Some t => CanvasUtils.ct_confidence t | None => None end in
      Some {| nd_hasNoise := orFalse spoofingDetected;
              nd_type := if orFalse spoofingDetected then "canvas_inconsistency" else "none";
              nd_confidence := orNumber confidence 0 |}
  end.

Definition generateNoiseDetectionData_webgl (s : CollectorState) : option NoiseDetectionData :=
  match webgl s with
  | None => None
  | Some data =>
      (* spoofingData = data.spoofingDetection || {} *)
      let spoofingData := spoofingDetection data in
      (* noiseData = data.webglNoiseDetection || {}: the property is never
         defined, so every read from noiseData is undefined *)
      let noise_isSpoofed : option bool := None in
      let noise_confidence : option Q := None in
      let hasNoise :=
        orb (orFalse (option_map sd_spoofingDetected spoofingData))
            (orb (orFalse noise_isSpoofed) false) in
      let confidence :=
        orNumber (option_map sd_confidence spoofingData)
                 (orNumber noise_confidence 0) in
      Some {| nd_hasNoise := hasNoise;
              nd_type := if hasNoise then "webgl_rendering_inconsistency" else "none";
              nd_confidence := confidence |}
  end.

Definition generateNoiseDetectionData_audio (s : CollectorState) : option NoiseDetectionData :=
  match audio s with
  | None => None
  | Some data =>
      let analysisData := option_map analysis (compressor data) in
      let hasDynamicNoise := orFalse (option_map AudioUtils.hasDynamicNoise analysisData) in
      Some {| nd_hasNoise := hasDynamicNoise;
              nd_type := if hasDynamicNoise then "audio_dynamic_noise" else "none";
              nd_confidence := orNumber (option_map AudioUtils.confidence analysisData) 0 |}
  end.

End Modern.

(** *** The legacy [FingerprintCollector] ([fingerprint.js]) *)

Module Legacy.

(** **** WebGL *)

Record ProbeResult := {
  fingerprint : string;
  isSpoofed : bool
}.

Definition knownHashes : list string :=
  ["bf9da7959d914298f9ce9e41a480fd66f76fac5c6f5e0a9b5a99b18cfc6fd997"].

Definition detectWebGLPersistentNoise (probe : Modern.RedRectangleProbe) : ProbeResult :=
  match probe with
  | Modern.NoContext => {| fingerprint := "no_webgl"; isSpoofed := false |}
  | Modern.SetupThrows _ => {| fingerprint := "error"; isSpoofed := false |}
  | Modern.ReadPixelsThrows _ => {| fingerprint := "read_error"; isSpoofed := false |}
  | Modern.DigestRejects _ => {| fingerprint := "hash_error"; isSpoofed := false |}
  | Modern.Readback fingerprint =>
      let isKnownFingerprint := Modern.includes knownHashes fingerprint in
      let isSpoofed := negb isKnownFingerprint in
      {| fingerprint := fingerprint; isSpoofed := isSpoofed |}
  end.

(** [fingerprintData]: the two probe results, each possibly missing. *)
Record FingerprintData := {
  persistentNoise : option ProbeResult;
  randomNoise : option Modern.RandomResult
}.

Record SpoofingAnalysis := {
  sa_isSpoofed : bool;
  hasPersistentNoise : bool;
  hasRandomNoise : bool;
  confidence : Q
}.

Definition analyzeWebGLSpoofing (fingerprintData : FingerprintData) : SpoofingAnalysis :=
  let hasPersistentNoise := false in
  let hasRandomNoise := false in
  let confidence := 0 in
  let '(hasPersistentNoise, confidence) :=
    match persistentNoise fingerprintData with
    | Some p =>
        (isSpoofed p, if isSpoofed p then Qmax confidence (8#10) else confidence)
    | None => (hasPersistentNoise, confidence)
    end in
  let '(hasRandomNoise, confidence) :=
    match randomNoise fingerprintData with
    | Some r =>
        (Modern.rr_isSpoofed r,
         if Modern.rr_isSpoofed r then Qmax confidence (9#10) else confidence)
    | None => (hasRandomNoise, confidence)
    end in
  let isSpoofed := orb hasPersistentNoise hasRandomNoise in
  let confidence := if isSpoofed then confidence else Qmax confidence (7#10) in
  {| sa_isSpoofed := isSpoofed;
     hasPersistentNoise := hasPersistentNoise;
     hasRandomNoise := hasRandomNoise;
     confidence := confidence |}.

(** **** Canvas *)

Record PixelAnalysis := {
  hasNoise : bool;
  type : string;
  pa_confidence : Q
}.

Definition analyzeCanvasPixels (pixelData : list Z) : PixelAnalysis :=
  let count := CanvasUtils.suspiciousCount pixelData in
  let totalPixels := inject_Z (Z.of_nat (List.length pixelData)) / 4 in
  let suspiciousRatio := inject_Z (Z.of_nat count) / totalPixels in
  if Qgtb suspiciousRatio (1#10) then
    {| hasNoise := true; type := "pixel_noise";
       pa_confidence := Qmin (suspiciousRatio * 2) (95#100) |}
  else
    {| hasNoise := false; type := "pixel_clean"; pa_confidence := 8#10 |}.

Record CanvasNoise := {
  hasDynamicNoise : bool;
  hasStaticNoise : bool;
  cn_confidence : Q
}.

Section Canvas.

(** [calculateEntropy]: the Shannon entropy of the characters of the data
    URL, computed with [Math.log2]. *)
Variable calculateEntropy : string -> Q.

(** [originalData] is the first read-out, [results] the read-outs after the
    two redraws; [Throw] when a canvas call fails. *)
Definition detectCanvasNoise
    (readouts : outcome (string * list string)) (imageData : list Z) : CanvasNoise :=
  tryCatch
    (readout <- readouts ;;
     let '(originalData, results) := readout in
     let hasDynamicNoise :=
       negb (forallb (fun data => (data =? originalData)%string) results) in
     let pixelAnalysis := analyzeCanvasPixels imageData in
     let entropy := calculateEntropy originalData in
     let hasHighEntropy := Qgtb entropy (78#10) in
     let hasStaticNoise := orb (hasNoise pixelAnalysis) hasHighEntropy in
     Ok {| hasDynamicNoise := hasDynamicNoise;
           hasStaticNoise := hasStaticNoise;
           cn_confidence := if orb hasDynamicNoise hasStaticNoise then 9#10 else 8#10 |})
    (fun _ =>
       {| hasDynamicNoise := false; hasStaticNoise := false; cn_confidence := 0 |}).

End Canvas.

End Legacy.

(** ** Further functions of the backend *)

(** *** [internal/utils/database.go] *)

Module Utils.
Import Backend.

(** [strings.Split s sep] for a one-byte separator: never the empty list. *)
Fixpoint Split (s : string) (sep : ascii) : list string :=
  match s with
  | EmptyString => [EmptyString]
  | String c s' =>
      if Ascii.eqb c sep then EmptyString :: Split s' sep
      else match Split s' sep with
           | piece :: pieces => String c piece :: pieces
           | [] => [String c EmptyString]
           end
  end.

(** [strings.LastIndex s sep] for a one-byte separator: the index of its last
    occurrence, or -1. *)
Fixpoint LastIndex (s : string) (sep : ascii) : Z :=
  match s with
  | EmptyString => (-1)%Z
  | String c s' =>
      let later := LastIndex s' sep in
      if (0 <=? later)%Z then (later + 1)%Z
      else if Ascii.eqb c sep then 0%Z else (-1)%Z
  end.

(** [s[:n]] *)
Definition slicePrefix (s : string) (n : Z) : string :=
  String.substring 0 (Z.to_nat n) s.

Section Library.

(** [strings.TrimSpace] and [sha256.Sum256] *)
Variable strings_TrimSpace : string -> string.
Variable sha256_Sum256 : string -> list byte.

Definition processCanvasData (data : string) : string :=
  let data := if (10000 <? len data)%Z then slicePrefix data 10000 else data in
  let data := strings_TrimSpace data in
  let data := ToLower data in
  data.

Definition GenerateCanvasHash (canvasData : string) : string :=
  let processedData := processCanvasData canvasData in
  let hash := sha256_Sum256 processedData in
  buf2hex hash.

Definition GetClientIP (xff realIP remoteAddr : string) : string :=
  let viaForwarded :=
    if negb (xff =? EmptyString)%string then
      match Split xff ","%char with
      | first :: _ => Some (strings_TrimSpace first)
      | [] => None
      end
    else None in
  match viaForwarded with
  | Some ip => ip
  | None =>
      if negb (realIP =? EmptyString)%string then realIP
      else
        let idx := LastIndex remoteAddr ":"%char in
        if negb (idx =? -1)%Z then slicePrefix remoteAddr idx
        else remoteAddr
  end.

End Library.

End Utils.

(** *** [internal/services/fingerprint.go]: reasons, the sibling analysis,
    [ProcessFingerprint] and [GetAnalysis] *)

Module Service.
Import Backend.

Definition appendWhen (cond : bool) (reason : string) (reasons : list string)
  : list string :=
  if cond then (reasons ++ [reason])%list else reasons.

Definition legitimateReason : string :=
  "High uniqueness score - likely legitimate user".

Definition generateReasons (fp : Fingerprint) (botScore uniquenessScore : Q)
  : list string :=
  let reasons : list string := [] in
  let ua := ToLower (UserAgent fp) in
  (* the loop appends the first keyword found and breaks *)
  let reasons :=
    match find (fun keyword => Contains ua keyword) botKeywords with
    | Some keyword =>
        (reasons ++ [("User Agent contains bot keyword: " ++ keyword)%string])%list
    | None => reasons
    end in
  let reasons := appendWhen (len (Canvas fp) <? 100)%Z
                   "Canvas fingerprint too short" reasons in
  let reasons := appendWhen (10000 <? len (Canvas fp))%Z
                   "Canvas fingerprint too long (possible noise injection)" reasons in
  let reasons := appendWhen (orb (WebGL fp =? EmptyString)%string
                                 (WebGL fp =? "undefined")%string)
                   "WebGL not supported or disabled" reasons in
  let fonts := JSONToStringSlice (Fonts fp) in
  let reasons := appendWhen (llen fonts <? 5)%Z "Too few fonts detected" reasons in
  let reasons := appendWhen (200 <? llen fonts)%Z "Too many fonts detected" reasons in
  let plugins := JSONToStringSlice (Plugins fp) in
  let reasons := appendWhen (llen plugins =? 0)%Z "No plugins detected" reasons in
  let reasons := appendWhen (orb (ScreenResolution fp =? "0x0")%string
                                 (ScreenResolution fp =? EmptyString)%string)
                   "Invalid screen resolution" reasons in
  let reasons := appendWhen (andb (Qltb botScore (3#10)) (Qgtb uniquenessScore (8#10)))
                   legitimateReason reasons in
  reasons.

(** One [switch] block of [generateReasonsWithNoise]: the known types get a
    fixed text, every other type the [default] text. *)
Definition noiseReason (known : list (string * string)) (fallback : string)
    (nd : option NoiseDetection) (reasons : list string) : list string :=
  match nd with
  | Some d =>
      if HasNoise d then
        match find (fun entry => (fst entry =? Type_ d)%string) known with
        | Some entry => (reasons ++ [snd entry])%list
        | None => (reasons ++ [(fallback ++ Type_ d)%string])%list
        end
      else reasons
  | None => reasons
  end.

Definition generateReasonsWithNoise (fp : Fingerprint) (req : FingerprintRequest)
    (botScore uniquenessScore : Q) : list string :=
  let reasons := generateReasons fp botScore uniquenessScore in
  let reasons :=
    noiseReason
      [("random_noise", "Canvas random noise detected");
       ("pixel_noise", "Canvas pixel-level noise detected");
       ("high_entropy", "Canvas high entropy indicating possible noise injection")]
      "Canvas noise detected: " (CanvasNoiseDetection req) reasons in
  let reasons :=
    noiseReason
      [("webgl_random_noise", "WebGL rendering inconsistency detected");
       ("webgl_parameter_anomaly", "WebGL parameter anomaly detected")]
      "WebGL noise detected: " (WebGLNoiseDetection req) reasons in
  let reasons :=
    noiseReason
      [("audio_anomaly", "Audio fingerprint anomaly detected")]
      "Audio noise detected: " (AudioNoiseDetection req) reasons in
  reasons.

(** [analyzeFingerprint]: the variant without the noise records. *)
Definition analyzeFingerprint
    (fault : DbFault) (now : Z) (tbl : AnalysisTable) (fp : Fingerprint)
  : AnalysisTable * option Analysis :=
  let uniquenessScore := calculateUniquenessScore fp in
  let botScore := calculateBotScore fp in
  let riskLevel := calculateRiskLevel uniquenessScore botScore in
  let isBot := Qgtb botScore (7#10) in
  match fault with
  | QueryFault => (tbl, None)
  | _ =>
      let visitCount :=
        match queryRow tbl (FingerprintHash fp) with
        | None => 1%Z
        | Some row => wrap64 (VisitCount row + 1)
        end in
      let analysis :=
        {| a_FingerprintHash := FingerprintHash fp;
           UniquenessScore := uniquenessScore;
           BotScore := botScore;
           RiskLevel := riskLevel;
           IsBot := isBot;
           VisitCount := visitCount;
           LastSeen := now;
           a_CreatedAt := now;
           a_UpdatedAt := now |} in
      match fault with
      | ExecFault => (tbl, None)
      | _ => (saveAnalysis tbl analysis, Some analysis)
      end
  end.

(** The two tables. *)
Record Database := {
  fingerprints : list Fingerprint;
  analysis : AnalysisTable
}.

Definition emptyDatabase : Database := {| fingerprints := []; analysis := [] |}.

(** [INSERT OR REPLACE INTO fingerprints]: [fingerprint_hash] is [UNIQUE]. *)
Definition saveFingerprint (tbl : list Fingerprint) (fp : Fingerprint)
  : list Fingerprint :=
  (filter (fun row => negb (FingerprintHash row =? FingerprintHash fp)%string) tbl
     ++ [fp])%list.

(** What the database driver does during one [ProcessFingerprint]. *)
Record Faults := {
  saveFails : bool;          (* [saveFingerprint] returns an error *)
  analysisFault : DbFault
}.

Record FingerprintResponse := {
  resp_FingerprintHash : string;
  resp_Analysis : option Analysis;
  resp_Success : bool
}.

Section Library.

Variable strings_TrimSpace : string -> string.
Variable sha256_Sum256 : string -> list byte.

(** The map built when the request carries no hash, in source order. *)
Definition fingerprintData (req : FingerprintRequest) : GoMap :=
  [("user_agent", VString (req_UserAgent req));
   ("screen_resolution", VString (req_ScreenResolution req));
   ("timezone", VString (req_Timezone req));
   ("language", VString (req_Language req));
   ("platform", VString (req_Platform req));
   ("canvas", VString (req_Canvas req));
   ("webgl", VString (req_WebGL req));
   ("audio", VString (req_Audio req));
   ("fonts", VStrings (req_Fonts req));
   ("plugins", VStrings (req_Plugins req));
   ("touch_support", VBool (req_TouchSupport req));
   ("cookie_enabled", VBool (req_CookieEnabled req));
   ("do_not_track", VString (req_DoNotTrack req))].

Definition chooseHash (req : FingerprintRequest) : string :=
  if negb (req_FingerprintHash req =? EmptyString)%string
  then req_FingerprintHash req
  else GenerateFingerprintHash sha256_Sum256 (fingerprintData req).

Definition buildFingerprint (req : FingerprintRequest) (ipAddress : string) (now : Z)
  : Fingerprint :=
  {| FingerprintHash := chooseHash req;
     UserAgent := req_UserAgent req;
     ScreenResolution := req_ScreenResolution req;
     Timezone := req_Timezone req;
     Language := req_Language req;
     Platform := req_Platform req;
     Canvas := req_Canvas req;
     CanvasHash := Utils.GenerateCanvasHash strings_TrimSpace sha256_Sum256 (req_Canvas req);
     WebGL := req_WebGL req;
     WebGLHash := GenerateFingerprintHash sha256_Sum256 [("webgl", VString (req_WebGL req))];
     Audio := req_Audio req;
     AudioHash := GenerateFingerprintHash sha256_Sum256 [("audio", VString (req_Audio req))];
     Fonts := StringSliceToJSON (req_Fonts req);
     Plugins := StringSliceToJSON (req_Plugins req);
     TouchSupport := req_TouchSupport req;
     CookieEnabled := req_CookieEnabled req;
     DoNotTrack := req_DoNotTrack req;
     IPAddress := ipAddress;
     CreatedAt := now;
     UpdatedAt := now |}.

(** [ProcessFingerprint]: [None] is the error return. *)
Definition ProcessFingerprint
    (faults : Faults) (now : Z) (db : Database)
    (req : FingerprintRequest) (ipAddress : string)
  : Database * option FingerprintResponse :=
  let fingerprint := buildFingerprint req ipAddress now in
  if saveFails faults then (db, None)
  else
    let saved := saveFingerprint (fingerprints db) fingerprint in
    let '(tbl, analysis) :=
      analyzeFingerprintWithNoise (analysisFault faults) now (analysis db) fingerprint req in
    ({| fingerprints := saved; analysis := tbl |},
     Some {| resp_FingerprintHash := FingerprintHash fingerprint;
             resp_Analysis := analysis;
             resp_Success := true |}).

End Library.

(** [GetAnalysis]: the row of the hash, [sql.ErrNoRows], or another error. *)
Inductive Lookup :=
| Found (analysis : Analysis)
| ErrNoRows
| QueryError.

Definition GetAnalysis (queryFails : bool) (db : Database) (fingerprintHash : string)
  : Lookup :=
  if queryFails then QueryError
  else match queryRow (analysis db) fingerprintHash with
       | Some row => Found row
       | None => ErrNoRows
       end.

(** One call of the service in a run. *)
Record Call := {
  call_faults : Faults;
  call_now : Z;
  call_req : FingerprintRequest;
  call_ip : string
}.

Definition serve (strings_TrimSpace : string -> string)
    (sha256_Sum256 : string -> list byte) (db : Database) (c : Call) : Database :=
  fst (ProcessFingerprint strings_TrimSpace sha256_Sum256
         (call_faults c) (call_now c) db (call_req c) (call_ip c)).

Definition serveAll (strings_TrimSpace : string -> string)
    (sha256_Sum256 : string -> list byte) (calls : list Call) : Database :=
  fold_left (serve strings_TrimSpace sha256_Sum256) calls emptyDatabase.

End Service.

(** *** [internal/api/handlers] *)

Module Handlers.
Import Backend.

(** [net/http] status codes. *)
Definition StatusOK : Z := 200.
Definition StatusBadRequest : Z := 400.
Definition StatusNotFound : Z := 404.
Definition StatusInternalServerError : Z := 500.

(** What [c.JSON] writes: the status and the fields of the body that carry
    data; the [message] text of the error bodies is left out. *)
Record Reply := {
  status : Z;
  success : bool;
  fingerprint_hash : option string;
  reply_analysis : option Analysis
}.

Definition failure (code : Z) : Reply :=
  {| status := code; success := false; fingerprint_hash := None; reply_analysis := None |}.

Section Library.

Variable strings_TrimSpace : string -> string.
Variable sha256_Sum256 : string -> list byte.

(** [SubmitFingerprint]: [body] is what [ShouldBindJSON] yields, [None] when
    it rejects the request body (or the body cannot be read). *)
Definition SubmitFingerprint (faults : Service.Faults) (now : Z) (db : Service.Database)
    (body : option FingerprintRequest) (xff realIP remoteAddr : string)
  : Service.Database * Reply :=
  match body with
  | None => (db, failure StatusBadRequest)
  | Some req =>
      let ipAddress := Utils.GetClientIP strings_TrimSpace xff realIP remoteAddr in
      match Service.ProcessFingerprint strings_TrimSpace sha256_Sum256
              faults now db req ipAddress with
      | (db', None) => (db', failure StatusInternalServerError)
      | (db', Some response) =>
          (db', {| status := StatusOK;
                   success := Service.resp_Success response;
                   fingerprint_hash := Some (Service.resp_FingerprintHash response);
                   reply_analysis := Service.resp_Analysis response |})
      end
  end.

End Library.

(** [GetAnalysis] of the handler, on the [:hash] route parameter. *)
Definition GetAnalysis (queryFails : bool) (db : Service.Database) (fingerprintHash : string)
  : Reply :=
  if (fingerprintHash =? EmptyString)%string then failure StatusBadRequest
  else
    match Service.GetAnalysis queryFails db fingerprintHash with
    | Service.ErrNoRows => failure StatusNotFound
    | Service.QueryError => failure StatusInternalServerError
    | Service.Found analysis =>
        {| status := StatusOK; success := true;
           fingerprint_hash := None; reply_analysis := Some analysis |}
    end.

End Handlers.

(** ** Further functions of the collectors *)

(** *** [CryptoUtils.simpleHash] *)

Module CryptoUtils.

(** [ToInt32]: what [<<] and [&] reduce their operands and results to. *)
Definition ToInt32 (z : Z) : Z := ((z + 2 ^ 31) mod 2 ^ 32 - 2 ^ 31)%Z.

(** The digits of [n.toString(16)] for an integer [n >= 0], most significant
    first, prepended to [rest]. *)
Fixpoint hexDigits (fuel : nat) (n : Z) (rest : string) : string :=
  match fuel with
  | O => rest
  | S fuel' =>
      let rest' := String (hexdigit (Z.to_nat (n mod 16))) rest in
      if (n / 16 =? 0)%Z then rest' else hexDigits fuel' (n / 16) rest'
  end.

Definition toString16 (n : Z) : string :=
  hexDigits (S (Z.to_nat (Z.log2 n))) n EmptyString.

(** One round of the loop: [hash = ((hash << 5) - hash) + char] and then
    [hash = hash & hash]. *)
Definition mix (hash char : Z) : Z :=
  let hash := (ToInt32 (ToInt32 hash * 2 ^ 5) - hash + char)%Z in
  ToInt32 hash.

(** [simpleHash] on the UTF-16 code units of the string. *)
Definition simpleHash (str : list Z) : string :=
  let hash := 0%Z in
  if (List.length str =? 0)%nat then "0"
  else
    let hash := fold_left mix str hash in
    toString16 (Z.abs hash).

End CryptoUtils.

(** *** [AudioUtils]: from the rendered samples to the analysis *)

Module AudioRender.

(** The four sample windows of [calculateEnhancedFingerprint]. *)
Definition segmentWindows : list (string * Z * Z) :=
  [("main", 4500, 5000); ("early", 1000, 1500);
   ("mid", 8000, 8500); ("late", 15000, 15500)]%Z.

(** [for (i = start; i < Math.min(end, channelData.length); i++) sum += |x_i|] *)
Definition windowSum (channelData : list Q) (start stop : Z) : Q :=
  fold_left (fun sum sample => sum + Qabs sample)
            (firstn (Z.to_nat (stop - start)) (skipn (Z.to_nat start) channelData))
            0.

Section Render.

(** [Number.prototype.toString] *)
Variable Number_toString : Q -> string.

(** [calculateEnhancedFingerprint]: the object of the four window sums, as
    text.  The [statistics] object is left out: the analysis never reads it. *)
Definition detailedFingerprint (channelData : list Q) : list (string * string) :=
  map (fun '(name, start, stop) =>
         (name, Number_toString (windowSum channelData start stop)))
      segmentWindows.

Definition mainFingerprint (channelData : list Q) : option string :=
  AudioUtils.getProp (detailedFingerprint channelData) "main".

(** [runCompressorTest]: [render] is what the offline context yields, the
    samples of channel 0 and the render time, or the exception thrown. *)
Definition runCompressorTest (testIndex : nat) (render : outcome (list Q * Q))
  : AudioUtils.TestResult :=
  match render with
  | Ok (channelData, renderTime) =>
      {| AudioUtils.testIndex := testIndex;
         AudioUtils.fingerprint :=
           match mainFingerprint channelData with
           | Some text => text
           | None => EmptyString
           end;
         AudioUtils.detailedFingerprint := Some (detailedFingerprint channelData);
         AudioUtils.renderTime := renderTime |}
  | Throw _ =>
      {| AudioUtils.testIndex := testIndex;
         AudioUtils.fingerprint := "error";
         AudioUtils.detailedFingerprint := None;
         AudioUtils.renderTime := 0 |}
  end.

Record DualTest := {
  testResults : list AudioUtils.TestResult;
  analysis : AudioUtils.Analysis;
  fingerprint : string
}.

Definition runDualCompressorTest (first second : outcome (list Q * Q)) : DualTest :=
  let testResults := [runCompressorTest 0 first; runCompressorTest 1 second] in
  let analysis := AudioUtils.analyzeCompressorResults (Some (map Some testResults)) in
  {| testResults := testResults;
     analysis := analysis;
     fingerprint :=
       orString (option_map AudioUtils.fingerprint (nth_error testResults 0)) "error" |}.

End Render.

End AudioRender.

(** *** The noise records on the wire *)

Module Wire.

(** One of the [*NoiseDetection] objects of [generateBackendSubmissionData]
    after [JSON.stringify] and Go's JSON binding: [null] becomes the nil
    pointer, an object the struct with the same four fields. *)
Definition bindNoise (details : string) (nd : option NoiseDetectionData)
  : option Backend.NoiseDetection :=
  match nd with
  | Some d =>
      Some {| Backend.HasNoise := nd_hasNoise d;
              Backend.Type_ := nd_type d;
              Backend.Confidence := nd_confidence d;
              Backend.Details := details |}
  | None => None
  end.

End Wire.

(** ** Predicates and concrete runs used in Part II *)

Module Scenario.
Import Backend.

(** A detection record whose confidence is not negative. *)
Definition nonnegConfidence (nd : option NoiseDetection) : Prop :=
  match nd with
  | Some d => 0 <= Confidence d
  | None => True
  end.

(** A request as a browser would send it, except that the canvas detection
    record carries a negative confidence. *)
Definition padding (n : nat) : string :=
  string_of_list_ascii (repeat "A"%char n).

Definition plainFingerprint : Fingerprint :=
  {| FingerprintHash := "c0ffee";
     UserAgent := "Mozilla/5.0 (X11; Linux x86_64)";
     ScreenResolution := "1920x1080";
     Timezone := "UTC"; Language := "en-US"; Platform := "Linux x86_64";
     Canvas := "data:image/png;base64," ++ padding 100;
     CanvasHash := ""; 
     WebGL := "{}"; WebGLHash := "";
     Audio := "{}"; AudioHash := "";
     Fonts := JSONArray ["Arial"; "Courier"; "Georgia"; "Times"; "Verdana"];
     Plugins := JSONArray ["PDF Viewer"];
     TouchSupport := false; CookieEnabled := true; DoNotTrack := "unspecified";
     IPAddress := "127.0.0.1"; CreatedAt := 0; UpdatedAt := 0 |}.

Definition requestWith (canvasNoise : option NoiseDetection) : FingerprintRequest :=
  {| req_FingerprintHash := "c0ffee";
     req_UserAgent := "Mozilla/5.0 (X11; Linux x86_64)";
     req_ScreenResolution := "1920x1080";
     req_Timezone := "UTC"; req_Language := "en-US"; req_Platform := "Linux x86_64";
     req_Canvas := "data:image/png;base64," ++ padding 100;
     req_WebGL := "{}"; req_Audio := "{}";
     req_Fonts := ["Arial"; "Courier"; "Georgia"; "Times"; "Verdana"];
     req_Plugins := ["PDF Viewer"];
     req_TouchSupport := false; req_CookieEnabled := true;
     req_DoNotTrack := "unspecified";
     CanvasNoiseDetection := canvasNoise;
     WebGLNoiseDetection := None;
     AudioNoiseDetection := None |}.

Definition negativeConfidence : NoiseDetection :=
  {| HasNoise := true; Type_ := "random_noise"; Confidence := -5; Details := "" |}.

(** How many of the submissions carry the hash [h]. *)
Definition hashCount (h : string) (subs : list Submission) : nat :=
  List.length (filter (fun s => (FingerprintHash (sub_fp s) =? h)%string) subs).

(** The rows of the table that are keyed by [h]. *)
Definition rowsFor (h : string) (tbl : AnalysisTable) : list Analysis :=
  filter (hasHash h) tbl.

Definition visit (h : string) (now : Z) : Submission :=
  {| sub_now := now;
     sub_fp :=
       {| FingerprintHash := h;
          UserAgent := UserAgent plainFingerprint;
          ScreenResolution := ScreenResolution plainFingerprint;
          Timezone := Timezone plainFingerprint;
          Language := Language plainFingerprint;
          Platform := Platform plainFingerprint;
          Canvas := Canvas plainFingerprint;
          CanvasHash := CanvasHash plainFingerprint;
          WebGL := WebGL plainFingerprint;
          WebGLHash := WebGLHash plainFingerprint;
          Audio := Audio plainFingerprint;
          AudioHash := AudioHash plainFingerprint;
          Fonts := Fonts plainFingerprint;
          Plugins := Plugins plainFingerprint;
          TouchSupport := TouchSupport plainFingerprint;
          CookieEnabled := CookieEnabled plainFingerprint;
          DoNotTrack := DoNotTrack plainFingerprint;
          IPAddress := IPAddress plainFingerprint;
          CreatedAt := now; UpdatedAt := now |};
     sub_req := requestWith None |}.

Definition threeVisits : list Submission :=
  [visit "aa" 10; visit "bb" 11; visit "aa" 12].

(** The map that [ProcessFingerprint] builds, in two iteration orders. *)
Definition sampleMap : GoMap :=
  [("user_agent", VString "Mozilla/5.0");
   ("fonts", VStrings ["Arial"; "Verdana"]);
   ("touch_support", VBool false);
   ("canvas", VString "data:image/png;base64,AAAA")].

Definition sampleMapReordered : GoMap :=
  [("touch_support", VBool false);
   ("canvas", VString "data:image/png;base64,AAAA");
   ("user_agent", VString "Mozilla/5.0");
   ("fonts", VStrings ["Arial"; "Verdana"])].

(** A stand-in digest of the right size for running examples. *)
Definition zeroDigest (_ : string) : list byte := repeat x00 32.

(** The state of the table after a run: the hashes are pairwise distinct,
    and the row of a hash counts the submissions of that hash. *)
Definition tableCounts (subs : list Submission) (tbl : AnalysisTable) : Prop :=
  NoDup (map a_FingerprintHash tbl) /\
  forall h,
    match rowsFor h tbl with
    | [] => hashCount h subs = 0%nat
    | [row] => VisitCount row = Z.of_nat (hashCount h subs)
               /\ (1 <= hashCount h subs)%nat
    | _ => False
    end.

(** Ascending in the bytewise order of [sort.Strings]. *)
Definition sortedStrings : list string -> Prop :=
  StronglySorted (fun a b => String.leb a b = true).

(** *** Audio *)

Definition segmentNames : list string := ["main"; "early"; "mid"; "late"].

(** The [detailedFingerprint] object that [calculateEnhancedFingerprint]
    builds. *)
Definition segments (main early mid late : string) : list (string * string) :=
  [("main", main); ("early", early); ("mid", mid); ("late", late)].

(** A trial that [runCompressorTest] completed. *)
Definition successful (t : AudioUtils.TestResult) : Prop :=
  AudioUtils.fingerprint t <> "error" /\
  exists main early mid late,
    AudioUtils.detailedFingerprint t = Some (segments main early mid late).

Definition segmentOf (t : AudioUtils.TestResult) (name : string) : option string :=
  match AudioUtils.detailedFingerprint t with
  | Some d => AudioUtils.getProp d name
  | None => None
  end.

Definition trial (index : nat) (main early mid late : string) (renderTime : Q)
  : AudioUtils.TestResult :=
  {| AudioUtils.testIndex := index;
     AudioUtils.fingerprint := main;
     AudioUtils.detailedFingerprint := Some (segments main early mid late);
     AudioUtils.renderTime := renderTime |}.

(** What the [catch] branch of [runCompressorTest] resolves to. *)
Definition failedTrial (index : nat) : AudioUtils.TestResult :=
  {| AudioUtils.testIndex := index;
     AudioUtils.fingerprint := "error";
     AudioUtils.detailedFingerprint := None;
     AudioUtils.renderTime := 0 |}.

Definition pairOf (t1 t2 : AudioUtils.TestResult)
  : option (list (option AudioUtils.TestResult)) :=
  Some [Some t1; Some t2].

(** Two identical trials. *)
Definition cleanPair : option (list (option AudioUtils.TestResult)) :=
  pairOf (trial 0 "35.73833" "12.50121" "35.74996" "35.10893" 12)
         (trial 1 "35.73833" "12.50121" "35.74996" "35.10893" 12).

(** Two trials that differ in the last segment only. *)
Definition lateSegmentDiffers : option (list (option AudioUtils.TestResult)) :=
  pairOf (trial 0 "35.73833" "12.50121" "35.74996" "35.10893" 12)
         (trial 1 "35.73833" "12.50121" "35.74996" "35.10894" 12).

(** *** Canvas pixels *)

Fixpoint flatten (quads : list (Z * Z * Z * Z)) : list Z :=
  match quads with
  | [] => []
  | (r, g, b, a) :: rest => r :: g :: b :: a :: flatten rest
  end.

(** The number of pixels with a non-zero alpha channel. *)
Fixpoint spec_opaqueCount (pixelData : list Z) : nat :=
  match pixelData with
  | _ :: _ :: _ :: a :: rest => ((if (0 <? a)%Z then 1 else 0) + spec_opaqueCount rest)%nat
  | _ => 0%nat
  end.

(** The flag as the specification words it, not as the source computes it: the
    suspicious pixels are more than 10% of the opaque pixels. *)
Definition spec_exceedsTenthOfOpaque (pixelData : list Z) : Prop :=
  (1#10) * inject_Z (Z.of_nat (spec_opaqueCount pixelData))
    < inject_Z (Z.of_nat (CanvasUtils.suspiciousCount pixelData)).

(** One opaque pixel with channel spread 100, and nine transparent pixels. *)
Definition onePixelInTen : list Z :=
  flatten ((100, 50, 50, 255) :: repeat (0, 0, 0, 0) 9)%Z.

(** 256 opaque grey pixels, one per grey level. *)
Definition greyRamp : list Z :=
  flatten (map (fun v => (Z.of_nat v, Z.of_nat v, Z.of_nat v, 255%Z)) (seq 0 256)).

(** [Math.log2] at the arguments the runs below reach: [log2(1/256) = -8]. *)
Definition log2Table (q : Q) : Q := if Qeq_bool q (1#256) then -8 else 0.

(** *** Collector runs *)

(** A digest for running examples: the bytes of the text itself. *)
Definition echoDigest (str : string) : outcome (list byte) :=
  Ok (list_byte_of_string str).

Definition steadyReadouts : Modern.CanvasReadouts :=
  {| Modern.originalDataURL := Ok "data:image/png;base64,iVBORw0KGgo";
     Modern.secondDataURL := Ok "data:image/png;base64,iVBORw0KGgo";
     Modern.thirdDataURL := Ok "data:image/png;base64,iVBORw0KGgo" |}.

Definition changingReadouts : Modern.CanvasReadouts :=
  {| Modern.originalDataURL := Ok "data:image/png;base64,iVBORw0KGgo";
     Modern.secondDataURL := Ok "data:image/png;base64,iVBORw0KGgp";
     Modern.thirdDataURL := Ok "data:image/png;base64,iVBORw0KGgq" |}.

(** A clean canvas session: every read-out is the same. *)
Definition steadyCanvasRun : Modern.CanvasRun :=
  {| Modern.canvasData := Ok "data:image/png;base64,iVBORw0KGgo";
     Modern.imageData := greyRamp;
     Modern.noiseReadouts := steadyReadouts;
     Modern.consistencyReadouts :=
       Ok ["data:image/png;base64,iVBORw0KGgo";
           "data:image/png;base64,iVBORw0KGgo";
           "data:image/png;base64,iVBORw0KGgo"] |}.

(** A canvas session under per-call randomisation. *)
Definition changingCanvasRun : Modern.CanvasRun :=
  {| Modern.canvasData := Ok "data:image/png;base64,iVBORw0KGgo";
     Modern.imageData := greyRamp;
     Modern.noiseReadouts := changingReadouts;
     Modern.consistencyReadouts :=
       Ok ["data:image/png;base64,iVBORw0KGgr";
           "data:image/png;base64,iVBORw0KGgs";
           "data:image/png;base64,iVBORw0KGgt"] |}.

Definition allowListed : string :=
  "bf9da7959d914298f9ce9e41a480fd66f76fac5c6f5e0a9b5a99b18cfc6fd997".

(** A 64-character hexadecimal string that is not on the allow-list. *)
Definition foreignHash : string :=
  "0000000000000000000000000000000000000000000000000000000000000000".

(** A WebGL session whose red rectangle hashes to [foreignHash] and whose
    cube renders differ from call to call. *)
Definition noisyWebGLRun : Modern.WebGLRun :=
  {| Modern.redRectangle := Modern.Readback foreignHash;
     Modern.randomRenders := Ok ("1a", "2b");
     Modern.spoofingTests := Ok ("3c", "4d");
     Modern.coloredCubeFingerprint := Some "5e" |}.

Definition info (fingerprint : string) (payload : string) : option Modern.Info :=
  Some {| Modern.info_fingerprint := Some fingerprint; Modern.info_payload := payload |}.

(** A collector state around given canvas and WebGL results. *)
Definition session (canvas : option Modern.CanvasInfo) (webgl : option Modern.WebGLInfo)
    (payload : string) (timestamp : Z) : Modern.CollectorState :=
  {| Modern.basic := info "6b1f" payload;
     Modern.screen := info "22aa" payload;
     Modern.timezone := info "9c01" payload;
     Modern.hardware := info "77e3" payload;
     Modern.canvas := canvas;
     Modern.webgl := webgl;
     Modern.audio := None;
     Modern.fonts := info "d00d" payload;
     Modern.plugins := info "beef" payload;
     Modern.storage := info "41c6" payload;
     Modern.timestamp := timestamp;
     Modern.version := "2.0" |}.

(** *** The nine named sub-fingerprints *)

(** [component?.fingerprint || ''] read from a session: the fingerprint
    string when the component and its fingerprint are there, the empty
    string otherwise. *)
Definition fingerprintText {A} (read : A -> option string) (component : option A)
  : string :=
  match component with
  | Some c => match read c with Some text => text | None => EmptyString end
  | None => EmptyString
  end.

(** The session's basic, screen, timezone, hardware, canvas, webgl, audio,
    fonts and storage fingerprints are the nine given strings. *)
Definition hasSubFingerprints (s : Modern.CollectorState)
    (basic screen timezone hardware canvas webgl audio fonts storage : string) : Prop :=
  fingerprintText Modern.info_fingerprint (Modern.basic s) = basic /\
  fingerprintText Modern.info_fingerprint (Modern.screen s) = screen /\
  fingerprintText Modern.info_fingerprint (Modern.timezone s) = timezone /\
  fingerprintText Modern.info_fingerprint (Modern.hardware s) = hardware /\
  fingerprintText (fun c => Some (Modern.canvas_fingerprint c)) (Modern.canvas s) = canvas /\
  fingerprintText (fun w => Some (Modern.webgl_fingerprint w)) (Modern.webgl s) = webgl /\
  fingerprintText (fun a => Some (Modern.audio_fingerprint a)) (Modern.audio s) = audio /\
  fingerprintText Modern.info_fingerprint (Modern.fonts s) = fonts /\
  fingerprintText Modern.info_fingerprint (Modern.storage s) = storage.

End Scenario.

(** ** Further predicates and concrete runs used in Part II *)

Module Scenario2.
Import Backend Scenario.

(** A request like [requestWith], carrying the three detection records. *)
Definition requestCarrying (canvasNoise webglNoise audioNoise : option NoiseDetection)
  : FingerprintRequest :=
  {| req_FingerprintHash := req_FingerprintHash (requestWith None);
     req_UserAgent := req_UserAgent (requestWith None);
     req_ScreenResolution := req_ScreenResolution (requestWith None);
     req_Timezone := req_Timezone (requestWith None);
     req_Language := req_Language (requestWith None);
     req_Platform := req_Platform (requestWith None);
     req_Canvas := req_Canvas (requestWith None);
     req_WebGL := req_WebGL (requestWith None);
     req_Audio := req_Audio (requestWith None);
     req_Fonts := req_Fonts (requestWith None);
     req_Plugins := req_Plugins (requestWith None);
     req_TouchSupport := req_TouchSupport (requestWith None);
     req_CookieEnabled := req_CookieEnabled (requestWith None);
     req_DoNotTrack := req_DoNotTrack (requestWith None);
     CanvasNoiseDetection := canvasNoise;
     WebGLNoiseDetection := webglNoise;
     AudioNoiseDetection := audioNoise |}.

(** A request with a given hash, user agent, canvas payload and font list. *)
Definition requestOf (hash userAgent canvas : string) (fonts : list string)
  : FingerprintRequest :=
  {| req_FingerprintHash := hash;
     req_UserAgent := userAgent;
     req_ScreenResolution := "1920x1080";
     req_Timezone := "UTC"; req_Language := "en-US"; req_Platform := "Linux x86_64";
     req_Canvas := canvas;
     req_WebGL := "{}"; req_Audio := "{}";
     req_Fonts := fonts;
     req_Plugins := ["PDF Viewer"];
     req_TouchSupport := false; req_CookieEnabled := true;
     req_DoNotTrack := "unspecified";
     CanvasNoiseDetection := None;
     WebGLNoiseDetection := None;
     AudioNoiseDetection := None |}.

(** The record [ProcessFingerprint] would build from a headless browser that
    sends a five-byte canvas payload. *)
Definition headlessFingerprint : Fingerprint :=
  {| FingerprintHash := "dead";
     UserAgent := "Mozilla/5.0 HeadlessChrome/120.0";
     ScreenResolution := "1920x1080";
     Timezone := "UTC"; Language := "en-US"; Platform := "Linux x86_64";
     Canvas := "error";
     CanvasHash := EmptyString;
     WebGL := "{}"; WebGLHash := EmptyString;
     Audio := "{}"; AudioHash := EmptyString;
     Fonts := JSONArray ["Arial"; "Courier"; "Georgia"; "Times"; "Verdana"];
     Plugins := JSONArray ["PDF Viewer"];
     TouchSupport := false; CookieEnabled := true; DoNotTrack := "unspecified";
     IPAddress := "127.0.0.1"; CreatedAt := 0; UpdatedAt := 0 |}.

Definition flagged (type : string) (confidence : Q) : option NoiseDetection :=
  Some {| HasNoise := true; Type_ := type; Confidence := confidence;
          Details := EmptyString |}.

(** The detection records that are present and flagged. *)
Definition flaggedCount (req : FingerprintRequest) : nat :=
  List.length
    (filter (fun nd => match nd with Some d => HasNoise d | None => false end)
            [CanvasNoiseDetection req; WebGLNoiseDetection req; AudioNoiseDetection req]).

(** No byte of the text is [c]. *)
Definition freeOf (c : ascii) (s : string) : Prop :=
  ~ In c (list_ascii_of_string s).

(** A payload head of exactly 10000 bytes. *)
Definition longHead : string := padding (Z.to_nat 10000).

(** The text whose digest is the fallback hash: the thirteen attributes as
    "key:value", in the bytewise order of the keys, joined with "|". *)
Definition fallbackText (req : FingerprintRequest) : string :=
  Join ["audio:" ++ req_Audio req;
        "canvas:" ++ req_Canvas req;
        "cookie_enabled:" ++ (if req_CookieEnabled req then "true" else "false");
        "do_not_track:" ++ req_DoNotTrack req;
        "fonts:" ++ "[" ++ Join (req_Fonts req) " " ++ "]";
        "language:" ++ req_Language req;
        "platform:" ++ req_Platform req;
        "plugins:" ++ "[" ++ Join (req_Plugins req) " " ++ "]";
        "screen_resolution:" ++ req_ScreenResolution req;
        "timezone:" ++ req_Timezone req;
        "touch_support:" ++ (if req_TouchSupport req then "true" else "false");
        "user_agent:" ++ req_UserAgent req;
        "webgl:" ++ req_WebGL req] "|".

(** The two requests agree on every attribute but the font list. *)
Definition sameButFonts (req1 req2 : FingerprintRequest) : Prop :=
  req_UserAgent req1 = req_UserAgent req2 /\
  req_ScreenResolution req1 = req_ScreenResolution req2 /\
  req_Timezone req1 = req_Timezone req2 /\
  req_Language req1 = req_Language req2 /\
  req_Platform req1 = req_Platform req2 /\
  req_Canvas req1 = req_Canvas req2 /\
  req_WebGL req1 = req_WebGL req2 /\
  req_Audio req1 = req_Audio req2 /\
  req_Plugins req1 = req_Plugins req2 /\
  req_TouchSupport req1 = req_TouchSupport req2 /\
  req_CookieEnabled req1 = req_CookieEnabled req2 /\
  req_DoNotTrack req1 = req_DoNotTrack req2.

(** Stand-ins for library functions, for running examples. *)
Definition keepText (s : string) : string := s.
Definition textDigest (s : string) : list byte := list_byte_of_string s.

Definition noFaults : Service.Faults :=
  {| Service.saveFails := false; Service.analysisFault := NoFault |}.

(** The rows of the [fingerprints] table that are keyed by [h]. *)
Definition fingerprintsFor (h : string) (db : Service.Database) : list Fingerprint :=
  filter (fun row => (FingerprintHash row =? h)%string) (Service.fingerprints db).

(** Both tables have at most one row per hash, and every analysis row refers
    to a row of [fingerprints]. *)
Definition consistentDatabase (db : Service.Database) : Prop :=
  NoDup (map FingerprintHash (Service.fingerprints db)) /\
  NoDup (map a_FingerprintHash (Service.analysis db)) /\
  forall row, In row (Service.analysis db) ->
              In (a_FingerprintHash row) (map FingerprintHash (Service.fingerprints db)).

(** A collector state whose WebGL renders differ from call to call, and the
    request that carries its three detection records. *)
Definition noisySession : Modern.CollectorState :=
  session None (Some (Modern.collectWebGLFingerprint noisyWebGLRun)) EmptyString 0.

Definition noisyRequest : FingerprintRequest :=
  requestCarrying
    (Wire.bindNoise "none" (Modern.generateNoiseDetectionData_canvas noisySession))
    (Wire.bindNoise "renders differ" (Modern.generateNoiseDetectionData_webgl noisySession))
    (Wire.bindNoise "none" (Modern.generateNoiseDetectionData_audio noisySession)).

(** The polynomial [c0*31^(n-1) + c1*31^(n-2) + ... + c(n-1)] over the code
    units of a string, in unbounded integers. *)
Definition polynomial31 (str : list Z) : Z :=
  fold_left (fun h c => (31 * h + c)%Z) str 0%Z.

(** The number a string of hexadecimal digits denotes. *)
Definition digitValue (c : ascii) : Z :=
  let n := Z.of_nat (nat_of_ascii c) in
  if (n <=? 57)%Z then (n - 48)%Z else (n - 87)%Z.

Fixpoint hexValue (s : string) : Z :=
  match s with
  | EmptyString => 0%Z
  | String c s' => (digitValue c * 16 ^ len s' + hexValue s')%Z
  end.

(** A stand-in for [Number.prototype.toString], for running examples: the
    numerator and the denominator in base 16 behind a sign. *)
Definition showQ (q : Q) : string :=
  String (if (Qnum q <? 0)%Z then "-" else "+")%char
         (CryptoUtils.toString16 (Z.abs (Qnum q)) ++ "/"
            ++ CryptoUtils.toString16 (Zpos (Qden q))).

(** Rendered samples: silence up to sample 4500, then one sample [x]. *)
Definition spikeAt4500 (x : Q) : list Q :=
  (repeat 0 (Z.to_nat 4500) ++ [x])%list.

End Scenario2.
(** * Part II: properties *)

(** ** Arithmetic and string helpers *)

Lemma Qltb_lt (x y : Q) : Qltb x y = true <-> (x < y)%Q.
Proof.
  unfold Qltb. rewrite negb_true_iff. split; intro H.
  - apply Qnot_le_lt. intro Hle. apply Qle_bool_iff in Hle. congruence.
  - destruct (Qle_bool y x) eqn:E; [|reflexivity].
    apply Qle_bool_iff in E. exfalso. exact (Qlt_not_le _ _ H E).
Qed.

Lemma Qltb_ge (x y : Q) : Qltb x y = false <-> (y <= x)%Q.
Proof.
  unfold Qltb. rewrite negb_false_iff. apply Qle_bool_iff.
Qed.

Lemma Qgtb_gt (x y : Q) : Qgtb x y = true <-> (y < x)%Q.
Proof. apply Qltb_lt. Qed.

Lemma Qgtb_le (x y : Q) : Qgtb x y = false <-> (x <= y)%Q.
Proof. apply Qltb_ge. Qed.

Lemma all_chars_app p s t :
  all_chars p (s ++ t) = andb (all_chars p s) (all_chars p t).
Proof.
  induction s as [|c s IH]; simpl; [reflexivity|].
  now rewrite IH, andb_assoc.
Qed.

Lemma byte2hex_lower_hex b : all_chars is_lower_hex (byte2hex b) = true.
Proof. destruct b; vm_compute; reflexivity. Qed.

Lemma byte2hex_length b : String.length (byte2hex b) = 2%nat.
Proof. reflexivity. Qed.

Lemma string_length_app s t :
  String.length (s ++ t) = (String.length s + String.length t)%nat.
Proof. induction s as [|c s IH]; simpl; [reflexivity|now rewrite IH]. Qed.

Lemma buf2hex_length buffer :
  String.length (buf2hex buffer) = (2 * List.length buffer)%nat.
Proof.
  induction buffer as [|b rest IH]; [reflexivity|].
  cbn [buf2hex List.length]. rewrite string_length_app, byte2hex_length, IH. lia.
Qed.

Lemma buf2hex_lower_hex buffer : all_chars is_lower_hex (buf2hex buffer) = true.
Proof.
  induction buffer as [|b rest IH]; [reflexivity|].
  cbn [buf2hex]. now rewrite all_chars_app, byte2hex_lower_hex, IH.
Qed.

(** ** The Go backend *)

Module BackendFacts.
Import Backend Scenario.

(** *** Risk level and the bot flag *)

Example risk_level_at_half : calculateRiskLevel 1 (5#10) = "MEDIUM".
Proof. reflexivity. Qed.

Example risk_level_at_threshold : calculateRiskLevel 1 (7#10) = "MEDIUM".
Proof. reflexivity. Qed.

Example plain_fingerprint_scores :
  staticPenalties plainFingerprint == 0 /\ calculateUniquenessScore plainFingerprint == 1.
Proof. split; vm_compute; reflexivity. Qed.

Lemma calculateRiskLevel_cases (u b : Q) :
  ((7#10) < b /\ calculateRiskLevel u b = "HIGH") \/
  ((4#10) < b /\ b <= (7#10) /\ calculateRiskLevel u b = "MEDIUM") \/
  (b <= (4#10) /\ calculateRiskLevel u b = "LOW").
Proof.
  unfold calculateRiskLevel.
  destruct (Qgtb b (7#10)) eqn:Hhigh.
  - left. apply Qgtb_gt in Hhigh. auto.
  - apply Qgtb_le in Hhigh.
    destruct (Qgtb b (4#10)) eqn:Hmed.
    + right; left. apply Qgtb_gt in Hmed. auto.
    + right; right. apply Qgtb_le in Hmed. auto.
Qed.

Lemma analyze_returns (now : Z) (tbl : AnalysisTable)
    (fp : Fingerprint) (req : FingerprintRequest) :
  exists analysis,
    analyzeFingerprintWithNoise NoFault now tbl fp req
      = (saveAnalysis tbl analysis, Some analysis) /\
    a_FingerprintHash analysis = FingerprintHash fp /\
    BotScore analysis = calculateBotScoreWithNoise fp req /\
    RiskLevel analysis
      = calculateRiskLevel (calculateUniquenessScore fp) (calculateBotScoreWithNoise fp req) /\
    IsBot analysis = Qgtb (calculateBotScoreWithNoise fp req) (7#10) /\
    LastSeen analysis = now /\
    VisitCount analysis
      = match queryRow tbl (FingerprintHash fp) with
        | None => 1%Z
        | Some row => wrap64 (VisitCount row + 1)
        end.
Proof.
  eexists. unfold analyzeFingerprintWithNoise. cbn.
  repeat split; reflexivity.
Qed.

(** C9.  [calculateRiskLevel] answers "HIGH" exactly when the bot score is
    above 0.7, "MEDIUM" exactly when it is above 0.4 and at most 0.7, and
    "LOW" exactly when it is at most 0.4; and the analysis that
    [analyzeFingerprintWithNoise] returns has [IsBot] set exactly when its
    bot score is above 0.7. *)
Theorem risk_level_and_bot_flag :
  forall (uniquenessScore botScore : Q) (now : Z) (tbl : AnalysisTable)
         (fp : Fingerprint) (req : FingerprintRequest),
    (calculateRiskLevel uniquenessScore botScore = "HIGH" <-> (7#10) < botScore) /\
    (calculateRiskLevel uniquenessScore botScore = "MEDIUM"
       <-> (4#10) < botScore /\ botScore <= (7#10)) /\
    (calculateRiskLevel uniquenessScore botScore = "LOW" <-> botScore <= (4#10)) /\
    exists analysis,
      snd (analyzeFingerprintWithNoise NoFault now tbl fp req) = Some analysis /\
      (IsBot analysis = true <-> (7#10) < BotScore analysis) /\
      RiskLevel analysis = calculateRiskLevel (UniquenessScore analysis) (BotScore analysis).
Proof.
  intros u b now tbl fp req.
  assert (Hcases := calculateRiskLevel_cases u b).
  repeat split.
  - intro H. destruct Hcases as [[? _]|[(_ & _ & E)|(_ & E)]]; [assumption| |];
      rewrite E in H; discriminate.
  - intro H. destruct Hcases as [[_ E]|[(_ & Hle & _)|(Hle & _)]]; [assumption| |];
      exfalso; apply (Qlt_not_le _ _ H); [assumption|].
      apply Qle_trans with (4#10); [assumption|]. unfold Qle; simpl; lia.
  - destruct Hcases as [[_ E]|[(? & _ & _)|(_ & E)]]; [|assumption|];
      rewrite E in H; discriminate.
  - destruct Hcases as [[_ E]|[(_ & ? & _)|(_ & E)]]; [|assumption|];
      rewrite E in H; discriminate.
  - intros [Hlo Hhi]. destruct Hcases as [[Hgt _]|[(_ & _ & E)|(Hle & _)]].
    + exfalso. exact (Qlt_not_le _ _ Hgt Hhi).
    + assumption.
    + exfalso. exact (Qlt_not_le _ _ Hlo Hle).
  - intro H. destruct Hcases as [[_ E]|[(_ & _ & E)|(? & _)]]; [| |assumption];
      rewrite E in H; discriminate.
  - intro H. destruct Hcases as [[Hgt _]|[(Hgt & _ & _)|(_ & E)]]; [| |assumption];
      exfalso; apply (Qlt_not_le _ _ Hgt); [|assumption].
      apply Qle_trans with (4#10); [assumption|]. unfold Qle; simpl; lia.
  - destruct (analyze_returns now tbl fp req)
      as (analysis & Hrun & _ & Hscore & Hrisk & Hbot & _).
    exists analysis. rewrite Hrun. cbn [snd]. split; [reflexivity|]. split.
    + rewrite Hbot, Hscore. apply Qgtb_gt.
    + rewrite Hrisk, Hscore. unfold calculateRiskLevel. reflexivity.
Qed.

(** *** The range of the bot score *)

Ltac weights := unfold Qle; simpl; lia.

Lemma clampUpper_le_1 (score : Q) : clampUpper score <= 1.
Proof.
  unfold clampUpper. destruct (Qgtb score 1) eqn:E.
  - apply Qle_refl.
  - now apply Qgtb_le in E.
Qed.

Lemma clampUpper_nonneg (score : Q) : 0 <= score -> 0 <= clampUpper score.
Proof.
  intro H. unfold clampUpper. destruct (Qgtb score 1); [|assumption].
  unfold Qle; simpl; lia.
Qed.

Lemma clampUpper_le (score : Q) : clampUpper score <= score.
Proof.
  unfold clampUpper. destruct (Qgtb score 1) eqn:E.
  - apply Qgtb_gt in E. now apply Qlt_le_weak.
  - apply Qle_refl.
Qed.

Lemma penalty_nonneg (b : bool) (score q : Q) :
  0 <= q -> 0 <= score -> 0 <= (if b then score + q else score).
Proof.
  intros Hq Hs. destruct b; [|assumption].
  replace 0 with (0 + 0) by reflexivity. now apply Qplus_le_compat.
Qed.

Lemma staticPenalties_nonneg (fp : Fingerprint) : 0 <= staticPenalties fp.
Proof.
  unfold staticPenalties. cbv zeta.
  repeat (apply penalty_nonneg; [unfold Qle; simpl; lia|]).
  apply Qle_refl.
Qed.

Lemma calculateBotScore_range (fp : Fingerprint) :
  0 <= calculateBotScore fp /\ calculateBotScore fp <= 1.
Proof.
  unfold calculateBotScore. split.
  - apply clampUpper_nonneg, staticPenalties_nonneg.
  - apply clampUpper_le_1.
Qed.

Lemma weighted_nonneg (w c score : Q) :
  0 <= w -> 0 <= c -> 0 <= score -> 0 <= score + w * c.
Proof.
  intros Hw Hc Hs. replace 0 with (0 + 0) by reflexivity.
  apply Qplus_le_compat; [assumption|]. now apply Qmult_le_0_compat.
Qed.

Lemma addCanvasNoise_nonneg score nd :
  nonnegConfidence nd -> 0 <= score -> 0 <= addCanvasNoise score nd.
Proof.
  intros Hc Hs. unfold addCanvasNoise. destruct nd as [d|]; [|assumption].
  simpl in Hc.
  repeat match goal with
         | |- context [if ?b then _ else _] => destruct b
         end; try assumption; apply weighted_nonneg; auto; weights.
Qed.

Lemma addWebGLNoise_nonneg score nd :
  nonnegConfidence nd -> 0 <= score -> 0 <= addWebGLNoise score nd.
Proof.
  intros Hc Hs. unfold addWebGLNoise. destruct nd as [d|]; [|assumption].
  simpl in Hc.
  repeat match goal with
         | |- context [if ?b then _ else _] => destruct b
         end; try assumption; apply weighted_nonneg; auto; weights.
Qed.

Lemma addAudioNoise_nonneg score nd :
  nonnegConfidence nd -> 0 <= score -> 0 <= addAudioNoise score nd.
Proof.
  intros Hc Hs. unfold addAudioNoise. destruct nd as [d|]; [|assumption].
  simpl in Hc.
  repeat match goal with
         | |- context [if ?b then _ else _] => destruct b
         end; try assumption; apply weighted_nonneg; auto; weights.
Qed.

(** The upper clamp works for every request. *)
Lemma bot_score_at_most_1 (fp : Fingerprint) (req : FingerprintRequest) :
  calculateBotScoreWithNoise fp req <= 1.
Proof. unfold calculateBotScoreWithNoise. cbv zeta. apply clampUpper_le_1. Qed.

(** With confidences that are not negative the score stays in [0,1]. *)
Lemma bot_score_range_nonneg_confidence (fp : Fingerprint) (req : FingerprintRequest) :
  nonnegConfidence (CanvasNoiseDetection req) ->
  nonnegConfidence (WebGLNoiseDetection req) ->
  nonnegConfidence (AudioNoiseDetection req) ->
  0 <= calculateBotScoreWithNoise fp req /\ calculateBotScoreWithNoise fp req <= 1.
Proof.
  intros Hc Hw Ha. split; [|apply bot_score_at_most_1].
  unfold calculateBotScoreWithNoise. cbv zeta.
  apply clampUpper_nonneg, addAudioNoise_nonneg, addWebGLNoise_nonneg,
    addCanvasNoise_nonneg; auto.
  apply calculateBotScore_range.
Qed.

(** C3.  On a request whose canvas detection record has [confidence = -5] and
    type "random_noise", [calculateBotScoreWithNoise] returns [-2]: the score
    leaves the interval [0,1] from below, since only the upper end is
    clamped. *)
Theorem bot_score_negative_confidence :
  calculateBotScoreWithNoise plainFingerprint (requestWith (Some negativeConfidence)) == -2
  /\ calculateBotScoreWithNoise plainFingerprint (requestWith (Some negativeConfidence)) < 0.
Proof. split; vm_compute; reflexivity. Qed.

(** *** One row per hash in the [analysis] table *)

Example table_after_four_visits :
  map (fun row => (a_FingerprintHash row, VisitCount row, LastSeen row))
      (run (threeVisits ++ [visit "aa" 20]))
  = [("bb", 1, 11); ("aa", 3, 20)]%Z.
Proof. vm_compute. reflexivity. Qed.

Lemma queryRow_rowsFor (tbl : AnalysisTable) (h : string) :
  queryRow tbl h = match rowsFor h tbl with [] => None | row :: _ => Some row end.
Proof.
  unfold queryRow, rowsFor. induction tbl as [|r tbl IH]; [reflexivity|].
  simpl. destruct (hasHash h r); [reflexivity|exact IH].
Qed.

Lemma hasHash_true (h : string) (row : Analysis) :
  hasHash h row = true <-> a_FingerprintHash row = h.
Proof. unfold hasHash. apply String.eqb_eq. Qed.

Lemma hasHash_false (h : string) (row : Analysis) :
  hasHash h row = false <-> a_FingerprintHash row <> h.
Proof. unfold hasHash. apply String.eqb_neq. Qed.

Lemma rowsFor_purged (h : string) (tbl : AnalysisTable) :
  rowsFor h (filter (fun row => negb (hasHash h row)) tbl) = [].
Proof.
  unfold rowsFor. induction tbl as [|r tbl IH]; [reflexivity|].
  simpl. destruct (hasHash h r) eqn:E; simpl; [exact IH|].
  rewrite E. exact IH.
Qed.

Lemma rowsFor_kept (h h' : string) (tbl : AnalysisTable) :
  h' <> h ->
  rowsFor h' (filter (fun row => negb (hasHash h row)) tbl) = rowsFor h' tbl.
Proof.
  intro Hne. unfold rowsFor. induction tbl as [|r tbl IH]; [reflexivity|].
  simpl. destruct (hasHash h r) eqn:E; simpl.
  - apply hasHash_true in E.
    assert (E' : hasHash h' r = false) by (apply hasHash_false; congruence).
    rewrite E'. exact IH.
  - destruct (hasHash h' r); [rewrite IH|]; auto.
Qed.

Lemma rowsFor_saveAnalysis_same (tbl : AnalysisTable) (analysis : Analysis) :
  rowsFor (a_FingerprintHash analysis) (saveAnalysis tbl analysis) = [analysis].
Proof.
  unfold saveAnalysis, rowsFor. rewrite filter_app.
  fold (rowsFor (a_FingerprintHash analysis)
          (filter (fun row => negb (hasHash (a_FingerprintHash analysis) row)) tbl)).
  rewrite rowsFor_purged. simpl.
  assert (E : hasHash (a_FingerprintHash analysis) analysis = true)
    by now apply hasHash_true.
  now rewrite E.
Qed.

Lemma rowsFor_saveAnalysis_other (tbl : AnalysisTable) (analysis : Analysis) (h' : string) :
  h' <> a_FingerprintHash analysis ->
  rowsFor h' (saveAnalysis tbl analysis) = rowsFor h' tbl.
Proof.
  intro Hne. unfold saveAnalysis.
  unfold rowsFor at 1. rewrite filter_app.
  fold (rowsFor h' (filter (fun row => negb (hasHash (a_FingerprintHash analysis) row)) tbl)).
  rewrite rowsFor_kept by assumption. simpl.
  assert (E : hasHash h' analysis = false) by (apply hasHash_false; congruence).
  rewrite E. apply app_nil_r.
Qed.

(** Deleting rows keeps the hashes pairwise distinct. *)
Lemma hashes_distinct_after_delete (keep : Analysis -> bool) (tbl : AnalysisTable) :
  NoDup (map a_FingerprintHash tbl) ->
  NoDup (map a_FingerprintHash (filter keep tbl)).
Proof.
  intro Hdistinct. induction tbl as [|row tbl IH]; [exact Hdistinct|].
  cbn [filter map] in *. apply NoDup_cons_iff in Hdistinct as [Hfresh Hrest].
  destruct (keep row); [|exact (IH Hrest)].
  cbn [map]. apply NoDup_cons; [|exact (IH Hrest)].
  rewrite in_map_iff. intros (other & Hsame & Hkept).
  apply filter_In in Hkept as [Hkept _].
  apply Hfresh. rewrite in_map_iff. exists other. auto.
Qed.

Lemma NoDup_saveAnalysis (tbl : AnalysisTable) (analysis : Analysis) :
  NoDup (map a_FingerprintHash tbl) ->
  NoDup (map a_FingerprintHash (saveAnalysis tbl analysis)).
Proof.
  intro H. unfold saveAnalysis. rewrite map_app. simpl.
  apply (Permutation_NoDup (l := a_FingerprintHash analysis
           :: map a_FingerprintHash
                (filter (fun row => negb (hasHash (a_FingerprintHash analysis) row)) tbl))).
  - apply Permutation_cons_append.
  - constructor; [|now apply hashes_distinct_after_delete].
    intro Hin. apply in_map_iff in Hin as (row & Hrow & Hin).
    apply filter_In in Hin as [_ Hneg].
    apply negb_true_iff, hasHash_false in Hneg. congruence.
Qed.

Lemma NoDup_rowsFor (tbl : AnalysisTable) (h : string) :
  NoDup (map a_FingerprintHash tbl) -> (List.length (rowsFor h tbl) <= 1)%nat.
Proof.
  unfold rowsFor. induction tbl as [|r tbl IH]; simpl; intro H; [lia|].
  inversion H as [|? ? Hnotin Hnd]; subst.
  destruct (hasHash h r) eqn:E; [|auto].
  apply hasHash_true in E. simpl.
  assert (Hnone : filter (hasHash h) tbl = []).
  { destruct (filter (hasHash h) tbl) as [|y ys] eqn:F; [reflexivity|].
    exfalso. apply Hnotin.
    assert (Hy : In y (filter (hasHash h) tbl)) by (rewrite F; now left).
    apply filter_In in Hy as [Hy Hh]. apply hasHash_true in Hh.
    apply in_map_iff. exists y. split; [congruence|assumption]. }
  rewrite Hnone. simpl. lia.
Qed.

Lemma wrap64_small (z : Z) : (0 <= z <= maxInt64)%Z -> wrap64 z = z.
Proof.
  unfold wrap64, maxInt64. intro H.
  rewrite Z.mod_small; lia.
Qed.

Lemma run_snoc (subs : list Submission) (s : Submission) :
  run (subs ++ [s]) = submit (run subs) s.
Proof. unfold run. now rewrite fold_left_app. Qed.

Lemma hashCount_snoc_same (subs : list Submission) (s : Submission) :
  hashCount (FingerprintHash (sub_fp s)) (subs ++ [s])
    = S (hashCount (FingerprintHash (sub_fp s)) subs).
Proof.
  unfold hashCount. rewrite filter_app, length_app. simpl.
  rewrite String.eqb_refl. simpl. lia.
Qed.

Lemma hashCount_snoc_other (subs : list Submission) (s : Submission) (h : string) :
  h <> FingerprintHash (sub_fp s) ->
  hashCount h (subs ++ [s]) = hashCount h subs.
Proof.
  intro Hne. unfold hashCount. rewrite filter_app, length_app. simpl.
  assert (E : (FingerprintHash (sub_fp s) =? h)%string = false)
    by (apply String.eqb_neq; congruence).
  rewrite E. simpl. lia.
Qed.

Lemma hashCount_le (h : string) (subs : list Submission) :
  (hashCount h subs <= List.length subs)%nat.
Proof. unfold hashCount. apply filter_length_le. Qed.

Lemma submit_spec (tbl : AnalysisTable) (s : Submission) :
  exists analysis,
    submit tbl s = saveAnalysis tbl analysis /\
    a_FingerprintHash analysis = FingerprintHash (sub_fp s) /\
    LastSeen analysis = sub_now s /\
    VisitCount analysis
      = match rowsFor (FingerprintHash (sub_fp s)) tbl with
        | [] => 1%Z
        | row :: _ => wrap64 (VisitCount row + 1)
        end.
Proof.
  destruct (analyze_returns (sub_now s) tbl (sub_fp s) (sub_req s))
    as (analysis & Hrun & Hh & _ & _ & _ & Hseen & Hcount).
  exists analysis. unfold submit. rewrite Hrun. cbn [fst].
  repeat split; try assumption.
  rewrite Hcount, queryRow_rowsFor.
  destruct (rowsFor (FingerprintHash (sub_fp s)) tbl); reflexivity.
Qed.

Lemma tableCounts_run (subs : list Submission) :
  (Z.of_nat (List.length subs) <= maxInt64)%Z -> tableCounts subs (run subs).
Proof.
  induction subs as [|s subs IH] using rev_ind; intro Hlen.
  - split; [constructor|]. intro h. reflexivity.
  - rewrite length_app in Hlen. simpl in Hlen.
    destruct IH as [Hnd Hrows]; [lia|].
    rewrite run_snoc.
    destruct (submit_spec (run subs) s) as (analysis & Hsub & Hh & _ & Hcount).
    rewrite Hsub. split; [now apply NoDup_saveAnalysis|].
    intro h. destruct (string_dec h (FingerprintHash (sub_fp s))) as [->|Hne].
    + pose proof (rowsFor_saveAnalysis_same (run subs) analysis) as Hsame.
      rewrite Hh in Hsame. rewrite Hsame.
      rewrite hashCount_snoc_same. split; [|lia].
      rewrite Hcount. specialize (Hrows (FingerprintHash (sub_fp s))).
      destruct (rowsFor (FingerprintHash (sub_fp s)) (run subs)) as [|row [|? ?]].
      * rewrite Hrows. reflexivity.
      * destruct Hrows as [Hvc Hpos]. rewrite Hvc.
        assert (Hle := hashCount_le (FingerprintHash (sub_fp s)) subs).
        rewrite wrap64_small; lia.
      * contradiction.
    + rewrite rowsFor_saveAnalysis_other by congruence.
      rewrite hashCount_snoc_other by assumption. apply Hrows.
Qed.

(** C2.  Starting from the empty table, after any run of submissions (fewer
    than 2^63 of them, the range of Go's [int]) followed by one more
    submission [s] with hash [h]: no hash has more than one row; [h] has
    exactly one row, whose [last_seen] is the time of [s] and whose
    [visit_count] is the number of submissions of [h] so far; that count is 1
    when [h] had no row before and the old count plus one when it had; and
    the rows of the other hashes are unchanged. *)
Theorem visit_count_upsert :
  forall (subs : list Submission) (s : Submission),
    (Z.of_nat (List.length subs) < maxInt64)%Z ->
    let h := FingerprintHash (sub_fp s) in
    let before := run subs in
    let after := run (subs ++ [s]) in
    (forall h', List.length (rowsFor h' after) <= 1)%nat /\
    (exists row,
       rowsFor h after = [row] /\
       LastSeen row = sub_now s /\
       VisitCount row = Z.of_nat (hashCount h (subs ++ [s])) /\
       (rowsFor h before = [] -> VisitCount row = 1%Z) /\
       (forall old, rowsFor h before = [old] ->
                    VisitCount row = (VisitCount old + 1)%Z)) /\
    (forall h', h' <> h -> rowsFor h' after = rowsFor h' before).
Proof.
  intros subs s Hlen h before after.
  assert (Hbefore : tableCounts subs before) by (apply tableCounts_run; lia).
  assert (Hafter : tableCounts (subs ++ [s]) after).
  { apply tableCounts_run. rewrite length_app. simpl. lia. }
  destruct (submit_spec before s) as (analysis & Hsub & Hh & Hseen & Hcount).
  assert (Hrun : after = saveAnalysis before analysis).
  { unfold after. rewrite run_snoc. exact Hsub. }
  split; [|split].
  - intro h'. apply NoDup_rowsFor, Hafter.
  - exists analysis.
    assert (Hrow : rowsFor h after = [analysis]).
    { rewrite Hrun. unfold h. rewrite <- Hh. apply rowsFor_saveAnalysis_same. }
    split; [exact Hrow|]. split; [exact Hseen|].
    destruct Hafter as [_ Hafter]. specialize (Hafter h). rewrite Hrow in Hafter.
    destruct Hafter as [Hvc _]. split; [exact Hvc|]. split.
    + intro Hnone. rewrite Hcount. fold h. now rewrite Hnone.
    + intros old Hold. rewrite Hcount. fold h. rewrite Hold.
      destruct Hbefore as [_ Hbefore]. specialize (Hbefore h). rewrite Hold in Hbefore.
      destruct Hbefore as [Hvc' _]. rewrite Hvc'.
      assert (Hle := hashCount_le h subs).
      rewrite wrap64_small; lia.
  - intros h' Hne. rewrite Hrun. apply rowsFor_saveAnalysis_other.
    rewrite Hh. exact Hne.
Qed.

Lemma visit_count_upsert_witness :
  (Z.of_nat (List.length threeVisits) < maxInt64)%Z /\
  exists row,
    rowsFor "aa" (run (threeVisits ++ [visit "aa" 20])) = [row] /\
    LastSeen row = 20%Z /\ VisitCount row = 3%Z.
Proof.
  assert (Hlen : (Z.of_nat (List.length threeVisits) < maxInt64)%Z)
    by (vm_compute; reflexivity).
  split; [exact Hlen|].
  destruct (visit_count_upsert threeVisits (visit "aa" 20) Hlen)
    as (_ & (row & Hrow & Hseen & Hvc & _) & _).
  exists row. split; [exact Hrow|]. split; [exact Hseen|].
  rewrite Hvc. reflexivity.
Defined.

(** *** [GenerateFingerprintHash] *)

Example combined_parts_sample :
  combinedParts sampleMap
  = "canvas:data:image/png;base64,AAAA|fonts:[Arial Verdana]|touch_support:false|user_agent:Mozilla/5.0".
Proof. vm_compute. reflexivity. Qed.

Example sort_Strings_sample :
  sort_Strings ["user_agent"; "fonts"; "Zeta"; "canvas"; "fonts2"]
  = ["Zeta"; "canvas"; "fonts"; "fonts2"; "user_agent"].
Proof. vm_compute. reflexivity. Qed.

Lemma ascii_compare_trans_le (a b c : ascii) :
  Ascii.compare a b <> Gt -> Ascii.compare b c <> Gt -> Ascii.compare a c <> Gt.
Proof.
  unfold Ascii.compare. rewrite !N.compare_le_iff. lia.
Qed.

Lemma string_leb_trans (s1 s2 s3 : string) :
  String.leb s1 s2 = true -> String.leb s2 s3 = true -> String.leb s1 s3 = true.
Proof.
  unfold String.leb. revert s2 s3.
  induction s1 as [|a s1 IH]; intros [|b s2] [|c s3]; simpl; try congruence.
  specialize (IH s2 s3).
  destruct (Ascii.compare a b) eqn:Hab; try congruence;
    destruct (Ascii.compare b c) eqn:Hbc; try congruence;
    intros H12 H23.
  - apply Ascii.compare_eq_iff in Hab, Hbc. subst.
    assert (E : Ascii.compare c c = Eq) by (unfold Ascii.compare; apply N.compare_refl).
    rewrite E. auto.
  - apply Ascii.compare_eq_iff in Hab. subst. now rewrite Hbc.
  - apply Ascii.compare_eq_iff in Hbc. subst. now rewrite Hab.
  - assert (E : Ascii.compare a c = Lt).
    { unfold Ascii.compare in *. rewrite N.compare_lt_iff in *. lia. }
    now rewrite E.
Qed.

Lemma insertSorted_perm (k : string) (l : list string) :
  Permutation (k :: l) (insertSorted k l).
Proof.
  induction l as [|x l IH]; simpl; [apply Permutation_refl|].
  destruct (String.leb k x); [apply Permutation_refl|].
  eapply perm_trans; [apply perm_swap|]. now apply perm_skip.
Qed.

Lemma insertSorted_sorted (k : string) (l : list string) :
  sortedStrings l -> sortedStrings (insertSorted k l).
Proof.
  unfold sortedStrings. induction l as [|x l IH]; simpl; intro H.
  - repeat constructor.
  - inversion H as [|? ? Hl Hx]; subst.
    destruct (String.leb k x) eqn:E.
    + constructor; [assumption|]. constructor; [assumption|].
      rewrite Forall_forall in *. intros y Hy.
      eapply string_leb_trans; [exact E|]. now apply Hx.
    + constructor; [now apply IH|].
      assert (Hxk : String.leb x k = true).
      { destruct (String.leb_total k x) as [F|F]; [congruence|exact F]. }
      rewrite Forall_forall in *. intros y Hy.
      apply (Permutation_in (l' := k :: l)) in Hy;
        [|apply Permutation_sym, insertSorted_perm].
      destruct Hy as [<-|Hy]; [exact Hxk|now apply Hx].
Qed.

Lemma sort_Strings_perm (keys : list string) : Permutation keys (sort_Strings keys).
Proof.
  unfold sort_Strings. induction keys as [|k keys IH]; simpl; [constructor|].
  eapply perm_trans; [|apply insertSorted_perm]. now apply perm_skip.
Qed.

Lemma sort_Strings_sorted (keys : list string) : sortedStrings (sort_Strings keys).
Proof.
  unfold sort_Strings. induction keys as [|k keys IH]; simpl.
  - constructor.
  - now apply insertSorted_sorted.
Qed.

Lemma sorted_perm_unique (l1 l2 : list string) :
  sortedStrings l1 -> sortedStrings l2 -> Permutation l1 l2 -> l1 = l2.
Proof.
  unfold sortedStrings. revert l2.
  induction l1 as [|a l1 IH]; intros l2 H1 H2 Hp.
  - now apply Permutation_nil in Hp.
  - destruct l2 as [|b l2].
    + apply Permutation_sym, Permutation_nil in Hp. discriminate.
    + inversion H1 as [|? ? Hs1 Ha]; subst.
      inversion H2 as [|? ? Hs2 Hb]; subst.
      rewrite Forall_forall in Ha, Hb.
      assert (Hab : a = b).
      { assert (Hina : In a (b :: l2)) by (eapply Permutation_in; [exact Hp|now left]).
        assert (Hinb : In b (a :: l1))
          by (eapply Permutation_in; [apply Permutation_sym; exact Hp|now left]).
        destruct Hina as [->|Hina]; [reflexivity|].
        destruct Hinb as [->|Hinb]; [reflexivity|].
        apply String.leb_antisym; [now apply Ha|now apply Hb]. }
      subst b. f_equal. apply IH; try assumption.
      now apply Permutation_cons_inv in Hp.
Qed.

Lemma sort_Strings_order_independent (keys1 keys2 : list string) :
  Permutation keys1 keys2 -> sort_Strings keys1 = sort_Strings keys2.
Proof.
  intro Hp. apply sorted_perm_unique; try apply sort_Strings_sorted.
  eapply perm_trans; [apply Permutation_sym, sort_Strings_perm|].
  eapply perm_trans; [exact Hp|apply sort_Strings_perm].
Qed.

Lemma mapIndex_In (data : GoMap) (k : string) (v : GoValue) :
  NoDup (map fst data) -> In (k, v) data -> mapIndex data k = Some v.
Proof.
  induction data as [|[k' v'] data IH]; simpl; intros Hnd Hin; [contradiction|].
  inversion Hnd as [|? ? Hnotin Hnd']; subst.
  destruct Hin as [E|Hin].
  - inversion E; subst. now rewrite String.eqb_refl.
  - destruct (String.eqb_spec k' k) as [->|Hne].
    + exfalso. apply Hnotin. apply in_map_iff. now exists (k, v).
    + now apply IH.
Qed.

Lemma mapIndex_None (data : GoMap) (k : string) :
  ~ In k (map fst data) -> mapIndex data k = None.
Proof.
  induction data as [|[k' v'] data IH]; simpl; intro Hnotin; [reflexivity|].
  destruct (String.eqb_spec k' k) as [->|Hne]; [exfalso; auto|].
  apply IH. intro H. apply Hnotin. now right.
Qed.

Lemma mapIndex_order_independent (data1 data2 : GoMap) (k : string) :
  NoDup (map fst data1) -> Permutation data1 data2 ->
  mapIndex data1 k = mapIndex data2 k.
Proof.
  intros Hnd Hp.
  assert (Hnd2 : NoDup (map fst data2)).
  { eapply Permutation_NoDup; [apply Permutation_map; exact Hp|exact Hnd]. }
  destruct (mapIndex data1 k) as [v|] eqn:E.
  - symmetry. apply mapIndex_In; [assumption|].
    eapply Permutation_in; [exact Hp|].
    clear -E. induction data1 as [|[k' v'] data1 IH]; simpl in *; [discriminate|].
    destruct (String.eqb_spec k' k) as [->|Hne].
    + inversion E; subst. now left.
    + right. now apply IH.
  - symmetry. apply mapIndex_None. intro Hin.
    apply in_map_iff in Hin as ([k' v] & Hk & Hin). simpl in Hk. subst k'.
    apply (Permutation_in (l' := data1)) in Hin; [|now apply Permutation_sym].
    rewrite (mapIndex_In data1 k v) in E by assumption. discriminate.
Qed.

Section DigestFacts.

Variable sha256_Sum256 : string -> list byte.
Hypothesis sha256_Size : forall s, List.length (sha256_Sum256 s) = 32%nat.

Lemma combinedParts_order_independent (data1 data2 : GoMap) :
  NoDup (map fst data1) -> Permutation data1 data2 ->
  combinedParts data1 = combinedParts data2.
Proof.
  intros Hnd Hp. unfold combinedParts. cbv zeta.
  rewrite (sort_Strings_order_independent (map fst data1) (map fst data2))
    by now apply Permutation_map.
  f_equal. apply map_ext. intro k.
  now rewrite (mapIndex_order_independent data1 data2 k).
Qed.

(** C10.  Two iteration orders of the same map (the same entries, keys
    pairwise distinct) give the same hash, and the hash is a string of 64
    lowercase hexadecimal characters. *)
Theorem fingerprint_hash_order_independent :
  forall (data1 data2 : GoMap),
    NoDup (map fst data1) ->
    Permutation data1 data2 ->
    GenerateFingerprintHash sha256_Sum256 data1
      = GenerateFingerprintHash sha256_Sum256 data2 /\
    String.length (GenerateFingerprintHash sha256_Sum256 data1) = 64%nat /\
    all_chars is_lower_hex (GenerateFingerprintHash sha256_Sum256 data1) = true.
Proof.
  intros data1 data2 Hnd Hp. unfold GenerateFingerprintHash. cbv zeta.
  split; [|split].
  - now rewrite (combinedParts_order_independent data1 data2).
  - rewrite buf2hex_length, sha256_Size. reflexivity.
  - apply buf2hex_lower_hex.
Qed.

End DigestFacts.

Lemma fingerprint_hash_order_independent_witness :
  (forall s, List.length (zeroDigest s) = 32%nat) /\
  NoDup (map fst sampleMap) /\
  Permutation sampleMap sampleMapReordered /\
  GenerateFingerprintHash zeroDigest sampleMap
    = GenerateFingerprintHash zeroDigest sampleMapReordered.
Proof.
  assert (Hsize : forall s, List.length (zeroDigest s) = 32%nat)
    by (intro s; reflexivity).
  assert (Hnd : NoDup (map fst sampleMap)).
  { simpl. repeat constructor; simpl; intuition discriminate. }
  assert (Hp : Permutation sampleMap sampleMapReordered).
  { unfold sampleMap, sampleMapReordered.
    apply (Permutation_app_comm
             [("user_agent", VString "Mozilla/5.0"); ("fonts", VStrings ["Arial"; "Verdana"])]
             [("touch_support", VBool false);
              ("canvas", VString "data:image/png;base64,AAAA")]). }
  split; [exact Hsize|]. split; [exact Hnd|]. split; [exact Hp|].
  exact (proj1 (fingerprint_hash_order_independent zeroDigest Hsize
                  sampleMap sampleMapReordered Hnd Hp)).
Defined.

End BackendFacts.

(** ** [AudioUtils.analyzeCompressorResults] *)

Module AudioFacts.
Import AudioUtils Scenario.
Import PrimFloat.

(** The number of triggered indicators for a pair of completed trials. *)
Lemma analyze_completed_pair (t1 t2 : TestResult) (rest : list (option TestResult))
    (d1 d2 : list (string * string)) :
  fingerprint t1 <> "error" -> fingerprint t2 <> "error" ->
  detailedFingerprint t1 = Some d1 -> detailedFingerprint t2 = Some d2 ->
  exists k,
    analyzeCompressorResults (Some (Some t1 :: Some t2 :: rest))
      = {| hasDynamicNoise :=
             orb (negb (fingerprint t1 =? fingerprint t2)%string)
                 (0 <? mismatchedSegments d1 d2)%nat;
           confidence :=
             Double.toQ
               (if orb (negb (fingerprint t1 =? fingerprint t2)%string)
                       (0 <? mismatchedSegments d1 d2)%nat
                then Double.Math_min 0.95 (0.6 + Double.ofNat k * 0.15)
                else 0.8)%float;
           mainFingerprintMatch := Some (fingerprint t1 =? fingerprint t2)%string;
           testCount := Some (S (S (List.length rest)));
           noiseIndicators := Some k |} /\
    (k <= 3)%nat /\
    (orb (negb (fingerprint t1 =? fingerprint t2)%string)
         (0 <? mismatchedSegments d1 d2)%nat = true -> (1 <= k)%nat).
Proof.
  intros Hf1 Hf2 Hd1 Hd2.
  apply String.eqb_neq in Hf1, Hf2.
  unfold analyzeCompressorResults, analyzeBody.
  cbn [deref bind].
  change (List.length (Some t1 :: Some t2 :: rest) <? 2)%nat with false.
  cbn [nth deref bind]. rewrite Hf1. cbn [deref bind]. rewrite Hf2, Hd1, Hd2.
  destruct (fingerprint t1 =? fingerprint t2)%string;
    destruct (0 <? mismatchedSegments d1 d2)%nat;
    cbn [negb orb];
    destruct (andb (truthy (renderTime t1)) (truthy (renderTime t2)));
    try destruct (quotientExceeds _ _ _);
    eexists; (split; [reflexivity|]); (split; [lia|]);
    intro Hflag; try discriminate Hflag; lia.
Qed.

Lemma strictNe_true (a b : option string) : strictNe a b = true <-> a <> b.
Proof.
  destruct a as [x|], b as [y|]; simpl.
  - rewrite negb_true_iff, String.eqb_neq. split; congruence.
  - split; [discriminate|reflexivity].
  - split; [discriminate|reflexivity].
  - split; [discriminate|congruence].
Qed.

Lemma mismatchedSegments_pos (d1 d2 : list (string * string)) :
  (0 <? mismatchedSegments d1 d2)%nat = true <->
  exists name, In name (keys d1) /\ getProp d1 name <> getProp d2 name.
Proof.
  unfold mismatchedSegments. rewrite Nat.ltb_lt. split.
  - intro H.
    destruct (filter (fun segment => strictNe (getProp d1 segment) (getProp d2 segment))
                     (keys d1)) as [|name l] eqn:E; [simpl in H; lia|].
    assert (Hin : In name (name :: l)) by now left.
    rewrite <- E in Hin. apply filter_In in Hin as [Hin Hne].
    exists name. split; [assumption|]. now apply strictNe_true.
  - intros (name & Hin & Hne).
    assert (Hf : In name (filter (fun segment =>
                   strictNe (getProp d1 segment) (getProp d2 segment)) (keys d1))).
    { apply filter_In. split; [assumption|]. now apply strictNe_true. }
    destruct (filter _ (keys d1)); [contradiction|simpl; lia].
Qed.

(** The doubles that [Math.min(0.95, 0.6 + k * 0.15)] evaluates to. *)
Lemma noisy_confidence_values (k : nat) :
  (1 <= k <= 3)%nat ->
  Double.toQ (Double.Math_min 0.95 (0.6 + Double.ofNat k * 0.15))%float
    = Double.toQ (if (k =? 1)%nat then 0.75
                  else if (k =? 2)%nat then 0.8999999999999999 else 0.95)%float.
Proof.
  intro Hk. destruct k as [|[|[|[|k]]]]; try lia; vm_compute; reflexivity.
Qed.

Lemma noise_confidence_monotone (k k' : nat) :
  (1 <= k)%nat -> (k <= k')%nat -> (k' <= 3)%nat ->
  Double.toQ (Double.Math_min 0.95 (0.6 + Double.ofNat k * 0.15))%float
    <= Double.toQ (Double.Math_min 0.95 (0.6 + Double.ofNat k' * 0.15))%float.
Proof.
  intros H1 Hle H3.
  destruct k as [|[|[|[|k]]]]; try lia;
    destruct k' as [|[|[|[|k']]]]; try lia; vm_compute; discriminate.
Qed.

Lemma confidence_near_formula (flag : bool) (k : nat) :
  (k <= 3)%nat -> (flag = true -> (1 <= k)%nat) ->
  Qabs (Double.toQ (if flag then Double.Math_min 0.95 (0.6 + Double.ofNat k * 0.15)
                    else 0.8)%float
        - (if flag then Qmin (95#100) ((6#10) + inject_Z (Z.of_nat k) * (15#100))
           else 8#10))
    <= 1 # 9007199254740992.
Proof.
  intros H3 H1. destruct flag.
  - specialize (H1 eq_refl).
    destruct k as [|[|[|[|k]]]]; try lia; vm_compute; discriminate.
  - vm_compute; discriminate.
Qed.

(** C4 (the part that fails).  With identical trials no indicator triggers
    and the confidence is 0.8; when only the last segment differs one
    indicator triggers, noise is reported, and the confidence is 0.75: the
    confidence drops although the indicator count grew. *)
Lemma audio_confidence_drops_at_first_indicator :
  noiseIndicators (analyzeCompressorResults cleanPair) = Some 0%nat /\
  noiseIndicators (analyzeCompressorResults lateSegmentDiffers) = Some 1%nat /\
  hasDynamicNoise (analyzeCompressorResults cleanPair) = false /\
  hasDynamicNoise (analyzeCompressorResults lateSegmentDiffers) = true /\
  confidence (analyzeCompressorResults cleanPair) = Double.toQ 0.8 /\
  confidence (analyzeCompressorResults lateSegmentDiffers) == 75#100 /\
  ~ (confidence (analyzeCompressorResults cleanPair)
       <= confidence (analyzeCompressorResults lateSegmentDiffers)).
Proof.
  repeat split; try (vm_compute; reflexivity).
  vm_compute. intro H. apply H. reflexivity.
Qed.

(** C4 (amended).  For two completed trials, [hasDynamicNoise] holds exactly
    when the main fingerprints differ or one of the four segment fingerprints
    differs.  The indicator count [k] is at most 3, and at least 1 when noise
    is reported.  The confidence is the double that
    [Math.min(0.95, 0.6 + k * 0.15)] evaluates to when noise is reported (0.75,
    0.8999999999999999 and 0.95 for one, two and three indicators) and the
    double 0.8 otherwise; it is within 2^-53 of [min(0.95, 0.6 + 0.15 k)],
    respectively 0.8, taken in the rationals.  It never exceeds 0.95; and
    between two results that both report noise it does not decrease when the
    indicator count grows. *)
Theorem audio_noise_verdict :
  forall (t1 t2 u1 u2 : TestResult) (rest rest' : list (option TestResult)),
    successful t1 -> successful t2 -> successful u1 -> successful u2 ->
    let r := analyzeCompressorResults (Some (Some t1 :: Some t2 :: rest)) in
    let r' := analyzeCompressorResults (Some (Some u1 :: Some u2 :: rest')) in
    (hasDynamicNoise r = true <->
       fingerprint t1 <> fingerprint t2 \/
       exists name, In name segmentNames /\ segmentOf t1 name <> segmentOf t2 name) /\
    (exists k,
       noiseIndicators r = Some k /\
       (k <= 3)%nat /\
       (hasDynamicNoise r = true -> (1 <= k)%nat) /\
       confidence r
         = Double.toQ (if hasDynamicNoise r
                       then Double.Math_min 0.95 (0.6 + Double.ofNat k * 0.15)
                       else 0.8)%float /\
       confidence r
         = Double.toQ (if hasDynamicNoise r
                       then if (k =? 1)%nat then 0.75
                            else if (k =? 2)%nat then 0.8999999999999999 else 0.95
                       else 0.8)%float /\
       Qabs (confidence r
             - (if hasDynamicNoise r
                then Qmin (95#100) ((6#10) + inject_Z (Z.of_nat k) * (15#100))
                else 8#10))
         <= 1 # 9007199254740992) /\
    confidence r <= 95#100 /\
    (forall k k',
       hasDynamicNoise r = true -> hasDynamicNoise r' = true ->
       noiseIndicators r = Some k -> noiseIndicators r' = Some k' ->
       (k <= k')%nat -> confidence r <= confidence r').
Proof.
  intros t1 t2 u1 u2 rest rest'
         [Hf1 (m1 & e1 & d1 & l1 & Hd1)] [Hf2 (m2 & e2 & d2 & l2 & Hd2)]
         [Hg1 (n1 & a1 & b1 & c1 & He1)] [Hg2 (n2 & a2 & b2 & c2 & He2)] r r'.
  destruct (analyze_completed_pair t1 t2 rest _ _ Hf1 Hf2 Hd1 Hd2)
    as (k & Hr & Hk3 & Hk1).
  destruct (analyze_completed_pair u1 u2 rest' _ _ Hg1 Hg2 He1 He2)
    as (k' & Hr' & Hk3' & Hk1').
  fold r in Hr. fold r' in Hr'.
  split; [|split; [|split]].
  - rewrite Hr. cbn [hasDynamicNoise].
    rewrite orb_true_iff, negb_true_iff, String.eqb_neq, mismatchedSegments_pos.
    unfold segmentOf. rewrite Hd1, Hd2. reflexivity.
  - exists k. rewrite Hr. cbn [noiseIndicators confidence hasDynamicNoise].
    split; [reflexivity|]. split; [exact Hk3|]. split; [exact Hk1|].
    split; [reflexivity|]. split.
    + destruct (orb _ _); [|reflexivity].
      apply noisy_confidence_values. split; [now apply Hk1|exact Hk3].
    + now apply confidence_near_formula.
  - rewrite Hr. cbn [confidence].
    destruct (orb _ _).
    + specialize (Hk1 eq_refl).
      destruct k as [|[|[|[|k]]]]; try lia; vm_compute; discriminate.
    + vm_compute; discriminate.
  - intros j j' Hn Hn' Hk Hk' Hle.
    rewrite Hr in Hn, Hk |- *. rewrite Hr' in Hn', Hk' |- *.
    cbn [hasDynamicNoise noiseIndicators confidence] in *.
    rewrite Hn, Hn'. inversion Hk; inversion Hk'; subst.
    apply noise_confidence_monotone; auto.
Qed.

Lemma audio_noise_verdict_witness :
  successful (trial 0 "35.73833" "12.50121" "35.74996" "35.10893" 12) /\
  successful (trial 1 "35.73833" "12.50121" "35.74996" "35.10894" 12) /\
  confidence (analyzeCompressorResults lateSegmentDiffers) <= 95#100.
Proof.
  assert (H0 : successful (trial 0 "35.73833" "12.50121" "35.74996" "35.10893" 12)).
  { split; [discriminate|]. repeat eexists. }
  assert (H1 : successful (trial 1 "35.73833" "12.50121" "35.74996" "35.10894" 12)).
  { split; [discriminate|]. repeat eexists. }
  split; [exact H0|]. split; [exact H1|].
  exact (proj1 (proj2 (proj2 (audio_noise_verdict _ _ _ _ [] [] H0 H1 H0 H1)))).
Defined.

(** C8.  When fewer than two trials are present, or one of the two trials
    carries the error marker, or the analysis itself throws, the result has
    confidence 0 and reports no dynamic noise. *)
Theorem failed_comparison_is_unknown :
  forall (testResults : option (list (option TestResult))),
    ((exists results, testResults = Some results /\ (List.length results < 2)%nat) \/
     (exists results t,
        testResults = Some results /\
        (nth 0 results None = Some t \/ nth 1 results None = Some t) /\
        fingerprint t = "error") \/
     (exists message, analyzeBody testResults = Throw message)) ->
    confidence (analyzeCompressorResults testResults) == 0 /\
    hasDynamicNoise (analyzeCompressorResults testResults) = false.
Proof.
  intros testResults H.
  assert (Hunknown : analyzeCompressorResults testResults = unknownResult).
  { unfold analyzeCompressorResults.
    destruct H as [(results & -> & Hlen)|[(results & t & -> & Hnth & Herr)|(message & Hthrow)]].
    - unfold analyzeBody. cbn [deref bind].
      apply Nat.ltb_lt in Hlen. rewrite Hlen. reflexivity.
    - unfold analyzeBody. cbn [deref bind].
      destruct (List.length results <? 2)%nat; [reflexivity|].
      apply String.eqb_eq in Herr.
      destruct (nth 0 results None) as [t1|] eqn:E1; cbn [deref bind tryCatch];
        [|reflexivity].
      destruct (fingerprint t1 =? "error")%string eqn:F1; [reflexivity|].
      destruct Hnth as [Hnth|Hnth].
      + inversion Hnth; subst. congruence.
      + rewrite Hnth. cbn [deref bind tryCatch]. rewrite Herr. reflexivity.
    - rewrite Hthrow. reflexivity. }
  rewrite Hunknown. split; reflexivity.
Qed.

Lemma failed_comparison_is_unknown_witness :
  (exists results t,
     pairOf (trial 0 "35.73833" "12.50121" "35.74996" "35.10893" 12) (failedTrial 1)
       = Some results /\
     (nth 0 results None = Some t \/ nth 1 results None = Some t) /\
     fingerprint t = "error") /\
  confidence (analyzeCompressorResults
                (pairOf (trial 0 "35.73833" "12.50121" "35.74996" "35.10893" 12)
                        (failedTrial 1))) == 0.
Proof.
  assert (H : exists results t,
             pairOf (trial 0 "35.73833" "12.50121" "35.74996" "35.10893" 12) (failedTrial 1)
               = Some results /\
             (nth 0 results None = Some t \/ nth 1 results None = Some t) /\
             fingerprint t = "error").
  { eexists. exists (failedTrial 1). split; [reflexivity|]. split; [right|]; reflexivity. }
  split; [exact H|].
  exact (proj1 (failed_comparison_is_unknown _ (or_intror (or_introl H)))).
Defined.

End AudioFacts.

(** ** [CanvasUtils.analyzePixels] *)

Module CanvasFacts.
Import CanvasUtils Scenario.

Lemma suspicious_spec (r g b a : Z) :
  suspicious r g b a = true <->
  (0 < a /\ 30 < Z.abs (r - g) + Z.abs (g - b) + Z.abs (b - r) < 200)%Z.
Proof.
  unfold suspicious. destruct (0 <? a)%Z eqn:Ea.
  - apply Z.ltb_lt in Ea. rewrite andb_true_iff, !Z.ltb_lt. tauto.
  - apply Z.ltb_ge in Ea. split; [discriminate|lia].
Qed.

Lemma suspiciousCount_flatten (quads : list (Z * Z * Z * Z)) :
  suspiciousCount (flatten quads)
    = List.length (filter (fun '(r, g, b, a) => suspicious r g b a) quads).
Proof.
  induction quads as [|[[[r g] b] a] quads IH]; [reflexivity|].
  cbn [flatten suspiciousCount filter]. rewrite IH.
  destruct (suspicious r g b a); reflexivity.
Qed.

Lemma analyzePixels_flag (Math_log2 : Q -> Q) (pixelData : list Z) :
  hasNoise (analyzePixels Math_log2 pixelData)
    = Qgtb (inject_Z (Z.of_nat (suspiciousCount pixelData))
              / (inject_Z (Z.of_nat (List.length pixelData)) / 4))
           (1#10).
Proof.
  unfold analyzePixels. cbv zeta. destruct (Qgtb _ (1#10)); reflexivity.
Qed.

(** C7 (the part that fails).  In a buffer of ten pixels of which one is
    opaque and suspicious, the suspicious pixels are all of the opaque pixels,
    yet the flag is not raised: the ratio is taken over all ten pixels and is
    exactly 0.1. *)
Lemma pixel_flag_not_relative_to_opaque :
  spec_opaqueCount onePixelInTen = 1%nat /\
  suspiciousCount onePixelInTen = 1%nat /\
  spec_exceedsTenthOfOpaque onePixelInTen /\
  forall Math_log2, hasNoise (analyzePixels Math_log2 onePixelInTen) = false.
Proof.
  split; [reflexivity|]. split; [reflexivity|]. split.
  - vm_compute. reflexivity.
  - intro Math_log2. rewrite analyzePixels_flag. vm_compute. reflexivity.
Qed.

(** C7 (amended).  A pixel is counted as suspicious exactly when its alpha is
    positive and [|R-G| + |G-B| + |B-R|] lies strictly between 30 and 200;
    the flag is raised exactly when the suspicious pixels, divided by the
    number of all pixels of the buffer (opaque or not), exceed 0.1; the
    confidence is then [min(2 x that ratio, 0.95)], and 0.8 when the flag is
    not raised. *)
Theorem pixel_noise_flag :
  forall (Math_log2 : Q -> Q) (quads : list (Z * Z * Z * Z)),
    let pixelData := flatten quads in
    let ratio := inject_Z (Z.of_nat (suspiciousCount pixelData))
                 / (inject_Z (Z.of_nat (List.length pixelData)) / 4) in
    let result := analyzePixels Math_log2 pixelData in
    (forall r g b a,
       suspicious r g b a = true <->
       (0 < a /\ 30 < Z.abs (r - g) + Z.abs (g - b) + Z.abs (b - r) < 200)%Z) /\
    suspiciousCount pixelData
      = List.length (filter (fun '(r, g, b, a) => suspicious r g b a) quads) /\
    inject_Z (Z.of_nat (List.length pixelData)) / 4
      == inject_Z (Z.of_nat (List.length quads)) /\
    (hasNoise result = true <-> (1#10) < ratio) /\
    confidence result
      = (if hasNoise result then Qmin (ratio * 2) (95#100) else 8#10).
Proof.
  intros Math_log2 quads pixelData ratio result.
  split; [exact suspicious_spec|].
  split; [apply suspiciousCount_flatten|].
  split.
  - assert (Hlen : List.length pixelData = (4 * List.length quads)%nat).
    { unfold pixelData. clear. induction quads as [|[[[r g] b] a] quads IH];
        [reflexivity|]. cbn [flatten List.length]. rewrite IH. lia. }
    rewrite Hlen, Nat2Z.inj_mul, inject_Z_mult. simpl (Z.of_nat 4).
    field.
  - split.
    + unfold result. rewrite analyzePixels_flag. apply Qgtb_gt.
    + unfold result, analyzePixels. cbv zeta. fold pixelData. fold ratio.
      destruct (Qgtb ratio (1#10)); reflexivity.
Qed.

End CanvasFacts.

(** ** The collectors *)

Module CollectorFacts.
Import Scenario.

(** *** The composite fingerprint *)

Lemma orString_empty (f : option string) :
  orString f EmptyString = match f with Some text => text | None => EmptyString end.
Proof.
  destruct f as [text|]; [|reflexivity]. unfold orString.
  destruct (String.eqb_spec text EmptyString); [now subst|reflexivity].
Qed.

Lemma combined_fingerprint (s : Modern.CollectorState)
    (basic screen timezone hardware canvas webgl audio fonts storage : string) :
  hasSubFingerprints s basic screen timezone hardware canvas webgl audio fonts storage ->
  Join (map (fun f => orString f "") (Modern.subFingerprints s)) "|"
    = basic ++ "|" ++ screen ++ "|" ++ timezone ++ "|" ++ hardware ++ "|" ++ canvas
        ++ "|" ++ webgl ++ "|" ++ audio ++ "|" ++ fonts ++ "|" ++ storage.
Proof.
  intros (Hb & Hsc & Htz & Hhw & Hcv & Hwg & Hau & Hfo & Hst).
  unfold Modern.subFingerprints, Join. cbn [map String.concat].
  rewrite !orString_empty. unfold fingerprintText in *.
  rewrite <- Hb, <- Hsc, <- Htz, <- Hhw, <- Hcv, <- Hwg, <- Hau, <- Hfo, <- Hst.
  destruct (Modern.basic s), (Modern.screen s), (Modern.timezone s),
    (Modern.hardware s), (Modern.canvas s), (Modern.webgl s), (Modern.audio s),
    (Modern.fonts s), (Modern.storage s); reflexivity.
Qed.

(** C1.  For every nine strings and every session whose basic, screen,
    timezone, hardware, canvas, webgl, audio, fonts and storage fingerprints
    are these strings, [generateMainFingerprint] is the lowercase hexadecimal
    text of the digest of the nine strings joined in that order with "|"
    (and the fixed error text when the digest rejects).  So two sessions with
    the same nine sub-fingerprints get the same main fingerprint, whatever
    their timestamps, versions, plugin component and other contents. *)
Theorem main_fingerprint_from_sub_fingerprints_only :
  forall (subtle_digest : string -> outcome (list byte))
         (s1 s2 : Modern.CollectorState)
         (basic screen timezone hardware canvas webgl audio fonts storage : string),
    hasSubFingerprints s1 basic screen timezone hardware canvas webgl audio fonts storage ->
    hasSubFingerprints s2 basic screen timezone hardware canvas webgl audio fonts storage ->
    let combined :=
      basic ++ "|" ++ screen ++ "|" ++ timezone ++ "|" ++ hardware ++ "|" ++ canvas
        ++ "|" ++ webgl ++ "|" ++ audio ++ "|" ++ fonts ++ "|" ++ storage in
    Modern.generateMainFingerprint subtle_digest s1
      = Modern.generateMainFingerprint subtle_digest s2 /\
    (forall hashBuffer,
       subtle_digest combined = Ok hashBuffer ->
       Modern.generateMainFingerprint subtle_digest s1 = buf2hex hashBuffer) /\
    (forall message,
       subtle_digest combined = Throw message ->
       Modern.generateMainFingerprint subtle_digest s1
         = "error_generating_main_fingerprint").
Proof.
  intros subtle_digest s1 s2 b sc tz hw cv wg au fo st H1 H2 combined.
  pose proof (combined_fingerprint s1 _ _ _ _ _ _ _ _ _ H1) as E1.
  pose proof (combined_fingerprint s2 _ _ _ _ _ _ _ _ _ H2) as E2.
  fold combined in E1, E2.
  unfold Modern.generateMainFingerprint. cbv zeta. rewrite E1, E2.
  split; [reflexivity|]. unfold hashString. split.
  - intros hashBuffer Hdigest. rewrite Hdigest. reflexivity.
  - intros message Hdigest. rewrite Hdigest. reflexivity.
Qed.

Lemma main_fingerprint_from_sub_fingerprints_only_witness :
  hasSubFingerprints
    (session None (Some (Modern.collectWebGLFingerprint noisyWebGLRun))
       "first visit" 1700000000000)
    "6b1f" "22aa" "9c01" "77e3" EmptyString "5e" EmptyString "d00d" "41c6" /\
  hasSubFingerprints
    (session None (Some (Modern.collectWebGLFingerprint noisyWebGLRun))
       "second visit" 1800000000000)
    "6b1f" "22aa" "9c01" "77e3" EmptyString "5e" EmptyString "d00d" "41c6" /\
  Modern.generateMainFingerprint echoDigest
    (session None (Some (Modern.collectWebGLFingerprint noisyWebGLRun))
       "first visit" 1700000000000)
    = buf2hex (list_byte_of_string "6b1f|22aa|9c01|77e3||5e||d00d|41c6").
Proof.
  assert (H1 : hasSubFingerprints
                 (session None (Some (Modern.collectWebGLFingerprint noisyWebGLRun))
                    "first visit" 1700000000000)
                 "6b1f" "22aa" "9c01" "77e3" EmptyString "5e" EmptyString "d00d" "41c6")
    by (repeat split; reflexivity).
  assert (H2 : hasSubFingerprints
                 (session None (Some (Modern.collectWebGLFingerprint noisyWebGLRun))
                    "second visit" 1800000000000)
                 "6b1f" "22aa" "9c01" "77e3" EmptyString "5e" EmptyString "d00d" "41c6")
    by (repeat split; reflexivity).
  split; [exact H1|]. split; [exact H2|].
  exact (proj1 (proj2 (main_fingerprint_from_sub_fingerprints_only echoDigest _ _
                         _ _ _ _ _ _ _ _ _ H1 H2))
           (list_byte_of_string "6b1f|22aa|9c01|77e3||5e||d00d|41c6") eq_refl).
Defined.

(** *** WebGL: the red-rectangle probe *)

Lemma includes_knownHashes (h : string) :
  Modern.includes Modern.knownHashes h = (allowListed =? h)%string.
Proof. unfold Modern.includes, Modern.knownHashes, allowListed. simpl. apply orb_false_r. Qed.

Lemma legacy_includes (h : string) :
  Modern.includes Legacy.knownHashes h = (allowListed =? h)%string.
Proof. unfold Modern.includes, Legacy.knownHashes, allowListed. simpl. apply orb_false_r. Qed.

(** The modern collector raises the persistent-noise flag exactly for the
    read-back hashes that are not on the allow-list. *)
Lemma modern_persistent_flag (h : string) (renders : outcome (string * string)) :
  Modern.hasPersistentNoise (Modern.detectWebGLNoise (Modern.Readback h) renders)
    = negb (allowListed =? h)%string.
Proof.
  unfold Modern.detectWebGLNoise. cbv zeta. cbn [Modern.hasPersistentNoise orFalse].
  cbn [Modern.detectWebGLPersistentNoise Modern.isSpoofed].
  now rewrite includes_knownHashes.
Qed.

(** In the modern collector the reported WebGL confidence is the one of
    [detectWebGLSpoofing]; the red-rectangle probe has no part in it. *)
Lemma modern_reported_confidence (run : Modern.WebGLRun)
    (canvas : option Modern.CanvasInfo) (payload : string) (timestamp : Z) :
  option_map nd_confidence
    (Modern.generateNoiseDetectionData_webgl
       (session canvas (Some (Modern.collectWebGLFingerprint run)) payload timestamp))
    = Some (orNumber
              (Some (Modern.sd_confidence (Modern.detectWebGLSpoofing (Modern.spoofingTests run))))
              0).
Proof. reflexivity. Qed.

(** The legacy collector does what the claim says: a read-back hash off the
    allow-list raises the flag and lifts the confidence to 0.8 or more. *)
Lemma legacy_persistent_confidence (h : string) (random : option Modern.RandomResult) :
  h <> allowListed ->
  let analysis :=
    Legacy.analyzeWebGLSpoofing
      {| Legacy.persistentNoise := Some (Legacy.detectWebGLPersistentNoise (Modern.Readback h));
         Legacy.randomNoise := random |} in
  Legacy.hasPersistentNoise analysis = true /\ (8#10) <= Legacy.confidence analysis.
Proof.
  intro Hne.
  assert (E : Legacy.isSpoofed (Legacy.detectWebGLPersistentNoise (Modern.Readback h)) = true).
  { unfold Legacy.detectWebGLPersistentNoise. cbv zeta. cbn [Legacy.isSpoofed].
    rewrite legacy_includes. apply negb_true_iff, String.eqb_neq. congruence. }
  unfold Legacy.analyzeWebGLSpoofing. cbv zeta.
  cbn [Legacy.persistentNoise Legacy.randomNoise]. rewrite E.
  destruct random as [r|]; [destruct (Modern.rr_isSpoofed r)|];
    cbn [Legacy.hasPersistentNoise Legacy.confidence orb]; split; try reflexivity.
  - eapply Qle_trans; [|apply Q.le_max_l]. apply Q.le_max_r.
  - apply Q.le_max_r.
  - apply Q.le_max_r.
Qed.

Lemma legacy_allow_listed (random : option Modern.RandomResult) :
  Legacy.hasPersistentNoise
    (Legacy.analyzeWebGLSpoofing
       {| Legacy.persistentNoise :=
            Some (Legacy.detectWebGLPersistentNoise (Modern.Readback allowListed));
          Legacy.randomNoise := random |}) = false.
Proof. destruct random as [r|]; reflexivity. Qed.

(** C5.  In the modern collector, a red rectangle that hashes to a
    64-character hexadecimal string off the allow-list raises
    [hasPersistentNoise], but when the two cube renders of
    [detectWebGLSpoofing] differ the confidence reported for WebGL is 0.1,
    below 0.8. *)
Theorem modern_persistent_noise_low_confidence :
  let data := Modern.collectWebGLFingerprint noisyWebGLRun in
  let reported :=
    Modern.generateNoiseDetectionData_webgl (session None (Some data) "" 0) in
  String.length foreignHash = 64%nat /\
  all_chars is_lower_hex foreignHash = true /\
  option_map Modern.hasPersistentNoise (Modern.noiseDetection data) = Some true /\
  option_map nd_hasNoise reported = Some true /\
  (exists nd, reported = Some nd /\ nd_confidence nd == 1#10 /\ nd_confidence nd < 8#10).
Proof.
  repeat split; try (vm_compute; reflexivity).
  eexists. split; [reflexivity|]. split; vm_compute; reflexivity.
Qed.

(** *** Canvas *)

(** The modern detector never consults the entropy: the static flag is the
    pixel-variance flag. *)
Lemma modern_static_flag (Math_log2 : Q -> Q) (o s t : string) (imageData : list Z) :
  Modern.hasStaticNoise
    (Modern.detectCanvasNoise Math_log2
       {| Modern.originalDataURL := Ok o; Modern.secondDataURL := Ok s;
          Modern.thirdDataURL := Ok t |} imageData)
    = CanvasUtils.hasNoise (CanvasUtils.analyzePixels Math_log2 imageData).
Proof.
  unfold Modern.detectCanvasNoise. cbn [bind tryCatch Modern.originalDataURL
    Modern.secondDataURL Modern.thirdDataURL Modern.hasStaticNoise].
  apply orb_false_r.
Qed.

Lemma modern_dynamic_flag (Math_log2 : Q -> Q) (o s t : string) (imageData : list Z) :
  Modern.hasDynamicNoise
    (Modern.detectCanvasNoise Math_log2
       {| Modern.originalDataURL := Ok o; Modern.secondDataURL := Ok s;
          Modern.thirdDataURL := Ok t |} imageData) = true
  <-> o <> s \/ s <> t.
Proof.
  unfold Modern.detectCanvasNoise. cbn [bind tryCatch Modern.originalDataURL
    Modern.secondDataURL Modern.thirdDataURL Modern.hasDynamicNoise].
  now rewrite orb_true_iff, !negb_true_iff, !String.eqb_neq.
Qed.

(** Whatever the canvas session was, the record reported for the canvas
    modality says "no noise, confidence 0". *)
Lemma modern_reported_canvas (Math_log2 : Q -> Q)
    (subtle_digest : string -> outcome (list byte)) (run : Modern.CanvasRun)
    (webgl : option Modern.WebGLInfo) (payload : string) (timestamp : Z) :
  Modern.generateNoiseDetectionData_canvas
    (session (Some (Modern.collectCanvasFingerprint Math_log2 subtle_digest run))
             webgl payload timestamp)
  = Some {| nd_hasNoise := false; nd_type := "none"; nd_confidence := 0 |}.
Proof.
  unfold Modern.generateNoiseDetectionData_canvas, session. cbn [Modern.canvas].
  unfold Modern.collectCanvasFingerprint.
  destruct (Modern.canvasData run) as [canvasData|m]; cbn [bind tryCatch]; [|reflexivity].
  destruct (hashString subtle_digest canvasData) as [fingerprint|m];
    cbn [bind tryCatch Modern.consistencyTest]; [|reflexivity].
  destruct (Modern.consistencyReadouts run) as [results|m]; reflexivity.
Qed.

(** The legacy detector does what the claim says. *)
Lemma legacy_canvas_verdict (calculateEntropy : string -> Q)
    (originalData : string) (results : list string) (imageData : list Z) :
  let verdict :=
    Legacy.detectCanvasNoise calculateEntropy (Ok (originalData, results)) imageData in
  (Legacy.hasDynamicNoise verdict = true
     <-> exists data, In data results /\ data <> originalData) /\
  (Legacy.hasStaticNoise verdict = true
     <-> Legacy.hasNoise (Legacy.analyzeCanvasPixels imageData) = true
         \/ (78#10) < calculateEntropy originalData) /\
  Legacy.cn_confidence verdict
    = (if orb (Legacy.hasDynamicNoise verdict) (Legacy.hasStaticNoise verdict)
       then 9#10 else 8#10).
Proof.
  cbv zeta. unfold Legacy.detectCanvasNoise.
  cbn [bind tryCatch Legacy.hasDynamicNoise Legacy.hasStaticNoise Legacy.cn_confidence].
  split; [|split].
  - rewrite negb_true_iff. split.
    + intro H. induction results as [|d results IH]; [discriminate|].
      simpl in H. apply andb_false_iff in H as [H|H].
      * exists d. split; [now left|]. now apply String.eqb_neq.
      * destruct (IH H) as (data & Hin & Hne). exists data. split; [now right|assumption].
    + intros (data & Hin & Hne).
      destruct (forallb _ results) eqn:E; [|reflexivity].
      rewrite forallb_forall in E. specialize (E data Hin).
      apply String.eqb_eq in E. contradiction.
  - now rewrite orb_true_iff, Qgtb_gt.
  - reflexivity.
Qed.

(** C6.  In the modern collector: on a clean canvas session (three equal
    read-outs, 256 grey pixels) neither flag is set, the pixel entropy is 8
    bits and is compared with nothing, and the confidence reported for the
    canvas is 0 instead of 0.8; on a session whose read-outs change from call
    to call [hasDynamicNoise] is set, but the report still says "no noise"
    with confidence 0 instead of 0.9. *)
Theorem modern_canvas_report_ignores_verdict :
  let clean := Modern.collectCanvasFingerprint log2Table echoDigest steadyCanvasRun in
  let noisy := Modern.collectCanvasFingerprint log2Table echoDigest changingCanvasRun in
  option_map Modern.hasDynamicNoise (Modern.canvas_noiseDetection clean) = Some false /\
  option_map Modern.hasStaticNoise (Modern.canvas_noiseDetection clean) = Some false /\
  (exists pixels, Modern.canvas_pixelAnalysis clean = Some pixels /\
                  CanvasUtils.entropy pixels == 8 /\ (78#10) < CanvasUtils.entropy pixels) /\
  Modern.generateNoiseDetectionData_canvas (session (Some clean) None "" 0)
    = Some {| nd_hasNoise := false; nd_type := "none"; nd_confidence := 0 |} /\
  option_map Modern.hasDynamicNoise (Modern.canvas_noiseDetection noisy) = Some true /\
  Modern.generateNoiseDetectionData_canvas (session (Some noisy) None "" 0)
    = Some {| nd_hasNoise := false; nd_type := "none"; nd_confidence := 0 |}.
Proof.
  cbv zeta.
  split; [vm_compute; reflexivity|].
  split; [vm_compute; reflexivity|].
  split.
  - eexists. split; [vm_compute; reflexivity|]. split; vm_compute; reflexivity.
  - split; [apply modern_reported_canvas|].
    split; [vm_compute; reflexivity|apply modern_reported_canvas].
Qed.

End CollectorFacts.

(** ** Further properties of the backend *)

Module UtilsFacts.
Import Backend Utils Scenario Scenario2.

Example split_sample :
  Split "203.0.113.7, 10.0.0.1,10.0.0.2" ","%char = ["203.0.113.7"; " 10.0.0.1"; "10.0.0.2"].
Proof. reflexivity. Qed.

Example split_blank : Split EmptyString ","%char = [EmptyString].
Proof. reflexivity. Qed.

Example last_index_sample :
  LastIndex "[::1]:8080" ":"%char = 5%Z /\ LastIndex "localhost" ":"%char = (-1)%Z.
Proof. split; reflexivity. Qed.

Lemma substring_prefix (p t : string) :
  String.substring 0 (String.length p) (p ++ t) = p.
Proof.
  induction p as [|c p IH]; simpl.
  - destruct t; reflexivity.
  - now rewrite IH.
Qed.

Lemma append_empty (s : string) : (s ++ EmptyString)%string = s.
Proof. induction s as [|c s IH]; simpl; [reflexivity|now rewrite IH]. Qed.

Lemma len_append (s t : string) : len (s ++ t) = (len s + len t)%Z.
Proof. unfold len. rewrite string_length_app. lia. Qed.

Lemma len_zero (s : string) : len s = 0%Z -> s = EmptyString.
Proof. destruct s; [reflexivity|]. unfold len. simpl. lia. Qed.

Section Library.

Variable strings_TrimSpace : string -> string.
Variable sha256_Sum256 : string -> list byte.

(** [GenerateCanvasHash] looks at the first 10000 bytes only: payloads that
    share them get the same canvas hash, whatever follows. *)
Theorem canvas_hash_ignores_tail :
  forall (head tail1 tail2 : string),
    len head = 10000%Z ->
    GenerateCanvasHash strings_TrimSpace sha256_Sum256 (head ++ tail1)
      = GenerateCanvasHash strings_TrimSpace sha256_Sum256 (head ++ tail2).
Proof.
  intros head tail1 tail2 Hlen.
  assert (Hcut : forall tail,
             (if (10000 <? len (head ++ tail))%Z
              then slicePrefix (head ++ tail) 10000 else (head ++ tail)%string) = head).
  { intro tail. rewrite len_append, Hlen.
    destruct (10000 <? 10000 + len tail)%Z eqn:E.
    - unfold slicePrefix. rewrite <- Hlen. unfold len. rewrite Nat2Z.id.
      apply substring_prefix.
    - apply Z.ltb_ge in E.
      assert (Hnone : len tail = 0%Z) by (unfold len in *; lia).
      apply len_zero in Hnone. subst tail. apply append_empty. }
  unfold GenerateCanvasHash, processCanvasData. cbv zeta.
  now rewrite !Hcut.
Qed.

End Library.

Lemma LastIndex_host_port (host port : string) :
  freeOf ":"%char port ->
  LastIndex (host ++ String ":"%char port) ":"%char = len host.
Proof.
  intro Hfree.
  assert (Hport : LastIndex port ":"%char = (-1)%Z).
  { unfold freeOf in Hfree. induction port as [|c port IH]; [reflexivity|].
    simpl in *. rewrite IH by tauto. simpl.
    destruct (Ascii.eqb_spec c ":"%char) as [->|_]; [exfalso; auto|reflexivity]. }
  induction host as [|c host IH].
  - simpl. rewrite Hport. simpl. reflexivity.
  - cbn [append LastIndex]. rewrite IH.
    assert (H0 : (0 <=? len host)%Z = true) by (apply Z.leb_le; unfold len; lia).
    rewrite H0. unfold len. simpl String.length. lia.
Qed.

Section Headers.

Variable strings_TrimSpace : string -> string.

(** Without forwarding headers, [GetClientIP] strips the port of a
    "host:port" peer address, whatever colons the host part holds. *)
Theorem client_ip_strips_port :
  forall (host port : string),
    freeOf ":"%char port ->
    GetClientIP strings_TrimSpace EmptyString EmptyString (host ++ ":" ++ port) = host.
Proof.
  intros host port Hfree. unfold GetClientIP. cbn [String.eqb negb].
  change (":" ++ port)%string with (String ":"%char port).
  rewrite LastIndex_host_port by assumption.
  assert (Hne : (len host =? -1)%Z = false) by (apply Z.eqb_neq; unfold len; lia).
  rewrite Hne. cbn [negb]. unfold slicePrefix, len. rewrite Nat2Z.id.
  apply substring_prefix.
Qed.

End Headers.

Lemma Split_first (first rest : string) :
  freeOf ","%char first ->
  Split (first ++ String ","%char rest) ","%char = first :: Split rest ","%char.
Proof.
  unfold freeOf. induction first as [|c first IH]; intro Hfree.
  - reflexivity.
  - simpl in Hfree. cbn [append Split].
    destruct (Ascii.eqb_spec c ","%char) as [->|_]; [exfalso; auto|].
    rewrite IH by tauto. reflexivity.
Qed.

Section Forwarded.

Variable strings_TrimSpace : string -> string.

(** A non-empty X-Forwarded-For header decides the address alone:
    [GetClientIP] returns its first comma-separated entry, trimmed, and reads
    neither X-Real-IP nor the peer address. *)
Theorem client_ip_trusts_forwarded_header :
  forall (first rest realIP remoteAddr : string),
    freeOf ","%char first ->
    GetClientIP strings_TrimSpace (first ++ "," ++ rest) realIP remoteAddr
      = strings_TrimSpace first.
Proof.
  intros first rest realIP remoteAddr Hfree. unfold GetClientIP.
  change ("," ++ rest)%string with (String ","%char rest).
  assert (Hne : ((first ++ String ","%char rest) =? EmptyString)%string = false).
  { apply String.eqb_neq. destruct first; discriminate. }
  rewrite Hne. cbn [negb]. now rewrite Split_first.
Qed.

End Forwarded.

Lemma canvas_hash_ignores_tail_witness :
  len (longHead) = 10000%Z /\
  GenerateCanvasHash keepText zeroDigest (longHead ++ "AAAA")
    = GenerateCanvasHash keepText zeroDigest (longHead ++ "zz").
Proof.
  assert (H : len (longHead) = 10000%Z) by (vm_compute; reflexivity).
  split; [exact H|].
  exact (canvas_hash_ignores_tail keepText zeroDigest (longHead) "AAAA" "zz" H).
Defined.

Lemma client_ip_strips_port_witness :
  freeOf ":"%char "8080" /\
  GetClientIP keepText EmptyString EmptyString ("[::1]" ++ ":" ++ "8080") = "[::1]".
Proof.
  assert (H : freeOf ":"%char "8080").
  { unfold freeOf. simpl. intuition discriminate. }
  split; [exact H|].
  exact (client_ip_strips_port keepText "[::1]" "8080" H).
Defined.

Lemma client_ip_trusts_forwarded_header_witness :
  freeOf ","%char " 203.0.113.7" /\
  GetClientIP keepText (" 203.0.113.7" ++ "," ++ " 10.0.0.1") "198.51.100.2" "192.0.2.1:443"
    = keepText " 203.0.113.7".
Proof.
  assert (H : freeOf ","%char " 203.0.113.7").
  { unfold freeOf. simpl. intuition discriminate. }
  split; [exact H|].
  exact (client_ip_trusts_forwarded_header keepText " 203.0.113.7" " 10.0.0.1"
           "198.51.100.2" "192.0.2.1:443" H).
Defined.

End UtilsFacts.

Module ServiceFacts.
Import Backend Service Scenario Scenario2.

(** *** The scores *)

Ltac decideQ :=
  match goal with
  | |- _ <= _ => unfold Qle; vm_compute; discriminate
  | |- _ < _ => unfold Qlt; vm_compute; reflexivity
  | |- _ == _ => unfold Qeq; vm_compute; reflexivity
  | H : _ == _ |- _ => unfold Qeq in H; vm_compute in H; discriminate
  | H : _ <= _ |- _ => unfold Qle in H; vm_compute in H; exfalso; apply H; reflexivity
  end.

Lemma clampUpper_idempotent (score : Q) : clampUpper (clampUpper score) = clampUpper score.
Proof.
  unfold clampUpper. destruct (Qgtb score 1) eqn:E; [reflexivity|now rewrite E].
Qed.

Lemma clampUpper_monotone (x y : Q) : x <= y -> clampUpper x <= clampUpper y.
Proof.
  intro H. unfold clampUpper.
  destruct (Qgtb x 1) eqn:Ex, (Qgtb y 1) eqn:Ey;
    try apply Qgtb_gt in Ex; try apply Qgtb_gt in Ey;
    try apply Qgtb_le in Ex; try apply Qgtb_le in Ey.
  - apply Qle_refl.
  - exfalso. apply (Qlt_not_le _ _ Ex). now apply Qle_trans with y.
  - assumption.
  - assumption.
Qed.

Lemma weighted_grows (w c score : Q) : 0 <= w -> 0 <= c -> score <= score + w * c.
Proof.
  intros Hw Hc. rewrite <- (Qplus_0_r score) at 1.
  apply Qplus_le_r. now apply Qmult_le_0_compat.
Qed.

Lemma addCanvasNoise_grows score nd :
  nonnegConfidence nd -> score <= addCanvasNoise score nd.
Proof.
  intro Hc. unfold addCanvasNoise. destruct nd as [d|]; [|apply Qle_refl].
  simpl in Hc.
  repeat match goal with
         | |- context [if ?b then _ else _] => destruct b
         end; try apply Qle_refl; apply weighted_grows; auto; decideQ.
Qed.

Lemma addWebGLNoise_grows score nd :
  nonnegConfidence nd -> score <= addWebGLNoise score nd.
Proof.
  intro Hc. unfold addWebGLNoise. destruct nd as [d|]; [|apply Qle_refl].
  simpl in Hc.
  repeat match goal with
         | |- context [if ?b then _ else _] => destruct b
         end; try apply Qle_refl; apply weighted_grows; auto; decideQ.
Qed.

Lemma addAudioNoise_grows score nd :
  nonnegConfidence nd -> score <= addAudioNoise score nd.
Proof.
  intro Hc. unfold addAudioNoise. destruct nd as [d|]; [|apply Qle_refl].
  simpl in Hc.
  repeat match goal with
         | |- context [if ?b then _ else _] => destruct b
         end; try apply Qle_refl; apply weighted_grows; auto; decideQ.
Qed.

(** When the three confidences are not negative, the noise records can only
    raise the score: [0 <= calculateBotScore <= calculateBotScoreWithNoise <= 1]. *)
Theorem noise_records_only_raise_score :
  forall (fp : Fingerprint) (req : FingerprintRequest),
    nonnegConfidence (CanvasNoiseDetection req) ->
    nonnegConfidence (WebGLNoiseDetection req) ->
    nonnegConfidence (AudioNoiseDetection req) ->
    0 <= calculateBotScore fp /\
    calculateBotScore fp <= calculateBotScoreWithNoise fp req /\
    calculateBotScoreWithNoise fp req <= 1.
Proof.
  intros fp req Hc Hw Ha.
  split; [unfold calculateBotScore; apply BackendFacts.clampUpper_nonneg,
            BackendFacts.staticPenalties_nonneg|].
  split; [|unfold calculateBotScoreWithNoise; cbv zeta; apply BackendFacts.clampUpper_le_1].
  unfold calculateBotScoreWithNoise. cbv zeta.
  assert (Hfix : calculateBotScore fp = clampUpper (calculateBotScore fp)).
  { unfold calculateBotScore. now rewrite clampUpper_idempotent. }
  rewrite Hfix at 1. apply clampUpper_monotone.
  eapply Qle_trans; [apply (addCanvasNoise_grows _ _ Hc)|].
  eapply Qle_trans; [apply (addWebGLNoise_grows _ _ Hw)|].
  apply (addAudioNoise_grows _ _ Ha).
Qed.

Lemma noise_records_only_raise_score_witness :
  nonnegConfidence (flagged "random_noise" (9#10)) /\
  calculateBotScore plainFingerprint
    <= calculateBotScoreWithNoise plainFingerprint
         (requestCarrying (flagged "random_noise" (9#10)) None None).
Proof.
  assert (Hc : nonnegConfidence (flagged "random_noise" (9#10)))
    by (unfold Qle; vm_compute; discriminate).
  split; [exact Hc|].
  exact (proj1 (proj2 (noise_records_only_raise_score plainFingerprint
                         (requestCarrying (flagged "random_noise" (9#10)) None None)
                         Hc I I))).
Defined.

(** A user agent that contains one of the bot keywords together with a canvas
    payload shorter than 100 bytes gives a static score of at least 0.5, so
    the risk level computed from it is not "LOW". *)
Theorem keyword_and_short_canvas_not_low :
  forall (fp : Fingerprint) (keyword : string) (uniquenessScore : Q),
    In keyword botKeywords ->
    Contains (ToLower (UserAgent fp)) keyword = true ->
    (len (Canvas fp) < 100)%Z ->
    (5#10) <= calculateBotScore fp /\
    calculateRiskLevel uniquenessScore (calculateBotScore fp) <> "LOW".
Proof.
  intros fp keyword u Hin Hkw Hshort.
  assert (Hex : existsb (fun k => Contains (ToLower (UserAgent fp)) k) botKeywords = true).
  { apply existsb_exists. now exists keyword. }
  assert (Hlen : (len (Canvas fp) <? 100)%Z = true) by now apply Z.ltb_lt.
  assert (Hstatic : (5#10) <= staticPenalties fp).
  { unfold staticPenalties. cbv zeta. rewrite Hex, Hlen. cbn [orb].
    repeat match goal with
           | |- context [if ?b then _ else _] => destruct b
           end; decideQ. }
  assert (Hscore : (5#10) <= calculateBotScore fp).
  { unfold calculateBotScore, clampUpper.
    destruct (Qgtb (staticPenalties fp) 1); [decideQ|assumption]. }
  split; [assumption|].
  destruct (BackendFacts.calculateRiskLevel_cases u (calculateBotScore fp))
    as [[_ E]|[(_ & _ & E)|(Hle & _)]].
  - rewrite E. discriminate.
  - rewrite E. discriminate.
  - exfalso. assert (H : (5#10) <= (4#10)) by now apply Qle_trans with (calculateBotScore fp).
    decideQ.
Qed.

Lemma keyword_and_short_canvas_not_low_witness :
  In "headless" botKeywords /\
  Contains (ToLower (UserAgent headlessFingerprint)) "headless" = true /\
  (len (Canvas headlessFingerprint) < 100)%Z /\
  (5#10) <= calculateBotScore headlessFingerprint.
Proof.
  assert (Hin : In "headless" botKeywords) by (simpl; tauto).
  assert (Hkw : Contains (ToLower (UserAgent headlessFingerprint)) "headless" = true)
    by reflexivity.
  assert (Hshort : (len (Canvas headlessFingerprint) < 100)%Z) by (vm_compute; reflexivity).
  split; [exact Hin|]. split; [exact Hkw|]. split; [exact Hshort|].
  exact (proj1 (keyword_and_short_canvas_not_low headlessFingerprint "headless" 1
                  Hin Hkw Hshort)).
Defined.

(** *** The reasons *)

Example reasons_of_headless :
  generateReasons headlessFingerprint (5#10) 1
  = ["User Agent contains bot keyword: headless"; "Canvas fingerprint too short"].
Proof. vm_compute. reflexivity. Qed.

Lemma find_none_of_existsb {A} (p : A -> bool) (l : list A) :
  existsb p l = false -> find p l = None.
Proof.
  induction l as [|x l IH]; simpl; [reflexivity|].
  destruct (p x); simpl; [discriminate|exact IH].
Qed.

(** The conditions that add a penalty, as [calculateBotScore] tests them. *)
Lemma no_penalty_conditions (fp : Fingerprint) :
  staticPenalties fp == 0 ->
  existsb (fun keyword => Contains (ToLower (UserAgent fp)) keyword) botKeywords = false /\
  orb (len (Canvas fp) <? 100)%Z (10000 <? len (Canvas fp))%Z = false /\
  orb (WebGL fp =? EmptyString)%string (WebGL fp =? "undefined")%string = false /\
  orb (llen (JSONToStringSlice (Fonts fp)) <? 5)%Z
      (200 <? llen (JSONToStringSlice (Fonts fp)))%Z = false /\
  orb (llen (JSONToStringSlice (Plugins fp)) =? 0)%Z
      (50 <? llen (JSONToStringSlice (Plugins fp)))%Z = false /\
  orb (ScreenResolution fp =? "0x0")%string (ScreenResolution fp =? EmptyString)%string = false.
Proof.
  unfold staticPenalties. cbv zeta.
  destruct (existsb _ botKeywords);
  destruct (andb (negb (TouchSupport fp)) (Contains (ToLower (UserAgent fp)) "mobile"));
  destruct (orb (len (Canvas fp) <? 100)%Z (10000 <? len (Canvas fp))%Z);
  destruct (orb (WebGL fp =? EmptyString)%string (WebGL fp =? "undefined")%string);
  destruct (orb (llen (JSONToStringSlice (Fonts fp)) <? 5)%Z
                (200 <? llen (JSONToStringSlice (Fonts fp)))%Z);
  destruct (orb (llen (JSONToStringSlice (Plugins fp)) =? 0)%Z
                (50 <? llen (JSONToStringSlice (Plugins fp)))%Z);
  destruct (orb (ScreenResolution fp =? "0x0")%string
                (ScreenResolution fp =? EmptyString)%string);
  intro H; try decideQ; repeat split; reflexivity.
Qed.

(** A record that draws no static penalty is given no accusing reason: the
    only reason [generateReasons] can return for it is the "likely
    legitimate user" one. *)
Theorem no_penalty_no_accusing_reason :
  forall (fp : Fingerprint) (botScore uniquenessScore : Q) (reason : string),
    staticPenalties fp == 0 ->
    In reason (generateReasons fp botScore uniquenessScore) ->
    reason = legitimateReason.
Proof.
  intros fp b u reason Hzero Hin.
  destruct (no_penalty_conditions fp Hzero) as (Hkw & Hcanvas & Hwebgl & Hfonts & Hplugins & Hscreen).
  apply orb_false_iff in Hcanvas as [Hshort Hlong].
  apply orb_false_iff in Hfonts as [Hfew Hmany].
  apply orb_false_iff in Hplugins as [Hnone _].
  unfold generateReasons in Hin. cbv zeta in Hin.
  rewrite (find_none_of_existsb _ _ Hkw), Hshort, Hlong, Hwebgl, Hfew, Hmany, Hnone, Hscreen in Hin.
  unfold appendWhen in Hin. cbn [app] in Hin.
  destruct (andb (Qltb b (3#10)) (Qgtb u (8#10))); simpl in Hin; [|contradiction].
  destruct Hin as [<-|[]]. reflexivity.
Qed.

Lemma no_penalty_no_accusing_reason_witness :
  staticPenalties plainFingerprint == 0 /\
  In (hd EmptyString (generateReasons plainFingerprint 0 1))
     (generateReasons plainFingerprint 0 1) /\
  hd EmptyString (generateReasons plainFingerprint 0 1) = legitimateReason.
Proof.
  assert (Hzero : staticPenalties plainFingerprint == 0) by (vm_compute; reflexivity).
  assert (Hin : In (hd EmptyString (generateReasons plainFingerprint 0 1))
                   (generateReasons plainFingerprint 0 1))
    by (vm_compute; left; reflexivity).
  split; [exact Hzero|]. split; [exact Hin|].
  exact (no_penalty_no_accusing_reason plainFingerprint 0 1 _ Hzero Hin).
Defined.

Lemma noiseReason_length known fallback nd reasons :
  List.length (noiseReason known fallback nd reasons)
  = (List.length reasons
     + (if match nd with Some d => HasNoise d | None => false end then 1 else 0))%nat.
Proof.
  unfold noiseReason. destruct nd as [d|]; [|lia].
  destruct (HasNoise d); [|lia].
  destruct (find _ known); rewrite length_app; simpl; lia.
Qed.

(** Every detection record that is present and flagged adds exactly one
    reason, whatever its type and confidence: also a type that
    [calculateBotScoreWithNoise] does not score is reported. *)
Theorem one_reason_per_flagged_record :
  forall (fp : Fingerprint) (req : FingerprintRequest) (botScore uniquenessScore : Q),
    List.length (generateReasonsWithNoise fp req botScore uniquenessScore)
    = (List.length (generateReasons fp botScore uniquenessScore) + flaggedCount req)%nat
    /\ firstn (List.length (generateReasons fp botScore uniquenessScore))
              (generateReasonsWithNoise fp req botScore uniquenessScore)
       = generateReasons fp botScore uniquenessScore.
Proof.
  intros fp req b u. unfold generateReasonsWithNoise. cbv zeta.
  set (base := generateReasons fp b u).
  split.
  - rewrite !noiseReason_length. unfold flaggedCount. cbn [filter].
    destruct (CanvasNoiseDetection req) as [c|]; [destruct (HasNoise c)|];
    destruct (WebGLNoiseDetection req) as [w|]; try destruct (HasNoise w);
    destruct (AudioNoiseDetection req) as [a|]; try destruct (HasNoise a);
    cbn [List.length]; lia.
  - assert (Hgrow : forall known fallback nd reasons,
               exists suffix, noiseReason known fallback nd reasons = (reasons ++ suffix)%list).
    { intros known fallback nd reasons. unfold noiseReason.
      destruct nd as [d|]; [|exists []; now rewrite app_nil_r].
      destruct (HasNoise d); [|exists []; now rewrite app_nil_r].
      destruct (find _ known); eexists; reflexivity. }
    destruct (Hgrow [("random_noise", "Canvas random noise detected");
                     ("pixel_noise", "Canvas pixel-level noise detected");
                     ("high_entropy", "Canvas high entropy indicating possible noise injection")]
                    "Canvas noise detected: " (CanvasNoiseDetection req) base) as [s1 ->].
    destruct (Hgrow [("webgl_random_noise", "WebGL rendering inconsistency detected");
                     ("webgl_parameter_anomaly", "WebGL parameter anomaly detected")]
                    "WebGL noise detected: " (WebGLNoiseDetection req) (base ++ s1)%list)
      as [s2 ->].
    destruct (Hgrow [("audio_anomaly", "Audio fingerprint anomaly detected")]
                    "Audio noise detected: " (AudioNoiseDetection req)
                    ((base ++ s1) ++ s2)%list) as [s3 ->].
    rewrite <- !app_assoc. rewrite firstn_app, firstn_all, Nat.sub_diag. simpl.
    apply app_nil_r.
Qed.

(** *** The fallback hash *)

Lemma fallback_text (req : FingerprintRequest) :
  combinedParts (fingerprintData req) = fallbackText req.
Proof.
  unfold combinedParts, fingerprintData, fallbackText. cbv zeta.
  cbn [map fst]. 
  change (sort_Strings
            ["user_agent"; "screen_resolution"; "timezone"; "language"; "platform";
             "canvas"; "webgl"; "audio"; "fonts"; "plugins"; "touch_support";
             "cookie_enabled"; "do_not_track"])
    with ["audio"; "canvas"; "cookie_enabled"; "do_not_track"; "fonts"; "language";
          "platform"; "plugins"; "screen_resolution"; "timezone"; "touch_support";
          "user_agent"; "webgl"].
  cbn [map mapIndex String.eqb Ascii.eqb Bool.eqb Sprintf_v].
  destruct (req_CookieEnabled req), (req_TouchSupport req); reflexivity.
Qed.

(** When the request carries no hash, the hash is the digest of the thirteen
    attributes printed as "key:value" in key order; a font list enters only
    through its space-joined text, so two requests that differ only in where
    the font names are split get the same hash. *)
Theorem fallback_hash_merges_font_boundaries :
  forall (sha256_Sum256 : string -> list byte) (req1 req2 : FingerprintRequest),
    req_FingerprintHash req1 = EmptyString ->
    req_FingerprintHash req2 = EmptyString ->
    sameButFonts req1 req2 ->
    Join (req_Fonts req1) " " = Join (req_Fonts req2) " " ->
    chooseHash sha256_Sum256 req1 = buf2hex (sha256_Sum256 (fallbackText req1)) /\
    chooseHash sha256_Sum256 req1 = chooseHash sha256_Sum256 req2.
Proof.
  intros sha req1 req2 H1 H2 Hsame Hfonts.
  assert (Htext : forall req, req_FingerprintHash req = EmptyString ->
                              chooseHash sha req = buf2hex (sha (fallbackText req))).
  { intros req H. unfold chooseHash. rewrite H. cbn [String.eqb negb].
    unfold GenerateFingerprintHash. cbv zeta. now rewrite fallback_text. }
  split; [now apply Htext|].
  rewrite !Htext by assumption. do 2 f_equal.
  destruct Hsame as (Hua & Hsr & Htz & Hl & Hp & Hc & Hw & Ha & Hpl & Ht & Hck & Hd).
  unfold fallbackText.
  now rewrite Hua, Hsr, Htz, Hl, Hp, Hc, Hw, Ha, Hpl, Ht, Hck, Hd, Hfonts.
Qed.

Lemma fallback_hash_merges_font_boundaries_witness :
  sameButFonts (requestOf EmptyString "Mozilla/5.0" "data:," ["Arial Black"])
               (requestOf EmptyString "Mozilla/5.0" "data:," ["Arial"; "Black"]) /\
  Join ["Arial Black"] " " = Join ["Arial"; "Black"] " " /\
  chooseHash textDigest (requestOf EmptyString "Mozilla/5.0" "data:," ["Arial Black"])
    = chooseHash textDigest (requestOf EmptyString "Mozilla/5.0" "data:," ["Arial"; "Black"]).
Proof.
  assert (Hsame : sameButFonts (requestOf EmptyString "Mozilla/5.0" "data:," ["Arial Black"])
                               (requestOf EmptyString "Mozilla/5.0" "data:," ["Arial"; "Black"]))
    by (repeat split; reflexivity).
  assert (Hfonts : Join ["Arial Black"] " " = Join ["Arial"; "Black"] " ") by reflexivity.
  split; [exact Hsame|]. split; [exact Hfonts|].
  exact (proj2 (fallback_hash_merges_font_boundaries textDigest
                  (requestOf EmptyString "Mozilla/5.0" "data:," ["Arial Black"])
                  (requestOf EmptyString "Mozilla/5.0" "data:," ["Arial"; "Black"])
                  eq_refl eq_refl Hsame Hfonts)).
Defined.

(** *** [ProcessFingerprint] and [GetAnalysis] *)

Lemma queryRow_saved (tbl : AnalysisTable) (row : Analysis) :
  queryRow (saveAnalysis tbl row) (a_FingerprintHash row) = Some row.
Proof.
  rewrite BackendFacts.queryRow_rowsFor.
  fold (rowsFor (a_FingerprintHash row) (saveAnalysis tbl row)).
  now rewrite BackendFacts.rowsFor_saveAnalysis_same.
Qed.

Lemma queryRow_other (tbl : AnalysisTable) (row : Analysis) (h : string) :
  h <> a_FingerprintHash row ->
  queryRow (saveAnalysis tbl row) h = queryRow tbl h.
Proof.
  intro Hne. rewrite !BackendFacts.queryRow_rowsFor.
  now rewrite BackendFacts.rowsFor_saveAnalysis_other.
Qed.

Lemma fingerprintsFor_purged (h : string) (tbl : list Fingerprint) :
  filter (fun row => (FingerprintHash row =? h)%string)
         (filter (fun row => negb (FingerprintHash row =? h)%string) tbl) = [].
Proof.
  induction tbl as [|row tbl IH]; [reflexivity|].
  cbn [filter]. destruct (FingerprintHash row =? h)%string eqn:E; cbn [negb filter].
  - exact IH.
  - rewrite E. exact IH.
Qed.

Section Library.

Variable strings_TrimSpace : string -> string.
Variable sha256_Sum256 : string -> list byte.

Lemma process_without_faults (now : Z) (db : Database) (req : FingerprintRequest)
    (ip : string) :
  exists row,
    ProcessFingerprint strings_TrimSpace sha256_Sum256 noFaults now db req ip
      = ({| fingerprints :=
              saveFingerprint (fingerprints db)
                (buildFingerprint strings_TrimSpace sha256_Sum256 req ip now);
            analysis := saveAnalysis (analysis db) row |},
         Some {| resp_FingerprintHash := chooseHash sha256_Sum256 req;
                 resp_Analysis := Some row;
                 resp_Success := true |}) /\
    a_FingerprintHash row = chooseHash sha256_Sum256 req /\
    LastSeen row = now /\
    VisitCount row
      = match queryRow (analysis db) (chooseHash sha256_Sum256 req) with
        | None => 1%Z
        | Some old => wrap64 (VisitCount old + 1)
        end.
Proof.
  destruct (BackendFacts.analyze_returns now (analysis db)
              (buildFingerprint strings_TrimSpace sha256_Sum256 req ip now) req)
    as (row & Hrun & Hh & _ & _ & _ & Hseen & Hcount).
  exists row. unfold ProcessFingerprint. cbv zeta.
  cbn [noFaults saveFails analysisFault]. rewrite Hrun.
  repeat split; assumption.
Qed.

(** After a submission that met no database error, [GetAnalysis] on the hash
    of the response returns the analysis of the response, and its answer for
    every other hash is what it was before. *)
Theorem submitted_analysis_is_read_back :
  forall (now : Z) (db : Database) (req : FingerprintRequest) (ip : string),
    let db' := fst (ProcessFingerprint strings_TrimSpace sha256_Sum256 noFaults now db req ip) in
    exists row,
      snd (ProcessFingerprint strings_TrimSpace sha256_Sum256 noFaults now db req ip)
        = Some {| resp_FingerprintHash := chooseHash sha256_Sum256 req;
                  resp_Analysis := Some row;
                  resp_Success := true |} /\
      GetAnalysis false db' (chooseHash sha256_Sum256 req) = Found row /\
      (forall h, h <> chooseHash sha256_Sum256 req ->
                 GetAnalysis false db' h = GetAnalysis false db h).
Proof.
  intros now db req ip db'.
  destruct (process_without_faults now db req ip) as (row & Hrun & Hh & _).
  exists row. unfold db'. rewrite Hrun. cbn [fst snd].
  split; [reflexivity|]. unfold GetAnalysis. cbn [analysis]. split.
  - rewrite <- Hh. now rewrite queryRow_saved.
  - intros h Hne. rewrite queryRow_other; [reflexivity|]. now rewrite Hh.
Qed.

(** An error while reading or writing the [analysis] table does not fail the
    request: the response still says success, carries no analysis, the
    [fingerprints] row is written, and the [analysis] table is unchanged.  An
    error while writing the [fingerprints] row fails the request and changes
    nothing. *)
Theorem failed_analysis_still_succeeds :
  forall (fault : DbFault) (now : Z) (db : Database) (req : FingerprintRequest)
         (ip : string),
    fault <> NoFault ->
    ProcessFingerprint strings_TrimSpace sha256_Sum256 {| saveFails := false; analysisFault := fault |} now db req ip
      = ({| fingerprints :=
              saveFingerprint (fingerprints db)
                (buildFingerprint strings_TrimSpace sha256_Sum256 req ip now);
            analysis := analysis db |},
         Some {| resp_FingerprintHash := chooseHash sha256_Sum256 req;
                 resp_Analysis := None;
                 resp_Success := true |}) /\
    ProcessFingerprint strings_TrimSpace sha256_Sum256 {| saveFails := true; analysisFault := fault |} now db req ip = (db, None).
Proof.
  intros fault now db req ip Hfault. unfold ProcessFingerprint. cbv zeta.
  cbn [saveFails analysisFault]. split; [|reflexivity].
  destruct fault; [contradiction| |]; reflexivity.
Qed.

(** The hash sent by the client is the identity: a second submission with the
    same non-empty hash, whatever its other attributes, is counted as a
    revisit of the first, and its attributes replace the stored ones. *)
Theorem client_hash_is_the_identity :
  forall (now1 now2 : Z) (db : Database) (req1 req2 : FingerprintRequest)
         (ip1 ip2 : string),
    req_FingerprintHash req1 <> EmptyString ->
    req_FingerprintHash req2 = req_FingerprintHash req1 ->
    let first := ProcessFingerprint strings_TrimSpace sha256_Sum256 noFaults now1 db req1 ip1 in
    let second := ProcessFingerprint strings_TrimSpace sha256_Sum256 noFaults now2 (fst first) req2 ip2 in
    exists row1 row2,
      option_map resp_Analysis (snd first) = Some (Some row1) /\
      option_map resp_Analysis (snd second) = Some (Some row2) /\
      a_FingerprintHash row1 = req_FingerprintHash req1 /\
      a_FingerprintHash row2 = req_FingerprintHash req1 /\
      VisitCount row2 = wrap64 (VisitCount row1 + 1) /\
      LastSeen row2 = now2 /\
      fingerprintsFor (req_FingerprintHash req1) (fst second)
        = [buildFingerprint strings_TrimSpace sha256_Sum256 req2 ip2 now2].
Proof.
  intros now1 now2 db req1 req2 ip1 ip2 Hne Hsame first second.
  assert (Hh1 : chooseHash sha256_Sum256 req1 = req_FingerprintHash req1).
  { unfold chooseHash. apply String.eqb_neq in Hne. now rewrite Hne. }
  assert (Hh2 : chooseHash sha256_Sum256 req2 = req_FingerprintHash req1).
  { unfold chooseHash. rewrite Hsame. apply String.eqb_neq in Hne. now rewrite Hne. }
  destruct (process_without_faults now1 db req1 ip1) as (row1 & Hrun1 & Hrow1 & _ & _).
  fold first in Hrun1.
  destruct (process_without_faults now2 (fst first) req2 ip2)
    as (row2 & Hrun2 & Hrow2 & Hseen2 & Hcount2).
  fold second in Hrun2.
  exists row1, row2. rewrite Hrun2. cbn [fst snd option_map resp_Analysis].
  rewrite Hrun1 in *. cbn [fst snd option_map resp_Analysis analysis fingerprints] in *.
  rewrite Hh1 in Hrow1. rewrite Hh2 in Hrow2, Hcount2.
  repeat split; try assumption.
  - rewrite <- Hrow1 in Hcount2. now rewrite queryRow_saved in Hcount2.
  - unfold fingerprintsFor, saveFingerprint. cbn [fingerprints].
    rewrite filter_app. cbn [filter buildFingerprint FingerprintHash].
    rewrite Hh2, String.eqb_refl.
    fold (fingerprintsFor (req_FingerprintHash req1)).
    rewrite fingerprintsFor_purged. reflexivity.
Qed.

End Library.

Lemma failed_analysis_still_succeeds_witness :
  QueryFault <> NoFault /\
  snd (ProcessFingerprint keepText textDigest
         {| saveFails := false; analysisFault := QueryFault |} 7 emptyDatabase
         (requestOf "c0ffee" "Mozilla/5.0" "data:," ["Arial"]) "192.0.2.1")
  = Some {| resp_FingerprintHash := "c0ffee"; resp_Analysis := None; resp_Success := true |}.
Proof.
  assert (H : QueryFault <> NoFault) by discriminate.
  split; [exact H|].
  exact (f_equal snd
           (proj1 (failed_analysis_still_succeeds keepText textDigest QueryFault 7
                     emptyDatabase (requestOf "c0ffee" "Mozilla/5.0" "data:," ["Arial"])
                     "192.0.2.1" H))).
Defined.

Lemma client_hash_is_the_identity_witness :
  req_FingerprintHash (requestOf "c0ffee" "Mozilla/5.0" "data:,one" ["Arial"]) <> EmptyString /\
  req_FingerprintHash (requestOf "c0ffee" "curl/8.0" "data:,two" [])
    = req_FingerprintHash (requestOf "c0ffee" "Mozilla/5.0" "data:,one" ["Arial"]) /\
  exists row1 row2,
    option_map resp_Analysis
      (snd (ProcessFingerprint keepText textDigest noFaults 7 emptyDatabase
              (requestOf "c0ffee" "Mozilla/5.0" "data:,one" ["Arial"]) "192.0.2.1"))
      = Some (Some row1) /\
    option_map resp_Analysis
      (snd (ProcessFingerprint keepText textDigest noFaults 9
              (fst (ProcessFingerprint keepText textDigest noFaults 7 emptyDatabase
                      (requestOf "c0ffee" "Mozilla/5.0" "data:,one" ["Arial"]) "192.0.2.1"))
              (requestOf "c0ffee" "curl/8.0" "data:,two" []) "198.51.100.2"))
      = Some (Some row2) /\
    VisitCount row2 = wrap64 (VisitCount row1 + 1).
Proof.
  assert (Hne : req_FingerprintHash (requestOf "c0ffee" "Mozilla/5.0" "data:,one" ["Arial"])
                <> EmptyString) by discriminate.
  assert (Hsame : req_FingerprintHash (requestOf "c0ffee" "curl/8.0" "data:,two" [])
                  = req_FingerprintHash (requestOf "c0ffee" "Mozilla/5.0" "data:,one" ["Arial"]))
    by reflexivity.
  split; [exact Hne|]. split; [exact Hsame|].
  destruct (client_hash_is_the_identity keepText textDigest 7 9 emptyDatabase
              (requestOf "c0ffee" "Mozilla/5.0" "data:,one" ["Arial"])
              (requestOf "c0ffee" "curl/8.0" "data:,two" [])
              "192.0.2.1" "198.51.100.2" Hne Hsame)
    as (row1 & row2 & H1 & H2 & _ & _ & Hcount & _).
  exists row1, row2. split; [exact H1|]. split; [exact H2|]. exact Hcount.
Defined.

(** *** What every run of the service keeps *)

Lemma saved_fingerprint_hashes (tbl : list Fingerprint) (fp : Fingerprint) (h : string) :
  In h (map FingerprintHash (saveFingerprint tbl fp))
  <-> h = FingerprintHash fp \/ In h (map FingerprintHash tbl).
Proof.
  unfold saveFingerprint. rewrite map_app, in_app_iff. cbn [map In].
  rewrite !in_map_iff. split.
  - intros [(row & Hrow & Hin) | [Hh | []]].
    + right. apply filter_In in Hin as [Hin _]. now exists row.
    + now left.
  - intros [Hh | (row & Hrow & Hin)].
    + right. now left.
    + destruct (String.eqb_spec h (FingerprintHash fp)) as [Heq | Hne].
      * right. now left.
      * left. exists row. split; [assumption|]. apply filter_In. split; [assumption|].
        apply negb_true_iff, String.eqb_neq. now rewrite Hrow.
Qed.

Lemma saved_fingerprints_distinct (tbl : list Fingerprint) (fp : Fingerprint) :
  NoDup (map FingerprintHash tbl) ->
  NoDup (map FingerprintHash (saveFingerprint tbl fp)).
Proof.
  intro Hdistinct. unfold saveFingerprint. rewrite map_app. cbn [map].
  apply NoDup_app.
  - induction tbl as [|row tbl IH]; [constructor|].
    cbn [map filter] in *. apply NoDup_cons_iff in Hdistinct as [Hfresh Hrest].
    destruct (negb (FingerprintHash row =? FingerprintHash fp)%string); [|now apply IH].
    cbn [map]. constructor; [|now apply IH].
    rewrite in_map_iff. intros (other & Hsame & Hkept).
    apply filter_In in Hkept as [Hkept _].
    apply Hfresh, in_map_iff. now exists other.
  - repeat constructor. intros [].
  - intros h Hin [Hh | []]. apply in_map_iff in Hin as (row & Hrow & Hin).
    apply filter_In in Hin as [_ Hneg].
    apply negb_true_iff, String.eqb_neq in Hneg. congruence.
Qed.

Section Run.

Variable strings_TrimSpace : string -> string.
Variable sha256_Sum256 : string -> list byte.

Lemma serve_keeps_consistency (db : Database) (c : Call) :
  consistentDatabase db ->
  consistentDatabase (serve strings_TrimSpace sha256_Sum256 db c).
Proof.
  intros (Hfp & Han & Href). unfold serve, ProcessFingerprint. cbv zeta.
  destruct (saveFails (call_faults c)); [repeat split; assumption|].
  set (fp := buildFingerprint strings_TrimSpace sha256_Sum256 (call_req c) (call_ip c)
               (call_now c)).
  assert (Hkept : forall row, In row (analysis db) ->
            In (a_FingerprintHash row)
               (map FingerprintHash (saveFingerprint (fingerprints db) fp))).
  { intros row Hin. apply saved_fingerprint_hashes. right. now apply Href. }
  destruct (analysisFault (call_faults c)) eqn:Hfault.
  - destruct (BackendFacts.analyze_returns (call_now c) (analysis db) fp (call_req c))
      as (row & Hrun & Hh & _).
    rewrite Hrun. cbn [fst fingerprints analysis]. repeat split.
    + now apply saved_fingerprints_distinct.
    + now apply BackendFacts.NoDup_saveAnalysis.
    + intros other Hin. unfold saveAnalysis in Hin. apply in_app_iff in Hin as [Hin | [Hin | []]].
      * apply filter_In in Hin as [Hin _]. now apply Hkept.
      * subst other. apply saved_fingerprint_hashes. left. exact Hh.
  - cbn [analyzeFingerprintWithNoise fst fingerprints analysis]. repeat split.
    + now apply saved_fingerprints_distinct.
    + assumption.
    + exact Hkept.
  - cbn [analyzeFingerprintWithNoise fst fingerprints analysis]. repeat split.
    + now apply saved_fingerprints_distinct.
    + assumption.
    + exact Hkept.
Qed.

(** Whatever requests arrive and whichever database calls fail, after any run
    of [ProcessFingerprint] calls from the empty database each table has at
    most one row per hash and every [analysis] row has its [fingerprints]
    row. *)
Theorem tables_stay_consistent :
  forall calls : list Call,
    consistentDatabase (serveAll strings_TrimSpace sha256_Sum256 calls).
Proof.
  intro calls. unfold serveAll.
  assert (Hstart : consistentDatabase emptyDatabase).
  { repeat split; cbn; try constructor. intros row []. }
  revert Hstart. generalize emptyDatabase.
  induction calls as [|c calls IH]; intros db Hdb; [exact Hdb|].
  cbn [fold_left]. apply IH. now apply serve_keeps_consistency.
Qed.

End Run.

(** *** The analysis without the noise records *)

(** On a request none of whose detection records is flagged, the analysis
    with the noise records stores and returns exactly what [analyzeFingerprint]
    does, under every database fault, and lists the same reasons. *)
Theorem unflagged_request_analysed_as_before :
  forall (fault : DbFault) (now : Z) (tbl : AnalysisTable)
         (fp : Fingerprint) (req : FingerprintRequest),
    flaggedCount req = 0%nat ->
    analyzeFingerprintWithNoise fault now tbl fp req = analyzeFingerprint fault now tbl fp /\
    forall botScore uniquenessScore,
      generateReasonsWithNoise fp req botScore uniquenessScore
        = generateReasons fp botScore uniquenessScore.
Proof.
  intros fault now tbl fp req Hnone.
  assert (Hscore : calculateBotScoreWithNoise fp req = calculateBotScore fp).
  { unfold calculateBotScoreWithNoise, addCanvasNoise, addWebGLNoise, addAudioNoise.
    cbv zeta. unfold flaggedCount in Hnone. cbn [filter] in Hnone.
    destruct (CanvasNoiseDetection req) as [c|]; [destruct (HasNoise c)|];
      destruct (WebGLNoiseDetection req) as [w|]; try destruct (HasNoise w);
      destruct (AudioNoiseDetection req) as [a|]; try destruct (HasNoise a);
      try discriminate Hnone;
      unfold calculateBotScore; apply clampUpper_idempotent. }
  split.
  - unfold analyzeFingerprintWithNoise, analyzeFingerprint. cbv zeta.
    rewrite Hscore. reflexivity.
  - intros b u. unfold generateReasonsWithNoise, noiseReason. cbv zeta.
    unfold flaggedCount in Hnone. cbn [filter] in Hnone.
    destruct (CanvasNoiseDetection req) as [c|]; [destruct (HasNoise c)|];
      destruct (WebGLNoiseDetection req) as [w|]; try destruct (HasNoise w);
      destruct (AudioNoiseDetection req) as [a|]; try destruct (HasNoise a);
      try discriminate Hnone; reflexivity.
Qed.

Lemma unflagged_request_analysed_as_before_witness :
  flaggedCount (requestOf "c0ffee" "Mozilla/5.0" "data:," ["Arial"]) = 0%nat /\
  analyzeFingerprintWithNoise NoFault 7 [] headlessFingerprint
    (requestOf "c0ffee" "Mozilla/5.0" "data:," ["Arial"])
  = analyzeFingerprint NoFault 7 [] headlessFingerprint.
Proof.
  split; [reflexivity|].
  exact (proj1 (unflagged_request_analysed_as_before NoFault 7 [] headlessFingerprint
                  (requestOf "c0ffee" "Mozilla/5.0" "data:," ["Arial"]) eq_refl)).
Defined.

End ServiceFacts.

(** ** From the collector to the score *)

Module PipelineFacts.
Import Backend Scenario Scenario2.

Lemma canvas_report_not_scored (details : string) (s : Modern.CollectorState) (score : Q) :
  addCanvasNoise score (Wire.bindNoise details (Modern.generateNoiseDetectionData_canvas s))
    = score.
Proof.
  unfold Modern.generateNoiseDetectionData_canvas.
  destruct (Modern.canvas s) as [data|]; [|reflexivity].
  cbv zeta. unfold Wire.bindNoise, addCanvasNoise.
  cbn [HasNoise Type_ Confidence nd_hasNoise nd_type nd_confidence].
  destruct (orFalse _); reflexivity.
Qed.

Lemma webgl_report_not_scored (details : string) (s : Modern.CollectorState) (score : Q) :
  addWebGLNoise score (Wire.bindNoise details (Modern.generateNoiseDetectionData_webgl s))
    = score.
Proof.
  unfold Modern.generateNoiseDetectionData_webgl.
  destruct (Modern.webgl s) as [data|]; [|reflexivity].
  cbv zeta. unfold Wire.bindNoise, addWebGLNoise.
  cbn [HasNoise Type_ Confidence nd_hasNoise nd_type nd_confidence].
  destruct (orb _ _); reflexivity.
Qed.

Lemma audio_report_not_scored (details : string) (s : Modern.CollectorState) (score : Q) :
  addAudioNoise score (Wire.bindNoise details (Modern.generateNoiseDetectionData_audio s))
    = score.
Proof.
  unfold Modern.generateNoiseDetectionData_audio.
  destruct (Modern.audio s) as [data|]; [|reflexivity].
  cbv zeta. unfold Wire.bindNoise, addAudioNoise.
  cbn [HasNoise Type_ Confidence nd_hasNoise nd_type nd_confidence].
  destruct (orFalse _); reflexivity.
Qed.

(** The detection records that the modern collector submits never move the
    bot score: their types ('canvas_inconsistency',
    'webgl_rendering_inconsistency', 'audio_dynamic_noise', 'none') are none
    of the types [calculateBotScoreWithNoise] weighs, so for every collector
    state the score with the records is the score without them. *)
Theorem modern_reports_never_scored :
  forall (s : Modern.CollectorState) (canvasDetails webglDetails audioDetails : string)
         (fp : Fingerprint) (req : FingerprintRequest),
    CanvasNoiseDetection req
      = Wire.bindNoise canvasDetails (Modern.generateNoiseDetectionData_canvas s) ->
    WebGLNoiseDetection req
      = Wire.bindNoise webglDetails (Modern.generateNoiseDetectionData_webgl s) ->
    AudioNoiseDetection req
      = Wire.bindNoise audioDetails (Modern.generateNoiseDetectionData_audio s) ->
    calculateBotScoreWithNoise fp req = calculateBotScore fp.
Proof.
  intros s dc dw da fp req Hc Hw Ha. unfold calculateBotScoreWithNoise. cbv zeta.
  rewrite Hc, Hw, Ha.
  rewrite canvas_report_not_scored, webgl_report_not_scored, audio_report_not_scored.
  unfold calculateBotScore, clampUpper.
  destruct (Qgtb (staticPenalties fp) 1) eqn:E; [reflexivity|now rewrite E].
Qed.

Lemma modern_reports_never_scored_witness :
  option_map HasNoise (WebGLNoiseDetection noisyRequest) = Some true /\
  calculateBotScoreWithNoise headlessFingerprint noisyRequest
    = calculateBotScore headlessFingerprint.
Proof.
  split; [reflexivity|].
  exact (modern_reports_never_scored noisySession "none" "renders differ" "none"
           headlessFingerprint noisyRequest eq_refl eq_refl eq_refl).
Defined.

End PipelineFacts.

(** ** [CryptoUtils.simpleHash] *)

Module CryptoFacts.
Import CryptoUtils Scenario2.

Local Open Scope Z_scope.

Lemma ToInt32_range (z : Z) : - 2 ^ 31 <= ToInt32 z < 2 ^ 31.
Proof.
  unfold ToInt32. pose proof (Z.mod_pos_bound (z + 2 ^ 31) (2 ^ 32) eq_refl). lia.
Qed.

Lemma ToInt32_wraps (z : Z) : exists k, ToInt32 z = z + k * 2 ^ 32.
Proof.
  exists (- ((z + 2 ^ 31) / 2 ^ 32)). unfold ToInt32.
  pose proof (Z.div_mod (z + 2 ^ 31) (2 ^ 32)). lia.
Qed.

Lemma ToInt32_same_residue (a b k : Z) : a = b + k * 2 ^ 32 -> ToInt32 a = ToInt32 b.
Proof.
  intros ->. unfold ToInt32.
  replace (b + k * 2 ^ 32 + 2 ^ 31) with (b + 2 ^ 31 + k * 2 ^ 32) by lia.
  now rewrite Z.mod_add.
Qed.

Lemma mix_step (p c : Z) : mix (ToInt32 p) c = ToInt32 (31 * p + c).
Proof.
  unfold mix. cbv zeta.
  destruct (ToInt32_wraps p) as (k1 & H1).
  destruct (ToInt32_wraps (ToInt32 p)) as (k2 & H2).
  destruct (ToInt32_wraps (ToInt32 (ToInt32 p) * 2 ^ 5)) as (k3 & H3).
  apply (ToInt32_same_residue _ _ (31 * k1 + 32 * k2 + k3)). lia.
Qed.

Lemma loop_is_polynomial (str : list Z) :
  fold_left mix str 0 = ToInt32 (polynomial31 str).
Proof.
  unfold polynomial31. induction str as [|c str IH] using rev_ind; [reflexivity|].
  rewrite !fold_left_app. cbn [fold_left]. rewrite IH. apply mix_step.
Qed.

Lemma hexdigit_spec (k : nat) :
  (k < 16)%nat ->
  digitValue (hexdigit k) = Z.of_nat k /\ is_lower_hex (hexdigit k) = true.
Proof.
  intro Hk. do 16 (destruct k as [|k]; [split; reflexivity|]). lia.
Qed.

Lemma low_digit (n : Z) :
  0 <= n ->
  digitValue (hexdigit (Z.to_nat (n mod 16))) = n mod 16 /\
  is_lower_hex (hexdigit (Z.to_nat (n mod 16))) = true.
Proof.
  intro Hn. pose proof (Z.mod_pos_bound n 16 eq_refl) as Hm.
  destruct (hexdigit_spec (Z.to_nat (n mod 16))) as [Hv Hhex]; [lia|].
  split; [rewrite Hv; lia|exact Hhex].
Qed.

Lemma len_String (c : ascii) (s : string) : len (String c s) = len s + 1.
Proof. unfold len. cbn [String.length]. lia. Qed.

Lemma hexDigits_value (fuel : nat) :
  forall (n : Z) (rest : string),
    0 <= n < 16 ^ Z.of_nat fuel ->
    hexValue (hexDigits fuel n rest) = n * 16 ^ len rest + hexValue rest.
Proof.
  induction fuel as [|fuel IH]; intros n rest Hn.
  - cbn in Hn. assert (n = 0) by lia. subst n. cbn [hexDigits]. lia.
  - cbn [hexDigits]. cbv zeta.
    destruct (low_digit n) as [Hdigit _]; [lia|].
    pose proof (Z.div_mod n 16) as Hdiv. pose proof (Z.mod_pos_bound n 16 eq_refl) as Hm.
    assert (Hlen : 0 <= len rest) by (unfold len; lia).
    destruct (n / 16 =? 0) eqn:Hq.
    + apply Z.eqb_eq in Hq. cbn [hexValue]. rewrite Hdigit. nia.
    + apply Z.eqb_neq in Hq. rewrite IH.
      * cbn [hexValue]. rewrite Hdigit, len_String, Z.pow_add_r by lia.
        change (16 ^ 1) with 16. nia.
      * split; [apply Z.div_pos; lia|].
        apply Z.div_lt_upper_bound; [lia|].
        rewrite Nat2Z.inj_succ, Z.pow_succ_r in Hn by lia. lia.
Qed.

Lemma hexDigits_S (fuel : nat) (n : Z) (rest : string) :
  hexDigits (S fuel) n rest
  = if n / 16 =? 0 then String (hexdigit (Z.to_nat (n mod 16))) rest
    else hexDigits fuel (n / 16) (String (hexdigit (Z.to_nat (n mod 16))) rest).
Proof. reflexivity. Qed.

Lemma hexDigits_shape (fuel : nat) :
  forall (n k : Z) (rest : string),
    0 <= n < 16 ^ k -> 1 <= k ->
    all_chars is_lower_hex rest = true ->
    len rest + 1 <= len (hexDigits (S fuel) n rest) <= len rest + k /\
    all_chars is_lower_hex (hexDigits (S fuel) n rest) = true.
Proof.
  induction fuel as [|fuel IH]; intros n k rest Hn Hk Hrest;
    rewrite hexDigits_S;
    destruct (low_digit n) as [_ Hhex]; try lia;
    (assert (Hone : all_chars is_lower_hex
                      (String (hexdigit (Z.to_nat (n mod 16))) rest) = true)
       by (cbn [all_chars]; now rewrite Hhex, Hrest)).
  - cbn [hexDigits]. destruct (n / 16 =? 0); (split; [rewrite len_String; lia|exact Hone]).
  - destruct (n / 16 =? 0) eqn:Hq; [split; [rewrite len_String; lia|exact Hone]|].
    apply Z.eqb_neq in Hq.
    assert (H16 : 16 <= n).
    { destruct (Z_lt_le_dec n 16) as [Hlt|]; [|assumption].
      exfalso. apply Hq. apply Z.div_small. lia. }
    assert (Hk2 : 2 <= k).
    { destruct (Z_lt_le_dec k 2) as [Hlt|]; [|assumption].
      assert (k = 1) by lia. subst k. change (16 ^ 1) with 16 in Hn. lia. }
    destruct (IH (n / 16) (k - 1) (String (hexdigit (Z.to_nat (n mod 16))) rest))
      as [Hlen Hall]; [| lia | exact Hone |].
    + split; [apply Z.div_pos; lia|]. apply Z.div_lt_upper_bound; [lia|].
      replace k with (Z.succ (k - 1)) in Hn by lia.
      rewrite Z.pow_succ_r in Hn by lia. lia.
    + rewrite len_String in Hlen. split; [lia|exact Hall].
Qed.

Lemma enough_fuel (n : Z) : 0 <= n -> n < 16 ^ Z.of_nat (S (Z.to_nat (Z.log2 n))).
Proof.
  intro Hn. rewrite Nat2Z.inj_succ, Z2Nat.id by apply Z.log2_nonneg.
  destruct (Z.eq_dec n 0) as [->|Hpos]; [reflexivity|].
  pose proof (Z.log2_spec n ltac:(lia)) as [_ Hup].
  apply Z.lt_le_trans with (1 := Hup).
  change 16 with (2 ^ 4). rewrite <- Z.pow_mul_r by (pose proof (Z.log2_nonneg n); lia).
  apply Z.pow_le_mono_r; [lia|]. pose proof (Z.log2_nonneg n). lia.
Qed.

(** [simpleHash] is the 32-bit polynomial hash with multiplier 31, printed
    without its sign: the text it returns denotes, in base 16, the absolute
    value of the polynomial over the code units wrapped to a signed 32-bit
    integer; it has between one and eight characters, all from 0-9a-f. *)
Theorem simpleHash_is_unsigned_polynomial_hash :
  forall str : list Z,
    hexValue (simpleHash str) = Z.abs (ToInt32 (polynomial31 str)) /\
    1 <= len (simpleHash str) <= 8 /\
    all_chars is_lower_hex (simpleHash str) = true.
Proof.
  intro str. unfold simpleHash. cbv zeta.
  destruct (List.length str =? 0)%nat eqn:Hempty.
  - apply Nat.eqb_eq, length_zero_iff_nil in Hempty. subst str.
    repeat split; cbn; lia.
  - rewrite loop_is_polynomial. set (h := Z.abs (ToInt32 (polynomial31 str))).
    assert (Hh : 0 <= h <= 2 ^ 31).
    { unfold h. pose proof (ToInt32_range (polynomial31 str)). lia. }
    unfold toString16. split.
    + rewrite hexDigits_value by (split; [lia|apply enough_fuel; lia]).
      cbn [hexValue]. change (len EmptyString) with 0. lia.
    + destruct (hexDigits_shape (Z.to_nat (Z.log2 h)) h 8 EmptyString)
        as [Hlen Hall]; [| lia | reflexivity |].
      * change (16 ^ 8) with (2 ^ 32). lia.
      * change (len EmptyString) with 0 in Hlen. split; [lia|exact Hall].
Qed.

(** *** [CryptoUtils.buf2hex] *)

Lemma hexdigit_injective (i j : nat) :
  (i < 16)%nat -> (j < 16)%nat -> hexdigit i = hexdigit j -> i = j.
Proof.
  intros Hi Hj Hsame.
  destruct (hexdigit_spec i Hi) as [Hvi _], (hexdigit_spec j Hj) as [Hvj _].
  rewrite Hsame in Hvi. lia.
Qed.

Lemma byte2hex_injective (b1 b2 : byte) : byte2hex b1 = byte2hex b2 -> b1 = b2.
Proof.
  unfold byte2hex. cbv zeta. intro Hsame.
  assert (Hhigh : hexdigit (Byte.to_nat b1 / 16) = hexdigit (Byte.to_nat b2 / 16))
    by congruence.
  assert (Hlow : hexdigit (Byte.to_nat b1 mod 16) = hexdigit (Byte.to_nat b2 mod 16))
    by congruence.
  clear Hsame.
  pose proof (Byte.to_nat_bounded b1) as H1. pose proof (Byte.to_nat_bounded b2) as H2.
  assert (Hq : (Byte.to_nat b1 / 16 = Byte.to_nat b2 / 16)%nat).
  { apply hexdigit_injective; [| |exact Hhigh]; apply Nat.Div0.div_lt_upper_bound; lia. }
  assert (Hr : (Byte.to_nat b1 mod 16 = Byte.to_nat b2 mod 16)%nat).
  { apply hexdigit_injective; [| |exact Hlow]; apply Nat.mod_upper_bound; lia. }
  assert (Hn : Byte.to_nat b1 = Byte.to_nat b2).
  { pose proof (Nat.div_mod_eq (Byte.to_nat b1) 16) as E1.
    pose proof (Nat.div_mod_eq (Byte.to_nat b2) 16) as E2.
    rewrite Hq, Hr in E1. congruence. }
  apply (f_equal Byte.of_nat) in Hn. rewrite !Byte.of_to_nat in Hn. congruence.
Qed.

(** The hexadecimal text of a digest determines the digest: two buffers with
    the same [buf2hex] text are equal, and the text has two characters per
    byte. *)
Theorem buf2hex_loses_nothing :
  forall buffer1 buffer2 : list byte,
    (buf2hex buffer1 = buf2hex buffer2 <-> buffer1 = buffer2) /\
    len (buf2hex buffer1) = 2 * llen buffer1.
Proof.
  intros buffer1 buffer2. split.
  - split; [|now intros ->].
    revert buffer2. induction buffer1 as [|b1 rest1 IH]; intros [|b2 rest2] Hsame;
      try reflexivity; try discriminate Hsame.
    cbn [buf2hex] in Hsame.
    assert (Hsplit : byte2hex b1 = byte2hex b2 /\ buf2hex rest1 = buf2hex rest2).
    { unfold byte2hex in *. cbv zeta in *. cbn [String.append] in Hsame.
      split; congruence. }
    destruct Hsplit as [Hbyte Hrest].
    f_equal; [now apply byte2hex_injective|now apply IH].
  - unfold len, llen. rewrite buf2hex_length.
    rewrite Nat2Z.inj_mul. reflexivity.
Qed.

End CryptoFacts.

(** ** From the rendered samples to the audio verdict *)

Module AudioRenderFacts.
Import AudioUtils AudioRender Scenario2.
Import PrimFloat.

Lemma mismatched_windows (a1 a2 a3 a4 b1 b2 b3 b4 : string) :
  mismatchedSegments [("main", a1); ("early", a2); ("mid", a3); ("late", a4)]
                     [("main", b1); ("early", b2); ("mid", b3); ("late", b4)]
  = List.length (filter negb [(a1 =? b1); (a2 =? b2); (a3 =? b3); (a4 =? b4)]%string).
Proof.
  unfold mismatchedSegments, keys.
  cbn [map fst filter getProp String.eqb Ascii.eqb Bool.eqb strictNe].
  destruct (a1 =? b1)%string, (a2 =? b2)%string, (a3 =? b3)%string, (a4 =? b4)%string;
    reflexivity.
Qed.

Lemma window_pair_analysis (a1 a2 a3 a4 b1 b2 b3 b4 : string) (t1 t2 : Q) (i j : nat) :
  a1 <> "error" -> b1 <> "error" ->
  let d1 := [("main", a1); ("early", a2); ("mid", a3); ("late", a4)] in
  let d2 := [("main", b1); ("early", b2); ("mid", b3); ("late", b4)] in
  let r := analyzeCompressorResults
             (Some [Some {| testIndex := i; AudioUtils.fingerprint := a1;
                            AudioUtils.detailedFingerprint := Some d1; renderTime := t1 |};
                    Some {| testIndex := j; AudioUtils.fingerprint := b1;
                            AudioUtils.detailedFingerprint := Some d2; renderTime := t2 |}]) in
  (hasDynamicNoise r = true <-> d1 <> d2) /\
  (a1 <> b1 ->
     exists k, noiseIndicators r = Some k /\
               ((k = 2%nat /\ confidence r = Double.toQ 0.8999999999999999) \/
                (k = 3%nat /\ confidence r = Double.toQ 0.95))) /\
  (d1 = d2 -> confidence r = Double.toQ 0.8).
Proof.
  intros Ha Hb d1 d2 r.
  apply String.eqb_neq in Ha, Hb.
  unfold r, analyzeCompressorResults, analyzeBody.
  cbn [deref bind List.length Nat.ltb Nat.leb nth AudioUtils.fingerprint]. rewrite Ha.
  cbn [deref bind AudioUtils.fingerprint]. rewrite Hb.
  cbn [AudioUtils.detailedFingerprint renderTime].
  unfold d1, d2. rewrite mismatched_windows.
  destruct (String.eqb_spec a1 b1) as [E1|E1], (String.eqb_spec a2 b2) as [E2|E2],
           (String.eqb_spec a3 b3) as [E3|E3], (String.eqb_spec a4 b4) as [E4|E4];
    cbn [negb filter List.length Nat.ltb Nat.leb];
    destruct (andb (truthy t1) (truthy t2));
    try destruct (quotientExceeds _ _ _);
    cbn [tryCatch hasDynamicNoise confidence noiseIndicators].
  all: split;
    [split; [try discriminate; intros _; congruence
            |try (intros _; reflexivity); intro H; exfalso; apply H; congruence]|].
  all: split;
    [intro H;
     first [exfalso; apply H; assumption
           |eexists; split; [reflexivity|];
            first [left; split; reflexivity | right; split; reflexivity]]
    |intro H; try reflexivity; exfalso; congruence].
Qed.

(** When both renders complete, [runDualCompressorTest] reports dynamic noise
    exactly when one of the four window sums prints differently in the two
    renders, whatever the render times; a differing main window is counted
    twice (as the main fingerprint and as the segment 'main'), so two or
    three indicators are then counted and the confidence is the double
    0.8999999999999999 (two indicators: [0.6 + 2 * 0.15] in binary64) or 0.95
    (three); with equal window sums the confidence is the double 0.8. *)
Theorem dual_test_flags_differing_windows :
  forall (Number_toString : Q -> string)
         (samples1 samples2 : list Q) (time1 time2 : Q),
    (forall q, Number_toString q <> "error") ->
    let r := analysis (runDualCompressorTest Number_toString
                         (Ok (samples1, time1)) (Ok (samples2, time2))) in
    (hasDynamicNoise r = true <->
       detailedFingerprint Number_toString samples1
         <> detailedFingerprint Number_toString samples2) /\
    (mainFingerprint Number_toString samples1 <> mainFingerprint Number_toString samples2 ->
       exists k, noiseIndicators r = Some k /\
                 ((k = 2%nat /\ confidence r = Double.toQ 0.8999999999999999) \/
                  (k = 3%nat /\ confidence r = Double.toQ 0.95))) /\
    (detailedFingerprint Number_toString samples1
       = detailedFingerprint Number_toString samples2 ->
       confidence r = Double.toQ 0.8).
Proof.
  intros toStr s1 s2 t1 t2 Hnever r.
  unfold r, runDualCompressorTest, runCompressorTest, mainFingerprint, detailedFingerprint,
    segmentWindows.
  cbv zeta. cbn [analysis map getProp String.eqb Ascii.eqb Bool.eqb].
  destruct (window_pair_analysis
              (toStr (windowSum s1 4500 5000)) (toStr (windowSum s1 1000 1500))
              (toStr (windowSum s1 8000 8500)) (toStr (windowSum s1 15000 15500))
              (toStr (windowSum s2 4500 5000)) (toStr (windowSum s2 1000 1500))
              (toStr (windowSum s2 8000 8500)) (toStr (windowSum s2 15000 15500))
              t1 t2 0 1 (Hnever _) (Hnever _)) as (Hflag & Hmain & Hclean).
  split; [exact Hflag|]. split; [|exact Hclean].
  intro Hne. apply Hmain. congruence.
Qed.

(** A render that throws makes the whole comparison unknown: no noise,
    confidence 0; and when it is the first render, the reported audio
    fingerprint is 'error'. *)
Theorem failed_render_makes_dual_test_unknown :
  forall (Number_toString : Q -> string) (first second : outcome (list Q * Q)),
    (exists message, first = Throw message) \/ (exists message, second = Throw message) ->
    analysis (runDualCompressorTest Number_toString first second) = unknownResult /\
    ((exists message, first = Throw message) ->
       fingerprint (runDualCompressorTest Number_toString first second) = "error").
Proof.
  intros toStr first second Hfail. split.
  - unfold runDualCompressorTest. cbv zeta. cbn [analysis].
    unfold analyzeCompressorResults, analyzeBody.
    cbn [map deref bind List.length Nat.ltb Nat.leb nth].
    destruct first as [[s1 t1]|m1].
    + destruct Hfail as [(m & Hm) | (m & Hm)]; [discriminate|]. subst second.
      cbn [runCompressorTest AudioUtils.fingerprint deref bind].
      destruct (_ =? "error")%string; reflexivity.
    + reflexivity.
  - intros (m & ->). reflexivity.
Qed.

(** Whatever it is given, [analyzeCompressorResults] returns a confidence
    between 0 and 0.95, at least 0.75 when it reports noise, and counts at
    most three indicators. *)
Theorem audio_confidence_always_in_range :
  forall testResults : option (list (option TestResult)),
    let r := analyzeCompressorResults testResults in
    0 <= confidence r /\ confidence r <= 95#100 /\
    (hasDynamicNoise r = true -> 75#100 <= confidence r) /\
    (forall k, noiseIndicators r = Some k -> (k <= 3)%nat).
Proof.
  assert (Hunknown : 0 <= confidence unknownResult /\ confidence unknownResult <= 95#100 /\
            (hasDynamicNoise unknownResult = true -> 75#100 <= confidence unknownResult) /\
            (forall k, noiseIndicators unknownResult = Some k -> (k <= 3)%nat)).
  { repeat split; try (vm_compute; discriminate); cbn; discriminate. }
  intros [results|]; [|exact Hunknown].
  cbv zeta. unfold analyzeCompressorResults, analyzeBody. cbn [deref bind].
  destruct results as [|test1 [|test2 rest]]; try exact Hunknown.
  change (List.length (test1 :: test2 :: rest) <? 2)%nat with false.
  cbn [nth].
  destruct test1 as [t1|]; [|exact Hunknown]. cbn [deref bind].
  destruct (AudioUtils.fingerprint t1 =? "error")%string; [exact Hunknown|].
  destruct test2 as [t2|]; [|exact Hunknown]. cbn [deref bind].
  destruct (AudioUtils.fingerprint t2 =? "error")%string; [exact Hunknown|].
  destruct (AudioUtils.fingerprint t1 =? AudioUtils.fingerprint t2)%string;
    destruct (AudioUtils.detailedFingerprint t1) as [d1|];
    destruct (AudioUtils.detailedFingerprint t2) as [d2|];
    try destruct (0 <? mismatchedSegments d1 d2)%nat;
    cbn [negb];
    destruct (andb (truthy (renderTime t1)) (truthy (renderTime t2)));
    try destruct (quotientExceeds _ _ _);
    cbn [tryCatch hasDynamicNoise confidence noiseIndicators];
    (split; [vm_compute; discriminate|]);
    (split; [vm_compute; discriminate|]);
    (split; [intro H; try discriminate H; vm_compute; discriminate|]);
    intros k Hk; injection Hk as <-; lia.
Qed.

Lemma dual_test_flags_differing_windows_witness :
  (forall q, showQ q <> "error") /\
  hasDynamicNoise
    (analysis (runDualCompressorTest showQ
                 (Ok (spikeAt4500 (1#2), 12#1)) (Ok (spikeAt4500 (1#3), 40#1)))) = true.
Proof.
  assert (Hnever : forall q, showQ q <> "error").
  { intro q. unfold showQ. destruct (Qnum q <? 0)%Z; discriminate. }
  split; [exact Hnever|].
  apply (proj1 (dual_test_flags_differing_windows showQ
                  (spikeAt4500 (1#2)) (spikeAt4500 (1#3)) (12#1) (40#1) Hnever)).
  vm_compute. discriminate.
Defined.

Lemma failed_render_makes_dual_test_unknown_witness :
  ((exists message, Ok (spikeAt4500 (1#2), 12#1) = Throw message) \/
   (exists message, Throw "NotSupportedError" = Throw (A := list Q * Q) message)) /\
  analysis (runDualCompressorTest showQ
              (Ok (spikeAt4500 (1#2), 12#1)) (Throw "NotSupportedError")) = unknownResult.
Proof.
  assert (H : (exists message, Ok (spikeAt4500 (1#2), 12#1) = Throw message) \/
              (exists message,
                 Throw "NotSupportedError" = Throw (A := list Q * Q) message)).
  { right. exists "NotSupportedError". reflexivity. }
  split; [exact H|].
  exact (proj1 (failed_render_makes_dual_test_unknown showQ
                  (Ok (spikeAt4500 (1#2), 12#1)) (Throw "NotSupportedError") H)).
Defined.

End AudioRenderFacts.

(** ** [CanvasUtils.detectRenderingConsistency] *)

Module ConsistencyFacts.
Import CanvasUtils.

Lemma every_same (first : string) (results : list string) :
  forallb (fun data => (data =? first)%string) results = true
  <-> forall data, In data results -> data = first.
Proof.
  rewrite forallb_forall. split; intros H data Hin.
  - now apply String.eqb_eq, H.
  - now apply String.eqb_eq, H.
Qed.

Lemma one_distinct_value (results : list string) :
  (List.length (nodup string_dec results) <= 1)%nat
  <-> forall x y, In x results -> In y results -> x = y.
Proof.
  split.
  - intros Hlen x y Hx Hy.
    apply (nodup_In string_dec) in Hx, Hy.
    destruct (nodup string_dec results) as [|z [|z' rest]].
    + contradiction.
    + destruct Hx as [<-|[]], Hy as [<-|[]]. reflexivity.
    + cbn in Hlen. lia.
  - intro Hsame.
    pose proof (NoDup_nodup string_dec results) as Hnd.
    destruct (nodup string_dec results) as [|z [|z' rest]] eqn:E; cbn; try lia.
    exfalso.
    assert (Hz : In z results) by (apply (nodup_In string_dec); rewrite E; now left).
    assert (Hz' : In z' results)
      by (apply (nodup_In string_dec); rewrite E; right; now left).
    apply NoDup_cons_iff in Hnd as [Hfresh _]. apply Hfresh. left.
    symmetry. now apply Hsame.
Qed.

(** The two summaries of the repeated renders agree: [isConsistent] (every
    read-out equals the first) holds exactly when [uniqueResults] (the size of
    the set of read-outs) is at most one; with at least one render
    [uniqueResults] is at least one; and [hasDynamicNoise] is the negation of
    [isConsistent]. *)
Theorem consistency_summaries_agree :
  forall results : list string,
    let t := detectRenderingConsistency results in
    exists n,
      uniqueResults t = Some n /\
      (isConsistent t = true <-> (n <= 1)%nat) /\
      (results <> [] -> (1 <= n)%nat) /\
      hasDynamicNoise t = Some (negb (isConsistent t)).
Proof.
  intros results t. exists (List.length (nodup string_dec results)).
  unfold t, detectRenderingConsistency. cbv zeta.
  cbn [uniqueResults isConsistent hasDynamicNoise].
  split; [reflexivity|]. split; [|split; [|reflexivity]].
  - rewrite every_same, one_distinct_value. split.
    + intros H x y Hx Hy. rewrite (H x Hx), (H y Hy). reflexivity.
    + intros H data Hin. apply H; [assumption|].
      destruct results as [|r rest]; [contradiction|]. now left.
  - intro Hne. destruct results as [|r rest]; [contradiction|].
    assert (Hin : In r (nodup string_dec (r :: rest)))
      by (apply nodup_In; now left).
    destruct (nodup string_dec (r :: rest)); [contradiction|cbn; lia].
Qed.

End ConsistencyFacts.

(** ** The two routes of the API *)

Module HandlerFacts.
Import Backend Service Scenario2.

Section Routes.

Variable strings_TrimSpace : string -> string.
Variable sha256_Sum256 : string -> list byte.

Lemma served_rows (db : Database) (c : Call) (row : Analysis) :
  In row (analysis (serve strings_TrimSpace sha256_Sum256 db c)) ->
  In row (analysis db) \/ a_FingerprintHash row = chooseHash sha256_Sum256 (call_req c).
Proof.
  unfold serve, ProcessFingerprint. cbv zeta.
  destruct (saveFails (call_faults c)); [now left|].
  destruct (analysisFault (call_faults c)).
  - destruct (BackendFacts.analyze_returns (call_now c) (analysis db)
                (buildFingerprint strings_TrimSpace sha256_Sum256 (call_req c) (call_ip c)
                   (call_now c)) (call_req c)) as (new & Hrun & Hh & _).
    rewrite Hrun. cbn [fst analysis]. unfold saveAnalysis. rewrite in_app_iff.
    intros [Hin | [<- | []]].
    + left. now apply filter_In in Hin.
    + right. exact Hh.
  - cbn [analyzeFingerprintWithNoise fst analysis]. now left.
  - cbn [analyzeFingerprintWithNoise fst analysis]. now left.
Qed.

Lemma run_rows (calls : list Call) :
  forall (db : Database) (row : Analysis),
    In row (analysis (fold_left (serve strings_TrimSpace sha256_Sum256) calls db)) ->
    In row (analysis db) \/
    exists c, In c calls /\ a_FingerprintHash row = chooseHash sha256_Sum256 (call_req c).
Proof.
  induction calls as [|c calls IH]; intros db row Hin; [now left|].
  cbn [fold_left] in Hin. apply IH in Hin as [Hin | (c' & Hc' & Hh)].
  - apply served_rows in Hin as [Hin | Hh]; [now left|].
    right. exists c. split; [now left|exact Hh].
  - right. exists c'. split; [now right|exact Hh].
Qed.

(** A hash that no request of a run was stored under has no analysis: after
    any run of submissions from the empty database, whichever database calls
    failed, [GET /api/analysis/:hash] answers 404 for it. *)
Theorem unseen_hash_is_not_found :
  forall (calls : list Call) (hash : string),
    hash <> EmptyString ->
    (forall c, In c calls -> chooseHash sha256_Sum256 (call_req c) <> hash) ->
    Handlers.GetAnalysis false (serveAll strings_TrimSpace sha256_Sum256 calls) hash
      = Handlers.failure Handlers.StatusNotFound.
Proof.
  intros calls hash Hne Hunseen. unfold Handlers.GetAnalysis, GetAnalysis.
  apply String.eqb_neq in Hne. rewrite Hne.
  destruct (queryRow _ hash) as [row|] eqn:Hrow; [exfalso|reflexivity].
  unfold queryRow in Hrow. apply find_some in Hrow as [Hin Hh].
  apply BackendFacts.hasHash_true in Hh.
  apply run_rows in Hin as [[] | (c & Hc & Hsame)].
  apply (Hunseen c Hc). congruence.
Qed.

(** A well-formed [POST /api/fingerprint] that meets no database error is
    answered 200 with the hash and the analysis, the stored fingerprint
    carries the address [GetClientIP] extracts from the headers, and a
    following [GET /api/analysis/:hash] with the hash of the answer is
    answered 200 with the same analysis. *)
Theorem post_then_get_returns_analysis :
  forall (now : Z) (db : Database) (req : FingerprintRequest)
         (xff realIP remoteAddr : string),
    chooseHash sha256_Sum256 req <> EmptyString ->
    let posted := Handlers.SubmitFingerprint strings_TrimSpace sha256_Sum256
                    noFaults now db (Some req) xff realIP remoteAddr in
    exists row,
      snd posted
        = {| Handlers.status := Handlers.StatusOK;
             Handlers.success := true;
             Handlers.fingerprint_hash := Some (chooseHash sha256_Sum256 req);
             Handlers.reply_analysis := Some row |} /\
      map IPAddress (fingerprintsFor (chooseHash sha256_Sum256 req) (fst posted))
        = [Utils.GetClientIP strings_TrimSpace xff realIP remoteAddr] /\
      Handlers.GetAnalysis false (fst posted) (chooseHash sha256_Sum256 req)
        = {| Handlers.status := Handlers.StatusOK;
             Handlers.success := true;
             Handlers.fingerprint_hash := None;
             Handlers.reply_analysis := Some row |}.
Proof.
  intros now db req xff realIP remoteAddr Hne posted.
  destruct (ServiceFacts.process_without_faults strings_TrimSpace sha256_Sum256 now db req
              (Utils.GetClientIP strings_TrimSpace xff realIP remoteAddr))
    as (row & Hrun & Hh & _).
  exists row. unfold posted, Handlers.SubmitFingerprint. cbv zeta. rewrite Hrun.
  cbn [fst snd resp_Success resp_FingerprintHash resp_Analysis].
  split; [reflexivity|]. split.
  - unfold fingerprintsFor, saveFingerprint. cbn [fingerprints].
    rewrite filter_app. cbn [filter buildFingerprint FingerprintHash].
    rewrite String.eqb_refl, ServiceFacts.fingerprintsFor_purged. reflexivity.
  - unfold Handlers.GetAnalysis, GetAnalysis. cbn [analysis].
    apply String.eqb_neq in Hne. rewrite Hne.
    rewrite <- Hh, ServiceFacts.queryRow_saved. reflexivity.
Qed.

End Routes.

Lemma unseen_hash_is_not_found_witness :
  "feed" <> EmptyString /\
  (forall c,
     In c [{| call_faults := noFaults; call_now := 7;
              call_req := requestOf "c0ffee" "Mozilla/5.0" "data:," ["Arial"];
              call_ip := "192.0.2.1" |}] ->
     chooseHash textDigest (call_req c) <> "feed") /\
  Handlers.GetAnalysis false
    (serveAll keepText textDigest
       [{| call_faults := noFaults; call_now := 7;
           call_req := requestOf "c0ffee" "Mozilla/5.0" "data:," ["Arial"];
           call_ip := "192.0.2.1" |}]) "feed"
  = Handlers.failure Handlers.StatusNotFound.
Proof.
  assert (Hne : "feed" <> EmptyString) by discriminate.
  assert (Hunseen : forall c,
            In c [{| call_faults := noFaults; call_now := 7;
                     call_req := requestOf "c0ffee" "Mozilla/5.0" "data:," ["Arial"];
                     call_ip := "192.0.2.1" |}] ->
            chooseHash textDigest (call_req c) <> "feed").
  { intros c [<- | []]. vm_compute. discriminate. }
  split; [exact Hne|]. split; [exact Hunseen|].
  exact (unseen_hash_is_not_found keepText textDigest _ "feed" Hne Hunseen).
Defined.

Lemma post_then_get_returns_analysis_witness :
  chooseHash textDigest (requestOf "c0ffee" "Mozilla/5.0" "data:," ["Arial"]) <> EmptyString /\
  exists row,
    Handlers.GetAnalysis false
      (fst (Handlers.SubmitFingerprint keepText textDigest noFaults 7 emptyDatabase
              (Some (requestOf "c0ffee" "Mozilla/5.0" "data:," ["Arial"]))
              "203.0.113.9, 10.0.0.1" EmptyString "10.0.0.1:443"))
      (chooseHash textDigest (requestOf "c0ffee" "Mozilla/5.0" "data:," ["Arial"]))
    = {| Handlers.status := Handlers.StatusOK;
         Handlers.success := true;
         Handlers.fingerprint_hash := None;
         Handlers.reply_analysis := Some row |}.
Proof.
  assert (Hne : chooseHash textDigest (requestOf "c0ffee" "Mozilla/5.0" "data:," ["Arial"])
                <> EmptyString) by (vm_compute; discriminate).
  split; [exact Hne|].
  destruct (post_then_get_returns_analysis keepText textDigest 7 emptyDatabase
              (requestOf "c0ffee" "Mozilla/5.0" "data:," ["Arial"])
              "203.0.113.9, 10.0.0.1" EmptyString "10.0.0.1:443" Hne)
    as (row & _ & _ & Hget).
  exists row. exact Hget.
Defined.

End HandlerFacts.
